(** * The UFO batch import script ([scripts/import-ufo-batch.py])

    A shallow embedding of the scoring functions, the text sanitizer, the
    record transformer and the selection and batch-insert loop of [main],
    together with the properties the specification states about them.

    Conventions of the embedding.
    - A raw record is what [json.load] yields for a JSON object: a dictionary
      from keys to JSON values ([pyval]).  Nothing is assumed about which
      keys are there or which type a value has.
    - Python integers are [Z], Python floats are binary64 ([float]).
    - A Python [str] is a [string]; one [ascii] stands for one character
      (code points below 256).
    - A function that may raise returns a [result].
    - What lies outside the script is a parameter: the text Python's [str()]
      gives for a value that is not a string ([str_of]), and the database
      client behind the batch insert ([sink]). *)

From Stdlib Require Import ZArith Floats String Ascii List Lia Bool DecimalString.
From Stdlib Require Import Sorted Permutation.
From stdpp Require Import gmap strings list.

Local Open Scope Z_scope.
#[local] Set Warnings "-register-all".

(** ** Exceptions *)

(** The exceptions the script can meet in its own code.  Indexing a
    dictionary with a slice is refused with an exception whose class depends
    on the interpreter: a [TypeError] (unhashable type: 'slice') up to Python
    3.11, a [KeyError] from Python 3.12 on, where a slice is hashable and is
    looked up as a key, which a dictionary loaded from JSON never has.
    [DictSliceError] stands for that exception. *)
Inductive pyexc := TypeError | OverflowError | DictSliceError.

Inductive result (A : Type) :=
| Ok (a : A)
| Raise (e : pyexc).
Arguments Ok {A} a.
Arguments Raise {A} e.

#[global] Instance result_ret : MRet result := @Ok.
#[global] Instance result_bind : MBind result :=
  λ A B f m, match m with Ok a => f a | Raise e => Raise e end.

Definition returns {A} (m : result A) : Prop := ∃ a, m = Ok a.

(** ** JSON values as Python sees them *)

Inductive pyval :=
| VNone
| VBool (b : bool)
| VInt (z : Z)
| VFloat (f : float)
| VStr (s : string)
| VList (l : list pyval)
| VDict (d : gmap string pyval).

Abbreviation record := (gmap string pyval).

(** [bool(v)]: the truth value Python's [if], [and], [or] and [not] use. *)
Definition truthy (v : pyval) : bool :=
  match v with
  | VNone => false
  | VBool b => b
  | VInt z => negb (z =? 0)
  | VFloat f => negb (PrimFloat.eqb f 0%float)
  | VStr s => negb (String.eqb s "")
  | VList l => match l with [] => false | _ :: _ => true end
  | VDict d => negb (bool_decide (d = ∅))
  end.

Definition is_none (v : pyval) : bool :=
  match v with VNone => true | _ => false end.

(** [r.get(k)] and [r.get(k, d)]. *)
Definition get (r : record) (k : string) : pyval := default VNone (r !! k).
Definition get_or (r : record) (k : string) (d : pyval) : pyval := default d (r !! k).

(** ** Numbers *)

Inductive pynum :=
| PInt (z : Z)
| PFloat (f : float).

Definition val_of_num (n : pynum) : pyval :=
  match n with PInt z => VInt z | PFloat f => VFloat f end.

(** The operand of an arithmetic operator or an ordering comparison:
    [bool] is a subclass of [int]; anything else but a number is refused. *)
Definition as_number (v : pyval) : result pynum :=
  match v with
  | VBool b => Ok (PInt (if b then 1 else 0))
  | VInt z => Ok (PInt z)
  | VFloat f => Ok (PFloat f)
  | _ => Raise TypeError
  end.

(** Python compares a float with an integer exactly. *)
Definition float_cmp_Z (f : float) (z : Z) : option comparison :=
  match Prim2SF f with
  | S754_nan => None
  | S754_zero _ => Some (0 ?= z)
  | S754_infinity s => Some (if s then Lt else Gt)
  | S754_finite s m e =>
      let sm := if s then Z.neg m else Z.pos m in
      Some (if 0 <=? e then sm * 2 ^ e ?= z else sm ?= z * 2 ^ (- e))
  end.

Definition num_compare (a b : pynum) : option comparison :=
  match a, b with
  | PInt x, PInt y => Some (x ?= y)
  | PFloat f, PFloat g =>
      match PrimFloat.compare f g with
      | FEq => Some Eq
      | FLt => Some Lt
      | FGt => Some Gt
      | FNotComparable => None
      end
  | PFloat f, PInt y => float_cmp_Z f y
  | PInt x, PFloat g => CompOpp <$> float_cmp_Z g x
  end.

Definition num_lt (a b : pynum) : bool :=
  match num_compare a b with Some Lt => true | _ => false end.
Definition num_gt (a b : pynum) : bool :=
  match num_compare a b with Some Gt => true | _ => false end.
Definition num_ge (a b : pynum) : bool :=
  match num_compare a b with Some Gt | Some Eq => true | _ => false end.

(** [int] to [float], as a mixed operation converts its integer operand:
    correctly rounded, [OverflowError] beyond the range of a float. *)
Definition float_of_Z (z : Z) : result float :=
  match binary_normalize prec emax z 0 false with
  | S754_infinity _ => Raise OverflowError
  | sf => Ok (SF2Prim sf)
  end.

Definition num_add (a b : pynum) : result pynum :=
  match a, b with
  | PInt x, PInt y => Ok (PInt (x + y))
  | PFloat f, PFloat g => Ok (PFloat (f + g))
  | PInt x, PFloat g => f ← float_of_Z x; Ok (PFloat (f + g))
  | PFloat f, PInt y => g ← float_of_Z y; Ok (PFloat (f + g))
  end.

Definition num_sub (a b : pynum) : result pynum :=
  match a, b with
  | PInt x, PInt y => Ok (PInt (x - y))
  | PFloat f, PFloat g => Ok (PFloat (f - g))
  | PInt x, PFloat g => f ← float_of_Z x; Ok (PFloat (f - g))
  | PFloat f, PInt y => g ← float_of_Z y; Ok (PFloat (f - g))
  end.

(** [min(a, b)]: the first argument unless the second is smaller. *)
Definition py_min (a b : pynum) : pynum := if num_lt b a then b else a.

(** [v > n], [v < n] for a value [v] read from the record. *)
Definition val_gt (v : pyval) (n : Z) : result bool :=
  a ← as_number v; Ok (num_gt a (PInt n)).
Definition val_lt (v : pyval) (n : Z) : result bool :=
  a ← as_number v; Ok (num_lt a (PInt n)).

(** [r.get(k) and r[k] > n], as a condition. *)
Definition present_and_gt (r : record) (k : string) (n : Z) : result bool :=
  let v := get r k in
  if truthy v then val_gt v n else Ok false.

(** [if c: score += k]. *)
Definition incr_if (c : bool) (k : Z) (score : pynum) : result pynum :=
  if c then num_add score (PInt k) else Ok score.

(** ** The scorers *)

(** [r.get('shape') and r['shape'] not in ['unknown', 'other', 'light']]. *)
Definition shape_is_specific (r : record) : bool :=
  let v := get r "shape" in
  truthy v &&
  match v with
  | VStr s => negb (bool_decide (s ∈ ["unknown"; "other"; "light"]%string))
  | _ => true
  end.

Definition quality_score (r : record) : result pynum :=
  let score := PInt 0 in
  score ← incr_if (truthy (get r "physiological_effects")) 3 score;
  score ← incr_if (truthy (get r "em_interference")) 3 score;
  score ← incr_if (truthy (get r "earthquake_nearby")) 2 score;
  score ← incr_if (truthy (get r "geomagnetic_storm")) 2 score;
  c ← present_and_gt r "witness_count" 1;
  score ← (if c : bool
           then w ← as_number (get r "witness_count");
                num_add score (py_min (PInt 3) w)
           else Ok score);
  c ← present_and_gt r "duration_seconds" 60;
  score ← incr_if c 1 score;
  score ← incr_if (shape_is_specific r) 1 score;
  Ok score.

Definition calc_triage_score (r : record) : result pynum :=
  let score := PInt 0 in
  score ← incr_if (truthy (get r "latitude") && truthy (get r "longitude")) 3 score;
  c ← present_and_gt r "witness_count" 1;
  score ← (if c : bool
           then w ← as_number (get r "witness_count");
                d ← num_sub w (PInt 1);
                num_add score (py_min (PInt 2) d)
           else Ok score);
  c ← present_and_gt r "duration_seconds" 0;
  score ← incr_if c 1 score;
  score ← incr_if (truthy (get r "physical_effects")
                   || truthy (get r "physiological_effects")) 2 score;
  score ← incr_if (truthy (get r "em_interference")) 1 score;
  score ← incr_if (truthy (get r "source")) 1 score;
  Ok (py_min (PInt 10) score).

(** The score of [calc_confound_score] only ever receives integer
    constants, so it is kept in [Z]. *)
Definition calc_confound_score (r : record) : result Z :=
  let score := 0 in
  let airport := get r "airport_nearby_km" in
  score ← (if negb (is_none airport) then
             c ← val_lt airport 10;
             if c : bool then Ok (score + 40) else
             c ← val_lt airport 30;
             if c : bool then Ok (score + 25) else
             c ← val_lt airport 50;
             if c : bool then Ok (score + 10) else Ok score
           else Ok score);
  let military := get r "military_base_nearby_km" in
  score ← (if negb (is_none military) then
             c ← val_lt military 30;
             if c : bool then Ok (score + 30) else
             c ← val_lt military 50;
             if c : bool then Ok (score + 15) else Ok score
           else Ok score);
  let score := if truthy (get r "physiological_effects") then score - 20 else score in
  let score := if truthy (get r "em_interference") then score - 15 else score in
  Ok (Z.max 0 (Z.min 100 score)).

(** ** Text *)

Definition is_nul (c : ascii) : bool := Ascii.eqb c zero.

(** Whitespace as [str.strip] sees it (the characters [str.isspace] accepts,
    for code points below 256). *)
Definition py_isspace (c : ascii) : bool :=
  let n := N_of_ascii c in
  ((9 <=? n) && (n <=? 13) || (28 <=? n) && (n <=? 32) || (n =? 133) || (n =? 160))%N.

(** [s.replace('\x00', '')]. *)
Fixpoint remove_nul (s : string) : string :=
  match s with
  | EmptyString => EmptyString
  | String c s' => if is_nul c then remove_nul s' else String c (remove_nul s')
  end.

Fixpoint lstrip (s : string) : string :=
  match s with
  | EmptyString => EmptyString
  | String c s' => if py_isspace c then lstrip s' else s
  end.

Fixpoint rstrip (s : string) : string :=
  match s with
  | EmptyString => EmptyString
  | String c s' =>
      match rstrip s' with
      | EmptyString => if py_isspace c then EmptyString else String c EmptyString
      | t => String c t
      end
  end.

(** [s.strip()]. *)
Definition strip (s : string) : string := rstrip (lstrip s).

Fixpoint str_take (n : nat) (s : string) : string :=
  match n, s with
  | S n', String c s' => String c (str_take n' s')
  | _, _ => EmptyString
  end.

(** [s[:k]]: a negative bound counts from the end. *)
Definition slice_to (k : Z) (s : string) : string :=
  if 0 <=? k then str_take (Z.to_nat k) s
  else str_take (String.length s - Z.to_nat (- k)) s.

(** [v[:k]] for a value [v]: strings and lists can be sliced; a number, a
    boolean or [None] is not subscriptable ([TypeError]); a dictionary
    refuses the slice as a key ([DictSliceError]). *)
Definition val_slice_to (k : Z) (v : pyval) : result pyval :=
  match v with
  | VStr s => Ok (VStr (slice_to k s))
  | VList l =>
      Ok (VList (if 0 <=? k then take (Z.to_nat k) l
                 else take (length l - Z.to_nat (- k)) l))
  | VDict _ => Raise DictSliceError
  | _ => Raise TypeError
  end.

Definition SYSTEM_USER_ID : string := "00000000-0000-0000-0000-000000000000".
Definition BATCH_SIZE : nat := 500.
Definition MAX_RECORDS : nat := 5000.

Definition dict_of (l : list (string * pyval)) : pyval := VDict (list_to_map l).

(** The status block of [transform_record] (the [if]/[elif]/[else] on the
    two scores). *)
Definition triage_status_of (triage_score : pynum) (confound_score : Z) : string :=
  if num_ge triage_score (PInt 7) && (confound_score <? 30) then "verified"
  else if num_ge triage_score (PInt 4) || (confound_score <? 50) then "provisional"
  else "pending".

Section Rendering.

(** Python's [str()] of a value that is not itself a string (the text of a
    number, a list, ...) is not spelled out: it is a parameter. *)
Variable str_of : pyval → string.

Definition py_str (v : pyval) : string :=
  match v with VStr s => s | _ => str_of v end.

Definition clean_text (text : pyval) (max_len : Z) : string :=
  if negb (truthy text) then ""
  else slice_to max_len (strip (remove_nul (py_str text))).

(** The title block of [transform_record]. *)
Definition make_title (r : record) : result string :=
  date_str ← (if truthy (get r "date_time")
              then val_slice_to 10 (get_or r "date_time" (VStr ""))
              else Ok (VStr "Unknown"));
  let city := clean_text (get_or r "city" (VStr "Unknown")) 50 in
  let state := clean_text (get_or r "state" (VStr "")) 20 in
  let shape := clean_text (get_or r "shape" (VStr "")) 20 in
  Ok (slice_to 200
        ((if truthy (VStr shape) then shape +:+ " " else "")
         +:+ "UFO - " +:+ city +:+ ", " +:+ state
         +:+ " (" +:+ py_str date_str +:+ ")")).

(** [clean_text(r.get('description', ''), 500) or 'UFO sighting report']. *)
Definition make_description (r : record) : string :=
  let d := clean_text (get_or r "description" (VStr "")) 500 in
  if truthy (VStr d) then d else "UFO sighting report".

Definition make_raw_data (r : record) (triage_score : pynum) (confound_score : Z) : pyval :=
  dict_of [
    ("date_time", get r "date_time");
    ("local_sidereal_time", get r "local_sidereal_time");
    ("duration_seconds", get r "duration_seconds");
    ("shape", get r "shape");
    ("witness_count", get r "witness_count");
    ("location", dict_of [
       ("city", get r "city");
       ("state", get r "state");
       ("country", get r "country");
       ("latitude", get r "latitude");
       ("longitude", get r "longitude")]);
    ("geophysical", dict_of [
       ("nearest_fault_line_km", get r "nearest_fault_line_km");
       ("bedrock_type", get r "bedrock_type");
       ("piezoelectric_bedrock", get r "piezoelectric_bedrock");
       ("earthquake_nearby", get r "earthquake_nearby");
       ("earthquake_count", get r "earthquake_count");
       ("max_magnitude", get r "max_magnitude");
       ("population_density", get r "population_density")]);
    ("geomagnetic", dict_of [
       ("kp_index", get r "kp_index");
       ("kp_max", get r "kp_max");
       ("geomagnetic_storm", get r "geomagnetic_storm")]);
    ("confounds", dict_of [
       ("military_base_nearby_km", get r "military_base_nearby_km");
       ("airport_nearby_km", get r "airport_nearby_km");
       ("weather_conditions", get r "weather_conditions")]);
    ("effects", dict_of [
       ("physical_effects", get r "physical_effects");
       ("physical_effects_desc", get r "physical_effects_desc");
       ("physiological_effects", get r "physiological_effects");
       ("physiological_effects_desc", get r "physiological_effects_desc");
       ("em_interference", get r "em_interference");
       ("em_interference_desc", get r "em_interference_desc")]);
    ("source", get r "source");
    ("source_id", get r "source_id");
    ("quality_score", val_of_num triage_score);
    ("confound_score", VInt confound_score)].

Definition transform_record (r : record) : result record :=
  triage_score ← calc_triage_score r;
  confound_score ← calc_confound_score r;
  let status := triage_status_of triage_score confound_score in
  title ← make_title r;
  let desc := make_description r in
  let raw_data := make_raw_data r triage_score confound_score in
  Ok (list_to_map [
    ("user_id", VStr SYSTEM_USER_ID);
    ("investigation_type", VStr "ufo");
    ("title", VStr title);
    ("description", VStr desc);
    ("raw_data", raw_data);
    ("triage_score", val_of_num triage_score);
    ("triage_status", VStr status);
    ("triage_notes",
       VStr ("Batch import. Quality: " +:+ py_str (val_of_num triage_score)
             +:+ "/10, Confound: " +:+ py_str (VInt confound_score) +:+ "%"))]).

End Rendering.

(** ** Selection (the first half of [main]) *)

(** A list comprehension whose condition may raise. *)
Fixpoint filterM {A} (p : A → result bool) (l : list A) : result (list A) :=
  match l with
  | [] => Ok []
  | x :: l' =>
      b ← p x;
      rest ← filterM p l';
      Ok (if b : bool then x :: rest else rest)
  end.

Definition is_tier1 (r : record) : bool :=
  truthy (get r "latitude") && truthy (get r "longitude")
  && truthy (get r "local_sidereal_time").

(** The [or] chain stops at the first truthy flag, so the comparison on
    [witness_count] is reached only when the three flags are falsy. *)
Definition is_high_signal (r : record) : result bool :=
  if truthy (get r "physiological_effects") then Ok true
  else if truthy (get r "em_interference") then Ok true
  else if truthy (get r "earthquake_nearby") then Ok true
  else present_and_gt r "witness_count" 1.

(** [list.sort(key=..., reverse=True)]: the keys are computed once, then the
    list is sorted on them with [<]; the sort is stable, also when reversed,
    so elements with equal keys keep their order. *)
Fixpoint insert_desc {A} (x : pynum * A) (l : list (pynum * A)) : list (pynum * A) :=
  match l with
  | [] => [x]
  | y :: l' => if num_lt x.1 y.1 then y :: insert_desc x l' else x :: y :: l'
  end.

Definition sort_desc {A} (l : list (pynum * A)) : list (pynum * A) :=
  foldr insert_desc [] l.

Definition sort_by_quality (l : list record) : result (list record) :=
  keys ← mapM quality_score l;
  Ok (sort_desc (zip keys l)).*2.

Definition high_signal_of (records : list record) : result (list record) :=
  let tier1 := List.filter is_tier1 records in
  filterM is_high_signal tier1.

Definition select (max_records : nat) (records : list record) : result (list record) :=
  high_signal ← high_signal_of records;
  high_signal ← sort_by_quality high_signal;
  Ok (take max_records high_signal).

(** ** The batch-insert loop (the second half of [main]) *)

(** [range(0, stop, step)] for a positive [step]. *)
Fixpoint range_from (fuel i stop step : nat) : list nat :=
  match fuel with
  | O => []
  | S fuel' =>
      if (i <? stop)%nat then i :: range_from fuel' (i + step) stop step else []
  end.

Definition py_range (stop step : nat) : list nat := range_from stop 0 stop step.

(** [l[i:j]] for [0 <= i <= j]. *)
Definition slice {A} (l : list A) (i j : nat) : list A := take (j - i) (drop i l).

(** One call of the sink: the batch sent and whether the call returned
    ([true]) or raised ([false]). *)
Abbreviation call := (list record * bool)%type.

Record loop_state := {
  imported : nat;
  failed : nat;
  calls : list call
}.

Section Sink.

(** The database client is outside the script.  Whether an insert returns or
    raises may depend on everything sent before and on the batch itself. *)
Variable sink : list call → list record → bool.

Definition insert_batch (investigations : list record) (batch_size : nat)
    (st : loop_state) (i : nat) : loop_state :=
  let batch := slice investigations i (i + batch_size) in
  if sink (calls st) batch
  then {| imported := imported st + length batch;
          failed := failed st;
          calls := calls st ++ [(batch, true)] |}
  else {| imported := imported st;
          failed := failed st + length batch;
          calls := calls st ++ [(batch, false)] |}.

Definition import_batches (batch_size : nat) (investigations : list record) : loop_state :=
  foldl (insert_batch investigations batch_size)
        {| imported := 0; failed := 0; calls := [] |}
        (py_range (length investigations) batch_size).

End Sink.

Definition main (str_of : pyval → string) (sink : list call → list record → bool)
    (records : list record) : result loop_state :=
  selected ← select MAX_RECORDS records;
  investigations ← mapM (transform_record str_of) selected;
  Ok (import_batches sink BATCH_SIZE investigations).

(** A rendering for the worked examples: [str()] of [None], of a boolean and

    of an integer.  The examples never render a float or a container. *)
Definition str_scalar (v : pyval) : string :=
  match v with
  | VNone => "None"
  | VBool b => if b then "True" else "False"
  | VInt z => NilZero.string_of_int (Z.to_int z)
  | _ => ""
  end.

Definition rec_of (l : list (string * pyval)) : record := list_to_map l.

(** ** The rules of the specification, written from its words

    These definitions follow the text of the specification, not the code;
    the theorems below compare them with the functions above. *)

Definition is_number (v : pyval) : bool :=
  match v with VBool _ | VInt _ | VFloat _ => true | _ => false end.

Definition is_integer (v : pyval) : bool :=
  match v with VBool _ | VInt _ => true | _ => false end.

(** "v < n" for a value that is a number. *)
Definition lt_const (v : pyval) (n : Z) : bool :=
  match as_number v with Ok a => num_lt a (PInt n) | Raise _ => false end.

(** "v > n" for a value that is a number. *)
Definition gt_const (v : pyval) (n : Z) : bool :=
  match as_number v with Ok a => num_gt a (PInt n) | Raise _ => false end.

(** "+40 when <10, else +25 when <30, else +10 when <50, else +0", when the
    distance is there. *)
Definition airport_term (v : pyval) : Z :=
  if is_none v then 0
  else if lt_const v 10 then 40
  else if lt_const v 30 then 25
  else if lt_const v 50 then 10
  else 0.

(** "+30 when <30, else +15 when <50, else +0", when the distance is there. *)
Definition military_term (v : pyval) : Z :=
  if is_none v then 0
  else if lt_const v 30 then 30
  else if lt_const v 50 then 15
  else 0.

(** "floor at lo, ceiling at hi". *)
Definition clamp (lo hi x : Z) : Z :=
  if x <? lo then lo else if hi <? x then hi else x.

Definition confound_rule (r : record) : Z :=
  clamp 0 100
    (airport_term (get r "airport_nearby_km")
     + military_term (get r "military_base_nearby_km")
     - (if truthy (get r "physiological_effects") then 20 else 0)
     - (if truthy (get r "em_interference") then 15 else 0)).

(** A field the scorers compare with a constant behind a truth test:
    nothing is compared when it is falsy, so only a truthy value has to be a
    number. *)
Definition falsy_or_number (v : pyval) : bool := negb (truthy v) || is_number v.
Definition falsy_or_integer (v : pyval) : bool := negb (truthy v) || is_integer v.

(** A distance is compared whenever it is not [None]. *)
Definition none_or_number (v : pyval) : bool := is_none v || is_number v.

Definition int_of (v : pyval) : Z :=
  match v with
  | VBool b => if b then 1 else 0
  | VInt z => z
  | _ => 0
  end.

(** "present and > n". *)
Definition exceeds (v : pyval) (n : Z) : bool := truthy v && gt_const v n.

(** Quality Scorer: "additive, each independently contributes". *)
Definition quality_rule (r : record) : Z :=
  (if truthy (get r "physiological_effects") then 3 else 0)
  + (if truthy (get r "em_interference") then 3 else 0)
  + (if truthy (get r "earthquake_nearby") then 2 else 0)
  + (if truthy (get r "geomagnetic_storm") then 2 else 0)
  + (if exceeds (get r "witness_count") 1
     then Z.min 3 (int_of (get r "witness_count")) else 0)
  + (if exceeds (get r "duration_seconds") 60 then 1 else 0)
  + (if shape_is_specific r then 1 else 0).

(** Triage Scorer: the terms after the one for the coordinates. *)
Definition triage_other_terms (r : record) : Z :=
  (if exceeds (get r "witness_count") 1
   then Z.min 2 (int_of (get r "witness_count") - 1) else 0)
  + (if exceeds (get r "duration_seconds") 0 then 1 else 0)
  + (if truthy (get r "physical_effects") || truthy (get r "physiological_effects")
     then 2 else 0)
  + (if truthy (get r "em_interference") then 1 else 0)
  + (if truthy (get r "source") then 1 else 0).

(** The same terms as the scorer adds them: to the score so far, one after
    the other, with the cap at 10 at the end. *)
Definition triage_after (score : pynum) (r : record) : result pynum :=
  c ← present_and_gt r "witness_count" 1;
  score ← (if c : bool
           then w ← as_number (get r "witness_count");
                d ← num_sub w (PInt 1);
                num_add score (py_min (PInt 2) d)
           else Ok score);
  c ← present_and_gt r "duration_seconds" 0;
  score ← incr_if c 1 score;
  score ← incr_if (truthy (get r "physical_effects")
                   || truthy (get r "physiological_effects")) 2 score;
  score ← incr_if (truthy (get r "em_interference")) 1 score;
  score ← incr_if (truthy (get r "source")) 1 score;
  Ok (py_min (PInt 10) score).

Definition triage_rule (r : record) : Z :=
  Z.min 10
    ((if truthy (get r "latitude") && truthy (get r "longitude") then 3 else 0)
     + triage_other_terms r).

(** ** What the specification says of a sanitized text *)

Fixpoint has_nul (s : string) : bool :=
  match s with
  | EmptyString => false
  | String c s' => is_nul c || has_nul s'
  end.

Definition starts_with_space (s : string) : bool :=
  match s with
  | EmptyString => false
  | String c _ => py_isspace c
  end.

Fixpoint ends_with_space (s : string) : bool :=
  match s with
  | EmptyString => false
  | String c EmptyString => py_isspace c
  | String _ s' => ends_with_space s'
  end.

(** A text with a null byte in front of a space and a letter, and a text
    with inner spaces. *)
Definition text_nul_space_a : string := String zero " a".
Definition text_a_b_c : string := "a b c".

(** A text longer than three characters after cleaning: a null byte, two
    spaces, six letters, two spaces. *)
Definition text_padded : string := String zero "  abcdef  ".

(** ** The title as the specification words it *)

Definition is_text (v : pyval) : bool :=
  match v with VStr _ => true | _ => false end.

Definition falsy_or_text (v : pyval) : bool := negb (truthy v) || is_text v.

(** "{shape }UFO - {city}, {state} ({date})": the shape with a trailing space
    only if non-empty, the city defaulting to "Unknown" if absent, the date
    the first 10 characters of [date_time] if there is one, else "Unknown";
    the whole cut at 200 characters. *)
Definition title_rule (str_of : pyval → string) (r : record) : string :=
  let shape := clean_text str_of (get r "shape") 20 in
  let city :=
    match r !! "city" with
    | None => "Unknown"
    | Some v => clean_text str_of v 50
    end in
  let state := clean_text str_of (get r "state") 20 in
  let date :=
    match get r "date_time" with
    | VStr (String c s) => str_take 10 (String c s)
    | _ => "Unknown"
    end in
  str_take 200
    ((if String.eqb shape "" then "" else shape +:+ " ")
     +:+ "UFO - " +:+ city +:+ ", " +:+ state +:+ " (" +:+ date +:+ ")").

(** ** The order of Python numbers

    Numbers are placed on the integers extended with two infinities, each
    finite value scaled by [2 ^ 1074] (the smallest exponent of a float is
    -1074, so every finite float becomes an integer).  [NaN] has no place. *)

Inductive ext := NegInf | Fin (x : Z) | PosInf.

Definition ext_compare (a b : ext) : comparison :=
  match a, b with
  | NegInf, NegInf => Eq
  | NegInf, _ => Lt
  | _, NegInf => Gt
  | PosInf, PosInf => Eq
  | PosInf, _ => Gt
  | _, PosInf => Lt
  | Fin x, Fin y => x ?= y
  end.

Definition place_sf (sf : spec_float) : option ext :=
  match sf with
  | S754_nan => None
  | S754_zero _ => Some (Fin 0)
  | S754_infinity s => Some (if s then NegInf else PosInf)
  | S754_finite s m e => Some (Fin ((if s then Z.neg m else Z.pos m) * 2 ^ (e + 1074)))
  end.

Definition place (a : pynum) : option ext :=
  match a with
  | PInt z => Some (Fin (z * 2 ^ 1074))
  | PFloat f => place_sf (Prim2SF f)
  end.

(** A number that is not [NaN]. *)
Definition ordered (a : pynum) : Prop := is_Some (place a).

(** A float that is not negative: a zero, a positive finite float or plus
    infinity. *)
Definition sf_nonneg (sf : spec_float) : bool :=
  match sf with
  | S754_zero _ | S754_finite false _ _ | S754_infinity false => true
  | _ => false
  end.

(** An accumulated score: an integer between 0 and [n], or a float that is
    not negative (hence not [NaN]). *)
Definition small (n : Z) (a : pynum) : Prop :=
  match a with PInt z => 0 ≤ z ≤ n | PFloat f => sf_nonneg (Prim2SF f) = true end.

(** A number that is not negative. *)
Definition nonneg_num (a : pynum) : Prop :=
  match a with PInt z => 0 ≤ z | PFloat f => sf_nonneg (Prim2SF f) = true end.

Definition sf_finite (sf : spec_float) : bool :=
  match sf with S754_zero _ | S754_finite _ _ _ => true | _ => false end.

(** Two keyed elements in the order a descending sort leaves them: the first
    is not lower than the second. *)
Definition key_not_lower {A} (p q : pynum * A) : Prop := num_lt p.1 q.1 = false.

(** ** Records used in the worked examples *)

(** A sighting with a text where the count should be. *)
Definition r_text_count : record := rec_of [("witness_count", VStr "3")].



(** A sighting on the equator. *)
Definition r_equator : record :=
  rec_of [("latitude", VFloat 0); ("longitude", VFloat (-78.5));
          ("source", VStr "nuforc")].

(** A well-formed sighting. *)
Definition r_typical : record :=
  rec_of [("latitude", VFloat 40.75); ("longitude", VFloat (-74));
          ("local_sidereal_time", VFloat 13.25);
          ("date_time", VStr "2020-05-01T00:00:00");
          ("shape", VStr "disk"); ("city", VStr "Reno"); ("state", VStr "NV");
          ("witness_count", VInt 3); ("duration_seconds", VFloat 120.5);
          ("physiological_effects", VBool true);
          ("airport_nearby_km", VFloat 12.5);
          ("military_base_nearby_km", VNone);
          ("source", VStr "nuforc")].



(** The transformed typical sighting. *)
Definition out_typical : record :=
  match transform_record str_scalar r_typical with
  | Ok out => out
  | Raise _ => ∅
  end.



(** Four sightings with coordinates and sidereal time: quality 2, 6, 3, and
    one on the equator. *)
Definition r_two_witnesses : record :=
  rec_of [("latitude", VFloat 1.5); ("longitude", VFloat 2);
          ("local_sidereal_time", VFloat 3); ("witness_count", VInt 2)].
Definition r_em_crowd : record :=
  rec_of [("latitude", VFloat 1.5); ("longitude", VFloat 2);
          ("local_sidereal_time", VFloat 3); ("em_interference", VBool true);
          ("witness_count", VInt 7)].
Definition r_em_only : record :=
  rec_of [("latitude", VFloat 1.5); ("longitude", VFloat 2);
          ("local_sidereal_time", VFloat 3); ("em_interference", VBool true)].
Definition r_em_equator : record :=
  rec_of [("latitude", VFloat 0); ("longitude", VFloat 2);
          ("local_sidereal_time", VFloat 3); ("em_interference", VBool true)].

Definition r_float_pair : record :=
  rec_of [("latitude", VFloat 1.5); ("longitude", VFloat 2);
          ("local_sidereal_time", VFloat 3); ("witness_count", VFloat 2.5)].

Definition sample_records : list record :=
  [r_two_witnesses; r_em_crowd; r_em_only; r_em_equator; r_two_witnesses; r_em_only].

(** ** The log of the batch-insert loop *)

(** A call that raised, a call that returned. *)
Definition raised (c : call) : Prop := c.2 = false.
Definition inserted (c : call) : Prop := c.2 = true.

#[global] Instance raised_dec c : Decision (raised c) := _.
#[global] Instance inserted_dec c : Decision (inserted c) := _.

(** The counters agree with the log of calls, and each logged outcome is the
    answer of the sink to that batch after the calls before it. *)
Definition tally_ok (sink : list call → list record → bool) (st : loop_state) : Prop :=
  failed st = sum_list_with (λ c, length c.1) (filter raised (calls st)) ∧
  imported st = sum_list_with (λ c, length c.1) (filter inserted (calls st)) ∧
  (∀ k batch ok, calls st !! k = Some (batch, ok) → ok = sink (take k (calls st)) batch).

(** A sink that refuses its second call, whatever is sent. *)
Definition sink_second_fails (history : list call) (batch : list record) : bool :=
  negb (length history =? 1)%nat.

(** ** The rest of [transform_record] and [main] *)

(** The f-string of the title, before it is cut at 200 characters. *)
Definition title_text (shape city state date_str : string) : string :=
  (if truthy (VStr shape) then shape +:+ " " else "")
  +:+ "UFO - " +:+ city +:+ ", " +:+ state +:+ " (" +:+ date_str +:+ ")".

(** [r.get('date_time', '')[:10] if r.get('date_time') else 'Unknown'], for
    a [date_time] that is a text or falsy. *)
Definition date_text (r : record) : string :=
  match get r "date_time" with
  | VStr (String c s) => str_take 10 (String c s)
  | _ => "Unknown"
  end.

(** A [date_time] the title block can slice: a text or a list, or a falsy
    value, which is not sliced at all. *)
Definition falsy_or_sliceable (v : pyval) : bool :=
  negb (truthy v) || match v with VStr _ | VList _ => true | _ => false end.

(** The exception [v[:10]] raises for a value that cannot be sliced. *)
Definition slice_error (v : pyval) : pyexc :=
  match v with VDict _ => DictSliceError | _ => TypeError end.

(** The fields [transform_record] computes with, all of a type it accepts. *)
Definition well_typed (r : record) : bool :=
  falsy_or_number (get r "witness_count")
  && falsy_or_number (get r "duration_seconds")
  && none_or_number (get r "airport_nearby_km")
  && none_or_number (get r "military_base_nearby_km")
  && falsy_or_sliceable (get r "date_time").

(** What [transform_record] raises on a record it does not accept: the
    scorers come first, the title after them. *)
Definition transform_error (r : record) : pyexc :=
  if falsy_or_number (get r "witness_count")
     && falsy_or_number (get r "duration_seconds")
     && none_or_number (get r "airport_nearby_km")
     && none_or_number (get r "military_base_nearby_km")
  then slice_error (get r "date_time")
  else TypeError.

(** The condition of the high-signal filter as a truth value: one of the
    three flags is truthy, or the count is truthy and above 1. *)
Definition has_signal (r : record) : bool :=
  truthy (get r "physiological_effects")
  || truthy (get r "em_interference")
  || truthy (get r "earthquake_nearby")
  || exceeds (get r "witness_count") 1.

(** [a <= b] on numbers. *)
Definition num_le (a b : pynum) : bool :=
  match num_compare a b with Some Lt | Some Eq => true | _ => false end.

(** The labels the loop prints with each batch:
    [batch_num = i // BATCH_SIZE + 1] and
    [total_batches = (len(investigations) + BATCH_SIZE - 1) // BATCH_SIZE]. *)
Definition batch_num (batch_size i : nat) : nat := (i / batch_size + 1)%nat.
Definition total_batches (batch_size n : nat) : nat :=
  ((n + batch_size - 1) / batch_size)%nat.

(** The statistics [main] prints at the end: [sum(1 for r in selected if c)]
    for five conditions, the fourth of which compares the count. *)
Record data_quality := {
  with_physiological_effects : nat;
  with_em_interference : nat;
  with_earthquake_nearby : nat;
  with_witness_count : nat;
  with_geomagnetic_storm : nat
}.

Definition count_truthy (k : string) (selected : list record) : nat :=
  length (List.filter (λ r, truthy (get r k)) selected).

Definition data_quality_stats (selected : list record) : result data_quality :=
  let physiological := count_truthy "physiological_effects" selected in
  let em := count_truthy "em_interference" selected in
  let earthquake := count_truthy "earthquake_nearby" selected in
  witnesses ← filterM (λ r, present_and_gt r "witness_count" 1) selected;
  let storm := count_truthy "geomagnetic_storm" selected in
  Ok {| with_physiological_effects := physiological;
        with_em_interference := em;
        with_earthquake_nearby := earthquake;
        with_witness_count := length witnesses;
        with_geomagnetic_storm := storm |}.

(** ** Further records for the worked examples *)

(** A sighting with every signal the quality scorer counts. *)
Definition r_all_signals : record :=
  rec_of [("latitude", VFloat 40.75); ("longitude", VFloat (-74));
          ("local_sidereal_time", VFloat 13.25);
          ("physiological_effects", VBool true); ("em_interference", VBool true);
          ("earthquake_nearby", VBool true); ("geomagnetic_storm", VBool true);
          ("physical_effects", VBool true);
          ("witness_count", VInt 12); ("duration_seconds", VInt 300);
          ("shape", VStr "triangle"); ("source", VStr "nuforc")].

(** A sighting next to an airport and a military base, with no effect
    reported. *)
Definition r_near_bases : record :=
  rec_of [("airport_nearby_km", VFloat 4.5); ("military_base_nearby_km", VInt 12)].

(** A sighting whose timestamp carries a null byte. *)
Definition r_nul_date : record :=
  rec_of [("city", VStr "Reno"); ("date_time", VStr (String zero "2020-05-01"))].

(** A Tier 1 sighting with a flag set and a text where the count should
    be. *)
Definition r_flag_text_count : record :=
  rec_of [("latitude", VFloat 1.5); ("longitude", VFloat 2);
          ("local_sidereal_time", VFloat 3); ("em_interference", VBool true);
          ("witness_count", VStr "3")].

(** A Tier 1 sighting whose only signal is an earthquake, close to an
    airport and a military base. *)
Definition r_quake_near_bases : record :=
  rec_of [("latitude", VFloat 1.5); ("longitude", VFloat 2);
          ("local_sidereal_time", VFloat 3); ("earthquake_nearby", VBool true);
          ("airport_nearby_km", VInt 5); ("military_base_nearby_km", VInt 12)].

(** What [main] leaves behind on the sample records, with a sink that
    refuses its second call. *)
Definition st_sample : loop_state :=
  match main str_scalar sink_second_fails sample_records with
  | Ok st => st
  | Raise _ => {| imported := 0; failed := 0; calls := [] |}
  end.

(** * Properties *)

(** ** The [result] monad *)

Lemma bind_Ok_inv {A B} (m : result A) (f : A → result B) (b : B) :
  m ≫= f = Ok b → ∃ a, m = Ok a ∧ f a = Ok b.
Proof. destruct m as [a|e]; [eauto | discriminate]. Qed.

(** Closed equations are settled by evaluation. *)
Ltac vm_refl :=
  lazymatch goal with
  | |- @eq ?T ?a ?b => exact (@eq_refl T b <: @eq T a b)
  end.

(** ** Integer comparisons *)

Lemma num_ge_int (x y : Z) : num_ge (PInt x) (PInt y) = true ↔ y ≤ x.
Proof.
  unfold num_ge, num_compare.
  destruct (Z.compare_spec x y); split; intros; try lia; try discriminate; auto.
Qed.

Lemma num_lt_int (x y : Z) : num_lt (PInt x) (PInt y) = (x <? y).
Proof.
  unfold num_lt, num_compare.
  destruct (Z.compare_spec x y); symmetry; [apply Z.ltb_ge | apply Z.ltb_lt | apply Z.ltb_ge]; lia.
Qed.

Lemma num_gt_int (x y : Z) : num_gt (PInt x) (PInt y) = (x >? y).
Proof.
  unfold num_gt, num_compare. rewrite Z.gtb_ltb.
  destruct (Z.compare_spec x y); symmetry; [apply Z.ltb_ge | apply Z.ltb_ge | apply Z.ltb_lt]; lia.
Qed.

(** ** The order of numbers *)

Lemma ext_compare_antisym a b : ext_compare b a = CompOpp (ext_compare a b).
Proof. destruct a, b; simpl; try done. apply Z.compare_antisym. Qed.

Lemma ext_compare_not_lt_trans a b c :
  ext_compare a b ≠ Lt → ext_compare b c ≠ Lt → ext_compare a c ≠ Lt.
Proof.
  destruct a, b, c; simpl; try done.
  rewrite !Z.compare_lt_iff. lia.
Qed.

Lemma digits2_pos_bounds m :
  2 ^ (Z.pos (digits2_pos m) - 1) ≤ Z.pos m < 2 ^ Z.pos (digits2_pos m).
Proof.
  induction m as [p IH | p IH |]; simpl digits2_pos.
  - rewrite Pos2Z.inj_succ.
    replace (Z.succ (Z.pos (digits2_pos p)) - 1)
      with (Z.succ (Z.pos (digits2_pos p) - 1)) by lia.
    rewrite !Z.pow_succ_r by lia. lia.
  - rewrite Pos2Z.inj_succ.
    replace (Z.succ (Z.pos (digits2_pos p)) - 1)
      with (Z.succ (Z.pos (digits2_pos p) - 1)) by lia.
    rewrite !Z.pow_succ_r by lia. lia.
  - simpl. lia.
Qed.

(** What validity says of a finite float: the exponent is at least -1074,
    the mantissa is below [2 ^ 53], and at least [2 ^ 52] unless the exponent
    is the smallest one. *)
Lemma valid_finite s m e :
  valid_binary (S754_finite s m e) = true →
  -1074 ≤ e ∧ Z.pos m < 2 ^ 53 ∧ (-1074 < e → 2 ^ 52 ≤ Z.pos m).
Proof.
  unfold SpecFloat.valid_binary, bounded, canonical_mantissa, fexp.
  intros H. apply andb_prop in H as [H _]. apply Z.eqb_eq in H.
  change (SpecFloat.emin prec emax) with (-1074) in H.
  change prec with 53 in H.
  pose proof (digits2_pos_bounds m) as [Hlo Hhi].
  assert (Z.pos (digits2_pos m) ≤ 53) as Hd by lia.
  split; [lia|]. split.
  - eapply Z.lt_le_trans; [exact Hhi|]. apply Z.pow_le_mono_r; lia.
  - intros He. replace (Z.pos (digits2_pos m)) with 53 in Hlo by lia. exact Hlo.
Qed.

Lemma scaled_lt m1 e1 m2 e2 :
  -1074 ≤ e1 → Z.pos m1 < 2 ^ 53 → 2 ^ 52 ≤ Z.pos m2 → e1 < e2 →
  Z.pos m1 * 2 ^ (e1 + 1074) < Z.pos m2 * 2 ^ (e2 + 1074).
Proof.
  intros He1 Hm1 Hm2 He.
  replace (e2 + 1074) with ((e2 - e1) + (e1 + 1074)) by lia.
  rewrite (Z.pow_add_r 2 (e2 - e1) (e1 + 1074)) by lia.
  assert (0 < 2 ^ (e1 + 1074)) by (apply Z.pow_pos_nonneg; lia).
  assert (2 ^ 1 ≤ 2 ^ (e2 - e1)) as Hk by (apply Z.pow_le_mono_r; lia).
  change (2 ^ 1) with 2 in Hk.
  change (2 ^ 53) with (2 * 2 ^ 52) in Hm1.
  rewrite Z.mul_assoc. apply Z.mul_lt_mono_pos_r; [done|]. nia.
Qed.

Lemma compare_cont_Eq m1 m2 : Pos.compare_cont Eq m1 m2 = (Z.pos m1 ?= Z.pos m2).
Proof. reflexivity. Qed.

Lemma compare_scaled (x y k : Z) : 0 < k → (x * k ?= y * k) = (x ?= y).
Proof.
  intros Hk. destruct (Z.compare_spec x y) as [-> | Hlt | Hgt].
  - apply Z.compare_refl.
  - apply Z.compare_lt_iff. by apply Z.mul_lt_mono_pos_r.
  - apply Z.compare_gt_iff. by apply Z.mul_lt_mono_pos_r.
Qed.

Lemma SFcompare_place x y a b :
  valid_binary x = true → valid_binary y = true →
  place_sf x = Some a → place_sf y = Some b →
  SFcompare x y = Some (ext_compare a b).
Proof.
  intros Vx Vy Hx Hy.
  destruct x as [sx|sx| |sx mx ex], y as [sy|sy| |sy my ey]; simpl in Hx, Hy;
    try discriminate; injection Hx as <-; injection Hy as <-;
    cbn -[Z.compare Z.mul Z.pow Z.add];
    try (destruct sx; reflexivity); try (destruct sy; reflexivity);
    try (destruct sx, sy; reflexivity).
  - (* zero, finite *)
    f_equal. assert (0 < 2 ^ (ey + 1074)) by (apply Z.pow_pos_nonneg;
      destruct (valid_finite _ _ _ Vy); lia).
    destruct sy; symmetry; [apply Z.compare_gt_iff | apply Z.compare_lt_iff]; nia.
  - (* finite, zero *)
    f_equal. assert (0 < 2 ^ (ex + 1074)) by (apply Z.pow_pos_nonneg;
      destruct (valid_finite _ _ _ Vx); lia).
    destruct sx; symmetry; [apply Z.compare_lt_iff | apply Z.compare_gt_iff]; nia.
  - (* finite, finite *)
    destruct (valid_finite _ _ _ Vx) as (Hex & Hmx & Hnx).
    destruct (valid_finite _ _ _ Vy) as (Hey & Hmy & Hny).
    assert (0 < 2 ^ (ex + 1074)) by (apply Z.pow_pos_nonneg; lia).
    assert (0 < 2 ^ (ey + 1074)) by (apply Z.pow_pos_nonneg; lia).
    f_equal. destruct sx, sy.
    + (* both negative *)
      destruct (Z.compare_spec ex ey) as [-> | Hlt | Hgt].
      * rewrite compare_cont_Eq, compare_scaled by done. reflexivity.
      * symmetry. apply Z.compare_gt_iff.
        pose proof (scaled_lt mx ex my ey Hex Hmx (Hny ltac:(lia)) Hlt).
        rewrite <- !Pos2Z.opp_pos. lia.
      * symmetry. apply Z.compare_lt_iff.
        pose proof (scaled_lt my ey mx ex Hey Hmy (Hnx ltac:(lia)) ltac:(lia)).
        rewrite <- !Pos2Z.opp_pos. lia.
    + symmetry. apply Z.compare_lt_iff. rewrite <- Pos2Z.opp_pos. nia.
    + symmetry. apply Z.compare_gt_iff. rewrite <- Pos2Z.opp_pos. nia.
    + (* both positive *)
      destruct (Z.compare_spec ex ey) as [-> | Hlt | Hgt].
      * by rewrite compare_cont_Eq, compare_scaled.
      * symmetry. apply Z.compare_lt_iff.
        apply scaled_lt; [done | done | apply Hny; lia | lia].
      * symmetry. apply Z.compare_gt_iff.
        apply scaled_lt; [done | done | apply Hnx; lia | lia].
Qed.

Lemma float_cmp_Z_place f z x :
  place_sf (Prim2SF f) = Some x →
  float_cmp_Z f z = Some (ext_compare x (Fin (z * 2 ^ 1074))).
Proof.
  unfold float_cmp_Z. pose proof (Prim2SF_valid f) as V.
  assert (0 < 2 ^ 1074) as Hsc by (by apply Z.pow_pos_nonneg).
  destruct (Prim2SF f) as [s|s| |s m e]; simpl place_sf; intros Hx;
    try discriminate; injection Hx as <-; cbn -[Z.compare Z.mul Z.pow Z.add].
  - f_equal. rewrite <- (compare_scaled 0 z (2 ^ 1074)) by done. reflexivity.
  - by destruct s.
  - destruct (valid_finite _ _ _ V) as (He & _ & _). f_equal.
    destruct (Z.leb_spec 0 e) as [Hpos | Hneg].
    + rewrite (Z.pow_add_r 2 e 1074), Z.mul_assoc by lia.
      by rewrite compare_scaled.
    + assert (0 < 2 ^ (e + 1074)) by (apply Z.pow_pos_nonneg; lia).
      replace (z * 2 ^ 1074) with (z * 2 ^ (- e) * 2 ^ (e + 1074)).
      * by rewrite compare_scaled.
      * rewrite <- Z.mul_assoc, <- Z.pow_add_r by lia. do 2 f_equal. lia.
Qed.

Lemma num_compare_place a b x y :
  place a = Some x → place b = Some y →
  num_compare a b = Some (ext_compare x y).
Proof.
  assert (0 < 2 ^ 1074) as Hsc by (by apply Z.pow_pos_nonneg).
  destruct a as [za|fa], b as [zb|fb]; simpl place; intros Ha Hb.
  - injection Ha as <-. injection Hb as <-. simpl. by rewrite compare_scaled.
  - injection Ha as <-. cbn [num_compare].
    rewrite (float_cmp_Z_place _ _ _ Hb). simpl option_fmap.
    cbn [fmap option_fmap option_map]. by rewrite <- ext_compare_antisym.
  - injection Hb as <-. cbn [num_compare]. by apply float_cmp_Z_place.
  - cbn [num_compare]. rewrite FloatAxioms.compare_spec.
    rewrite (SFcompare_place _ _ _ _ (Prim2SF_valid fa) (Prim2SF_valid fb) Ha Hb).
    by destruct (ext_compare x y).
Qed.

Lemma num_lt_place a b x y :
  place a = Some x → place b = Some y →
  num_lt a b = match ext_compare x y with Lt => true | _ => false end.
Proof. intros Ha Hb. unfold num_lt. by rewrite (num_compare_place _ _ _ _ Ha Hb). Qed.

(** Among numbers that are not [NaN], "not lower than" is transitive, and
    of two numbers one is not lower than the other. *)
Lemma num_not_lt_trans a b c :
  ordered a → ordered b → ordered c →
  num_lt a b = false → num_lt b c = false → num_lt a c = false.
Proof.
  intros [x Hx] [y Hy] [z Hz].
  rewrite (num_lt_place _ _ _ _ Hx Hy), (num_lt_place _ _ _ _ Hy Hz),
    (num_lt_place _ _ _ _ Hx Hz).
  pose proof (ext_compare_not_lt_trans x y z).
  destruct (ext_compare x y), (ext_compare y z), (ext_compare x z); try done;
    intros _ _; exfalso; by apply H.
Qed.

Lemma num_lt_asym a b :
  ordered a → ordered b → num_lt a b = true → num_lt b a = false.
Proof.
  intros [x Hx] [y Hy].
  rewrite (num_lt_place _ _ _ _ Hx Hy), (num_lt_place _ _ _ _ Hy Hx).
  rewrite (ext_compare_antisym x y). by destruct (ext_compare x y).
Qed.

Lemma ordered_int z : ordered (PInt z).
Proof. by eexists. Qed.

Lemma ordered_float f : Prim2SF f ≠ S754_nan → ordered (PFloat f).
Proof. unfold ordered; simpl. destruct (Prim2SF f); try done; by eexists. Qed.

Lemma ordered_float_inv f : ordered (PFloat f) → Prim2SF f ≠ S754_nan.
Proof. unfold ordered; simpl. intros [x Hx] E. by rewrite E in Hx. Qed.

Lemma compared_ordered a b c : num_compare a b = Some c → ordered a ∧ ordered b.
Proof.
  destruct a as [za|fa], b as [zb|fb]; cbn [num_compare]; intros H;
    (split; [try apply ordered_int | try apply ordered_int]);
    apply ordered_float; intros E.
  - unfold float_cmp_Z in H. rewrite E in H. discriminate.
  - unfold float_cmp_Z in H. by rewrite E in H.
  - rewrite FloatAxioms.compare_spec, E in H. discriminate.
  - rewrite FloatAxioms.compare_spec, E in H. simpl in H.
    by destruct (Prim2SF fa).
Qed.

Lemma num_lt_ordered a b : num_lt a b = true → ordered a ∧ ordered b.
Proof.
  unfold num_lt. destruct (num_compare a b) as [c|] eqn:E; [| done].
  intros _. by eapply compared_ordered.
Qed.

(** *** Sums of floats that are not [NaN] *)

Lemma shr_1_nonneg mrs : 0 ≤ shr_m mrs → 0 ≤ shr_m (shr_1 mrs).
Proof. destruct mrs as [[|[p|p|]|p] r t]; simpl; lia. Qed.

Lemma iter_pos_shr_1_nonneg p mrs :
  0 ≤ shr_m mrs → 0 ≤ shr_m (SpecFloat.iter_pos shr_1 p mrs).
Proof.
  revert mrs. induction p as [p IH|p IH|]; simpl; intros mrs H.
  - apply IH, IH, shr_1_nonneg, H.
  - apply IH, IH, H.
  - apply shr_1_nonneg, H.
Qed.

Lemma shr_fexp_nonneg m e l : 0 ≤ m → 0 ≤ shr_m (shr_fexp prec emax m e l).1.
Proof.
  intros Hm. unfold shr_fexp, shr.
  assert (0 ≤ shr_m (shr_record_of_loc m l)) by (by destruct l as [|[]]).
  destruct (_ - e); simpl; auto using iter_pos_shr_1_nonneg.
Qed.

Lemma binary_round_aux_not_nan s m e l :
  0 ≤ m → binary_round_aux prec emax s m e l ≠ S754_nan.
Proof.
  intros Hm. unfold binary_round_aux.
  pose proof (shr_fexp_nonneg m e l Hm) as H1.
  destruct (shr_fexp prec emax m e l) as [mrs' e']. simpl in H1.
  assert (0 ≤ round_nearest_even (shr_m mrs') (loc_of_shr_record mrs')) as H2.
  { unfold round_nearest_even.
    destruct (loc_of_shr_record mrs') as [|[]]; try lia.
    destruct (Z.even _); lia. }
  pose proof (shr_fexp_nonneg _ e' loc_Exact H2) as H3.
  destruct (shr_fexp prec emax _ e' loc_Exact) as [mrs'' e'']. simpl in H3.
  destruct (shr_m mrs''); [done | | lia].
  by destruct (_ <=? _).
Qed.

Lemma binary_normalize_not_nan m e sz : binary_normalize prec emax m e sz ≠ S754_nan.
Proof.
  destruct m as [|p|p]; simpl; [done | |];
    unfold binary_round; destruct (shl_align _ _ _) as [mz ez];
    by apply binary_round_aux_not_nan.
Qed.

Lemma SFadd_not_nan x y :
  sf_finite x = true → y ≠ S754_nan →
  SF64add x y ≠ S754_nan ∧ SF64add y x ≠ S754_nan.
Proof.
  unfold SF64add.
  destruct x as [sx|sx| |sx mx ex], y as [sy|sy| |sy my ey]; try done; intros _ _;
    cbn -[binary_normalize]; split;
    try done; try (by destruct sx, sy); apply binary_normalize_not_nan.
Qed.

Lemma float_of_Z_small_finite z :
  0 ≤ z ≤ 16 → ∃ f, float_of_Z z = Ok f ∧ sf_finite (Prim2SF f) = true.
Proof.
  intros H.
  assert (z = 0 ∨ z = 1 ∨ z = 2 ∨ z = 3 ∨ z = 4 ∨ z = 5 ∨ z = 6 ∨ z = 7 ∨ z = 8
          ∨ z = 9 ∨ z = 10 ∨ z = 11 ∨ z = 12 ∨ z = 13 ∨ z = 14 ∨ z = 15 ∨ z = 16)
    as Hz by lia.
  repeat (destruct Hz as [-> | Hz]); try subst z;
    match goal with
    | |- ∃ a, float_of_Z ?k = Ok a ∧ _ =>
        exists (match float_of_Z k with Ok f => f | Raise _ => 0%float end);
        split; vm_refl
    end.
Qed.

(** *** Floats that are not negative *)

Lemma sf_nonneg_not_nan x : sf_nonneg x = true → x ≠ S754_nan.
Proof. by destruct x. Qed.

Lemma binary_round_aux_nonneg m e l :
  0 ≤ m → sf_nonneg (binary_round_aux prec emax false m e l) = true.
Proof.
  intros Hm. pose proof (binary_round_aux_not_nan false m e l Hm) as Hn.
  unfold binary_round_aux in *.
  destruct (shr_fexp prec emax m e l) as [mrs' e'].
  destruct (shr_fexp prec emax _ e' loc_Exact) as [mrs'' e''].
  destruct (shr_m mrs''); [done | | done].
  by destruct (_ <=? _).
Qed.

Lemma binary_normalize_nonneg m e sz :
  0 ≤ m → sf_nonneg (binary_normalize prec emax m e sz) = true.
Proof.
  intros Hm. destruct m as [|p|p]; simpl; [done | | lia].
  unfold binary_round. destruct (shl_align _ _ _) as [mz ez].
  by apply binary_round_aux_nonneg.
Qed.

Lemma SFadd_nonneg x y :
  sf_nonneg x = true → sf_nonneg y = true → sf_nonneg (SF64add x y) = true.
Proof.
  unfold SF64add.
  destruct x as [sx|[]| |[] mx ex], y as [sy|[]| |[] my ey]; try done; intros _ _;
    cbn -[binary_normalize]; try (by destruct sx); try (by destruct sy);
    try (by destruct sx, sy).
  apply binary_normalize_nonneg. unfold cond_Zopp. lia.
Qed.

Lemma iter_xO m d : Z.pos (Pos.iter xO m d) = Z.pos m * 2 ^ Z.pos d.
Proof.
  change (Pos.iter xO m d) with (Zpower.shift_pos d m).
  rewrite Zpower.shift_pos_correct. change (Z.pow_pos 2 d) with (2 ^ Z.pos d). lia.
Qed.

Lemma shl_align_value m e e' :
  e' ≤ e → Z.pos (shl_align m e e').1 = Z.pos m * 2 ^ (e - e').
Proof.
  intros H. unfold shl_align. destruct (e' - e) as [|p|p] eqn:E; simpl.
  - replace (e - e') with 0 by lia. lia.
  - lia.
  - rewrite iter_xO. f_equal. f_equal. lia.
Qed.

Lemma num_gt_nonneg f n :
  0 ≤ n → num_gt (PFloat f) (PInt n) = true → sf_nonneg (Prim2SF f) = true.
Proof.
  intros Hn. unfold num_gt, num_compare, float_cmp_Z.
  destruct (Prim2SF f) as [s|s| |s m e]; simpl; try done.
  - by destruct s.
  - destruct s; [|done]. destruct (0 <=? e).
    + destruct (Z.compare_spec (Z.neg m * 2 ^ e) n); try done.
      assert (0 ≤ 2 ^ e) by (apply Z.pow_nonneg; lia). nia.
    + destruct (Z.compare_spec (Z.neg m) (n * 2 ^ (- e))); try done.
      assert (0 ≤ 2 ^ (- e)) by (apply Z.pow_nonneg; lia). nia.
Qed.

Lemma sub_one_nonneg f one :
  num_gt (PFloat f) (PInt 1) = true → float_of_Z 1 = Ok one →
  sf_nonneg (Prim2SF (f - one)) = true.
Proof.
  intros Hgt Hone.
  assert (Prim2SF one = S754_finite false 4503599627370496 (-52)) as E1.
  { assert (one = match float_of_Z 1 with Ok g => g | Raise _ => 0%float end) as ->
      by by rewrite Hone.
    vm_refl. }
  pose proof (num_gt_nonneg f 1 ltac:(lia) Hgt) as Hnn.
  rewrite sub_spec, E1. unfold SF64sub.
  unfold num_gt, num_compare, float_cmp_Z in Hgt.
  destruct (Prim2SF f) as [s|s| |s m e]; try done.
  - destruct s; [done|]. cbn -[binary_normalize shl_align Z.min].
    apply binary_normalize_nonneg. unfold cond_Zopp.
    rewrite !shl_align_value by lia.
    change (Z.pos 4503599627370496) with (2 ^ 52).
    destruct (Z.leb_spec 0 e).
    + destruct (Z.compare_spec (Z.pos m * 2 ^ e) 1); try done.
      rewrite Z.min_r by lia.
      replace (e - -52) with (e + 52) by lia. replace (-52 - -52) with 0 by lia.
      rewrite Z.pow_add_r by lia. nia.
    + destruct (Z.compare_spec (Z.pos m) (1 * 2 ^ (- e))); try done.
      destruct (Z.le_gt_cases (-52) e).
      * rewrite Z.min_r by lia.
        replace (e - -52) with (e + 52) by lia. replace (-52 - -52) with 0 by lia.
        assert (2 ^ (- e) * 2 ^ (e + 52) = 2 ^ 52) as <-
          by (rewrite <- Z.pow_add_r by lia; f_equal; lia).
        assert (0 < 2 ^ (e + 52)) by (apply Z.pow_pos_nonneg; lia). nia.
      * rewrite Z.min_l by lia. replace (e - e) with 0 by lia.
        assert (2 ^ 52 * 2 ^ (-52 - e) = 2 ^ (- e)) as ->
          by (rewrite <- Z.pow_add_r by lia; f_equal; lia).
        lia.
Qed.

Lemma float_of_Z_small_nonneg z :
  0 ≤ z ≤ 16 → ∃ f, float_of_Z z = Ok f ∧ sf_nonneg (Prim2SF f) = true.
Proof.
  intros H. unfold float_of_Z.
  pose proof (binary_normalize_nonneg z 0 false ltac:(lia)) as Hn.
  destruct (float_of_Z_small_finite z H) as (f & Hf & Hfin).
  exists f. split; [done|].
  assert (z = 0 ∨ z = 1 ∨ z = 2 ∨ z = 3 ∨ z = 4 ∨ z = 5 ∨ z = 6 ∨ z = 7 ∨ z = 8
          ∨ z = 9 ∨ z = 10 ∨ z = 11 ∨ z = 12 ∨ z = 13 ∨ z = 14 ∨ z = 15 ∨ z = 16)
    as Hz by lia.
  repeat (destruct Hz as [-> | Hz]); try subst z;
    match goal with
    | H : float_of_Z ?k = Ok f |- _ =>
        assert (f = match float_of_Z k with Ok g => g | Raise _ => 0%float end) as ->
          by (by rewrite H); vm_refl
    end.
Qed.


(** ** Triage status *)

Lemma triage_status_cases (t : pynum) (c : Z) :
  (triage_status_of t c = "verified"
     ↔ num_ge t (PInt 7) = true ∧ c < 30) ∧
  (triage_status_of t c = "provisional"
     ↔ ¬ (num_ge t (PInt 7) = true ∧ c < 30) ∧ (num_ge t (PInt 4) = true ∨ c < 50)) ∧
  (triage_status_of t c = "pending"
     ↔ ¬ (num_ge t (PInt 7) = true ∧ c < 30) ∧ ¬ (num_ge t (PInt 4) = true ∨ c < 50)).
Proof.
  unfold triage_status_of.
  destruct (num_ge t (PInt 7)), (num_ge t (PInt 4)),
    (Z.ltb_spec c 30), (Z.ltb_spec c 50); simpl;
    repeat split; intros; try discriminate; try lia; intuition (try discriminate; try lia).
Qed.

Lemma transform_record_inv str_of r out :
  transform_record str_of r = Ok out →
  ∃ t c title,
    calc_triage_score r = Ok t ∧ calc_confound_score r = Ok c ∧
    make_title str_of r = Ok title ∧
    out !! "title" = Some (VStr title) ∧
    out !! "triage_score" = Some (val_of_num t) ∧
    out !! "triage_status" = Some (VStr (triage_status_of t c)) ∧
    out !! "raw_data" = Some (make_raw_data r t c).
Proof.
  unfold transform_record. intros H.
  apply bind_Ok_inv in H as (t & Ht & H).
  apply bind_Ok_inv in H as (c & Hc & H).
  apply bind_Ok_inv in H as (title & Htitle & H).
  injection H as <-.
  exists t, c, title. repeat split; auto.
Qed.

(** C1. The status the transformer assigns is decided by the pair
    (triage score, confound score) alone: 'verified' exactly when the triage
    score is at least 7 and the confound score below 30; otherwise
    'provisional' exactly when the triage score is at least 4 or the confound
    score below 50; otherwise 'pending'.  On integer scores the comparison is
    the one of the integers, and (7, 29), (7, 30), (3, 60), (0, 10) give
    'verified', 'provisional', 'pending', 'provisional'. *)
Theorem triage_status_rule :
  (∀ str_of r out,
     transform_record str_of r = Ok out →
     ∃ t c, calc_triage_score r = Ok t ∧ calc_confound_score r = Ok c ∧
            out !! "triage_status" = Some (VStr (triage_status_of t c))) ∧
  (∀ (t c : Z),
     (triage_status_of (PInt t) c = "verified" ↔ 7 ≤ t ∧ c < 30) ∧
     (triage_status_of (PInt t) c = "provisional"
        ↔ ¬ (7 ≤ t ∧ c < 30) ∧ (4 ≤ t ∨ c < 50)) ∧
     (triage_status_of (PInt t) c = "pending"
        ↔ ¬ (7 ≤ t ∧ c < 30) ∧ ¬ (4 ≤ t ∨ c < 50))) ∧
  (∀ (t : pynum) (c : Z),
     (triage_status_of t c = "verified"
        ↔ num_ge t (PInt 7) = true ∧ c < 30) ∧
     (triage_status_of t c = "provisional"
        ↔ ¬ (num_ge t (PInt 7) = true ∧ c < 30) ∧ (num_ge t (PInt 4) = true ∨ c < 50)) ∧
     (triage_status_of t c = "pending"
        ↔ ¬ (num_ge t (PInt 7) = true ∧ c < 30) ∧ ¬ (num_ge t (PInt 4) = true ∨ c < 50))) ∧
  triage_status_of (PInt 7) 29 = "verified" ∧
  triage_status_of (PInt 7) 30 = "provisional" ∧
  triage_status_of (PInt 3) 60 = "pending" ∧
  triage_status_of (PInt 0) 10 = "provisional".
Proof.
  split; [| split; [| split]].
  - intros str_of r out H.
    destruct (transform_record_inv _ _ _ H) as (t & c & ? & Ht & Hc & _ & _ & _ & Hs & _).
    eauto.
  - intros t c. pose proof (triage_status_cases (PInt t) c) as H.
    rewrite !num_ge_int in H. exact H.
  - exact triage_status_cases.
  - repeat split.
Qed.

Lemma triage_status_rule_witness :
  transform_record str_scalar r_typical = Ok out_typical ∧
  ∃ t c, calc_triage_score r_typical = Ok t ∧ calc_confound_score r_typical = Ok c ∧
         out_typical !! "triage_status" = Some (VStr (triage_status_of t c)) ∧
         triage_status_of t c = "verified".
Proof.
  assert (transform_record str_scalar r_typical = Ok out_typical) as H by vm_refl.
  split; [exact H|].
  destruct (proj1 triage_status_rule str_scalar r_typical out_typical H)
    as (t & c & Ht & Hc & Hs).
  exists t, c. split; [done|]. split; [done|]. split; [done|].
  assert (calc_triage_score r_typical = Ok (PInt 9)) as Ht' by vm_refl.
  assert (calc_confound_score r_typical = Ok 5) as Hc' by vm_refl.
  rewrite Ht' in Ht. rewrite Hc' in Hc.
  injection Ht as <-. injection Hc as <-. reflexivity.
Defined.

(** ** Confound score *)

Lemma val_lt_number v n : is_number v = true → val_lt v n = Ok (lt_const v n).
Proof. destruct v; try discriminate; reflexivity. Qed.

Lemma val_lt_other v n : is_number v = false → val_lt v n = Raise TypeError.
Proof. destruct v; try discriminate; reflexivity. Qed.

Lemma val_gt_number v n : is_number v = true → val_gt v n = Ok (gt_const v n).
Proof. destruct v; try discriminate; reflexivity. Qed.

Lemma val_gt_other v n : is_number v = false → val_gt v n = Raise TypeError.
Proof. destruct v; try discriminate; reflexivity. Qed.

Lemma clamp_max_min lo hi x : lo ≤ hi → Z.max lo (Z.min hi x) = clamp lo hi x.
Proof.
  intros. unfold clamp.
  destruct (Z.ltb_spec x lo), (Z.ltb_spec hi x); lia.
Qed.

Lemma calc_confound_score_cases r :
  let a := get r "airport_nearby_km" in
  let m := get r "military_base_nearby_km" in
  calc_confound_score r =
    if is_none a || is_number a then
      if is_none m || is_number m then Ok (confound_rule r) else Raise TypeError
    else Raise TypeError.
Proof.
  intros a m. unfold calc_confound_score, confound_rule, airport_term, military_term.
  fold a m.
  destruct (is_none a) eqn:Na;
    [| destruct (is_number a) eqn:Ta;
       [rewrite !(val_lt_number a) by done
       | rewrite !(val_lt_other a) by done; reflexivity]];
    (destruct (is_none m) eqn:Nm;
       [| destruct (is_number m) eqn:Tm;
          [rewrite !(val_lt_number m) by done
          | rewrite ?(val_lt_other m) by done]]);
    destruct (lt_const a 10), (lt_const a 30), (lt_const a 50),
      (lt_const m 30), (lt_const m 50),
      (truthy (get r "physiological_effects")), (truthy (get r "em_interference"));
    simpl; try reflexivity;
    rewrite clamp_max_min by lia; do 2 f_equal; lia.
Qed.

Lemma calc_confound_score_cases_typed (r : record) :
  none_or_number (get r "airport_nearby_km") = true →
  none_or_number (get r "military_base_nearby_km") = true →
  (∀ c, calc_confound_score r = Ok c → c = confound_rule r) ∧
  calc_confound_score r = Ok (confound_rule r).
Proof.
  unfold none_or_number. intros Ha Hm.
  pose proof (calc_confound_score_cases r) as H. simpl in H.
  rewrite Ha, Hm in H. split; congruence.
Qed.

(** C4. Whenever [calc_confound_score] yields a score, it is the clamp to
    [0, 100] of the airport term plus the military term, minus 20 for truthy
    physiological effects and minus 15 for truthy EM interference; and it does
    yield that score whenever each of the two distances is absent, null or a
    number. *)
Theorem calc_confound_score_rule (r : record) :
  (∀ c, calc_confound_score r = Ok c → c = confound_rule r) ∧
  (none_or_number (get r "airport_nearby_km") = true →
   none_or_number (get r "military_base_nearby_km") = true →
   calc_confound_score r = Ok (confound_rule r)).
Proof.
  pose proof (calc_confound_score_cases r) as H. simpl in H.
  unfold none_or_number. split.
  - intros c Hc. rewrite Hc in H.
    destruct (_ || _); [| discriminate].
    destruct (_ || _); [| discriminate]. congruence.
  - intros Ha Hm. rewrite Ha, Hm in H. exact H.
Qed.

Lemma calc_confound_score_rule_witness :
  none_or_number (get r_typical "airport_nearby_km") = true ∧
  none_or_number (get r_typical "military_base_nearby_km") = true ∧
  calc_confound_score r_typical = Ok 5.
Proof.
  split; [vm_refl|].
  split; [vm_refl|].
  rewrite (proj2 (calc_confound_score_rule r_typical));
    vm_refl.
Defined.

(** ** Quality and triage scores *)

Lemma bind_Ok {A B} (a : A) (f : A → result B) : Ok a ≫= f = f a.
Proof. reflexivity. Qed.

Lemma present_and_gt_typed r k n :
  falsy_or_number (get r k) = true →
  present_and_gt r k n = Ok (exceeds (get r k) n).
Proof.
  unfold falsy_or_number, present_and_gt, exceeds. intros H.
  destruct (truthy (get r k)); simpl in *; [| reflexivity].
  apply val_gt_number, H.
Qed.

Lemma present_and_gt_untyped r k n :
  falsy_or_number (get r k) = false →
  present_and_gt r k n = Raise TypeError.
Proof.
  unfold falsy_or_number, present_and_gt. intros H.
  destruct (truthy (get r k)); simpl in *; [| discriminate].
  apply val_gt_other, H.
Qed.

Lemma falsy_or_integer_number v : falsy_or_integer v = true → falsy_or_number v = true.
Proof.
  unfold falsy_or_integer, falsy_or_number.
  destruct (truthy v); simpl; [| done]. by destruct v.
Qed.

Lemma incr_if_int c k z : incr_if c k (PInt z) = Ok (PInt (z + if c then k else 0)).
Proof. destruct c; simpl; [reflexivity | by rewrite Z.add_0_r]. Qed.

Lemma py_min_int a b : py_min (PInt a) (PInt b) = PInt (Z.min a b).
Proof.
  unfold py_min. rewrite num_lt_int.
  destruct (Z.ltb_spec b a); f_equal; lia.
Qed.

(** In the branch the scorers add the witness term, the count is a number
    above 1. *)
Lemma exceeds_integer v n :
  exceeds v n = true → falsy_or_integer v = true →
  as_number v = Ok (PInt (int_of v)) ∧ n < int_of v.
Proof.
  unfold exceeds, falsy_or_integer, gt_const. intros H T.
  apply andb_prop in H as [Ht Hg]. rewrite Ht in T. simpl in T.
  destruct v as [|b|z| | | |]; try discriminate; simpl in *.
  - split; [done|]. rewrite num_gt_int in Hg. lia.
  - split; [done|]. rewrite num_gt_int in Hg. lia.
Qed.

Lemma quality_score_int r :
  falsy_or_integer (get r "witness_count") = true →
  falsy_or_number (get r "duration_seconds") = true →
  quality_score r = Ok (PInt (quality_rule r)).
Proof.
  intros Hw Hd. unfold quality_score, quality_rule.
  rewrite !incr_if_int, !bind_Ok.
  rewrite !incr_if_int, !bind_Ok.
  rewrite !incr_if_int, !bind_Ok.
  rewrite !incr_if_int, !bind_Ok.
  rewrite (present_and_gt_typed r "witness_count"), bind_Ok
    by (apply falsy_or_integer_number, Hw).
  destruct (exceeds (get r "witness_count") 1) eqn:E.
  - destruct (exceeds_integer _ _ E Hw) as [-> _].
    rewrite bind_Ok, py_min_int. simpl num_add. rewrite bind_Ok.
    rewrite (present_and_gt_typed r "duration_seconds"), bind_Ok by done.
    rewrite !incr_if_int, !bind_Ok. rewrite !incr_if_int, !bind_Ok.
    try (do 2 f_equal; lia).
  - rewrite bind_Ok.
    rewrite (present_and_gt_typed r "duration_seconds"), bind_Ok by done.
    rewrite !incr_if_int, !bind_Ok. rewrite !incr_if_int, !bind_Ok.
    try (do 2 f_equal; lia).
Qed.

Lemma calc_triage_score_int r :
  falsy_or_integer (get r "witness_count") = true →
  falsy_or_number (get r "duration_seconds") = true →
  calc_triage_score r = Ok (PInt (triage_rule r)).
Proof.
  intros Hw Hd. unfold calc_triage_score, triage_rule, triage_other_terms.
  rewrite !incr_if_int, !bind_Ok.
  rewrite (present_and_gt_typed r "witness_count"), bind_Ok
    by (apply falsy_or_integer_number, Hw).
  destruct (exceeds (get r "witness_count") 1) eqn:E.
  - destruct (exceeds_integer _ _ E Hw) as [-> _].
    rewrite bind_Ok. simpl num_sub. rewrite bind_Ok, py_min_int.
    simpl num_add. rewrite bind_Ok.
    rewrite (present_and_gt_typed r "duration_seconds"), bind_Ok by done.
    rewrite !incr_if_int, !bind_Ok. rewrite !incr_if_int, !bind_Ok.
    rewrite !incr_if_int, !bind_Ok. rewrite !incr_if_int, !bind_Ok.
    rewrite py_min_int. try (do 3 f_equal; lia).
  - rewrite bind_Ok.
    rewrite (present_and_gt_typed r "duration_seconds"), bind_Ok by done.
    rewrite !incr_if_int, !bind_Ok. rewrite !incr_if_int, !bind_Ok.
    rewrite !incr_if_int, !bind_Ok. rewrite !incr_if_int, !bind_Ok.
    rewrite py_min_int. try (do 3 f_equal; lia).
Qed.

Lemma witness_term_bounds v n k :
  falsy_or_integer v = true → 0 ≤ n → n ≤ k →
  0 ≤ (if exceeds v n then Z.min k (int_of v) else 0) ≤ k.
Proof.
  intros T Hn Hk. destruct (exceeds v n) eqn:E; [| lia].
  destruct (exceeds_integer _ _ E T) as [_ ?]. lia.
Qed.

Lemma quality_rule_bounds r :
  falsy_or_integer (get r "witness_count") = true →
  0 ≤ quality_rule r ≤ 15.
Proof.
  intros T. unfold quality_rule.
  pose proof (witness_term_bounds _ 1 3 T).
  destruct (truthy (get r "physiological_effects")), (truthy (get r "em_interference")),
    (truthy (get r "earthquake_nearby")), (truthy (get r "geomagnetic_storm")),
    (exceeds (get r "duration_seconds") 60), (shape_is_specific r); lia.
Qed.

Lemma triage_other_terms_bounds r :
  falsy_or_integer (get r "witness_count") = true →
  0 ≤ triage_other_terms r ≤ 7.
Proof.
  intros T. unfold triage_other_terms.
  assert (0 ≤ (if exceeds (get r "witness_count") 1
               then Z.min 2 (int_of (get r "witness_count") - 1) else 0) ≤ 2).
  { destruct (exceeds _ 1) eqn:E; [| lia].
    destruct (exceeds_integer _ _ E T) as [_ ?]. lia. }
  destruct (exceeds (get r "duration_seconds") 0),
    (truthy (get r "physical_effects") || truthy (get r "physiological_effects")),
    (truthy (get r "em_interference")), (truthy (get r "source")); lia.
Qed.

Lemma triage_rule_bounds r :
  falsy_or_integer (get r "witness_count") = true →
  0 ≤ triage_rule r ≤ 10.
Proof.
  intros T. unfold triage_rule. pose proof (triage_other_terms_bounds r T).
  destruct (truthy (get r "latitude") && truthy (get r "longitude")); lia.
Qed.

(** *** Floats in the count or the duration: the scorers still return *)

Lemma small_weaken n m a : n ≤ m → small n a → small m a.
Proof. destruct a; simpl; [lia | done]. Qed.

Lemma small_ordered n a : small n a → ordered a.
Proof.
  destruct a; simpl; [intros; apply ordered_int|].
  intros H. by apply ordered_float, sf_nonneg_not_nan.
Qed.

Lemma small_nonneg n a : small n a → nonneg_num a.
Proof. destruct a; simpl; [lia | done]. Qed.


Lemma num_gt_nonneg_num w n :
  0 ≤ n → num_gt w (PInt n) = true → nonneg_num w.
Proof.
  intros Hn H. destruct w as [z|f]; simpl.
  - rewrite num_gt_int in H. lia.
  - by apply (num_gt_nonneg f n).
Qed.

(** [min(k, a)] is at most [k]. *)
Lemma py_min_le k a : ordered a → num_ge (PInt k) (py_min (PInt k) a) = true.
Proof.
  intros [x Hx]. unfold py_min. destruct (num_lt a (PInt k)) eqn:E.
  - rewrite (num_lt_place a (PInt k) x (Fin (k * 2 ^ 1074)) Hx eq_refl) in E.
    unfold num_ge.
    rewrite (num_compare_place (PInt k) a (Fin (k * 2 ^ 1074)) x eq_refl Hx).
    rewrite ext_compare_antisym. by destruct (ext_compare x _).
  - apply num_ge_int. lia.
Qed.

(** [score + z] for a small integer [z]. *)
Lemma add_int_small n k a z :
  small n a → 0 ≤ z ≤ k → k ≤ 16 →
  ∃ c, num_add a (PInt z) = Ok c ∧ small (n + k) c.
Proof.
  destruct a as [x|f]; cbn [num_add small]; intros Ha Hz Hk.
  - eexists; split; [reflexivity|]. simpl. lia.
  - destruct (float_of_Z_small_nonneg z) as (g & -> & Hg); [lia|].
    rewrite bind_Ok. eexists; split; [reflexivity|]. simpl.
    rewrite add_spec. by apply SFadd_nonneg.
Qed.

(** [x + b] for a small integer [x]. *)
Lemma int_add_small n k x b :
  0 ≤ x ≤ n → small k b → n ≤ 16 →
  ∃ c, num_add (PInt x) b = Ok c ∧ small (n + k) c.
Proof.
  destruct b as [y|g]; cbn [num_add small]; intros Hx Hb Hn.
  - eexists; split; [reflexivity|]. simpl. lia.
  - destruct (float_of_Z_small_nonneg x) as (f & -> & Hf); [lia|].
    rewrite bind_Ok. eexists; split; [reflexivity|]. simpl.
    rewrite add_spec. by apply SFadd_nonneg.
Qed.

Lemma incr_if_small c n k a :
  small n a → 0 ≤ k ≤ 16 →
  ∃ a', incr_if c k a = Ok a' ∧ small (n + k) a'.
Proof.
  intros Ha Hk. destruct c; simpl.
  - apply (add_int_small n k); auto; lia.
  - exists a. split; [done|]. eapply small_weaken; [| done]. lia.
Qed.

Lemma exceeds_number v n :
  exceeds v n = true → ∃ w, as_number v = Ok w ∧ num_gt w (PInt n) = true.
Proof.
  unfold exceeds, gt_const. intros H. apply andb_prop in H as [_ H].
  destruct (as_number v) as [w|]; [eauto | discriminate].
Qed.

(** [min(k, w)] of a [w] that is not negative. *)
Lemma py_min_small k w :
  0 ≤ k → nonneg_num w → small k (py_min (PInt k) w).
Proof.
  intros Hk Hw. unfold py_min. destruct w as [z|f]; simpl in Hw.
  - rewrite num_lt_int. destruct (Z.ltb_spec z k); simpl; lia.
  - destruct (num_lt (PFloat f) (PInt k)) eqn:E; simpl; [done | lia].
Qed.

Lemma num_gt_int_pos w n z : num_gt w (PInt n) = true → w = PInt z → n < z.
Proof. intros H ->. rewrite num_gt_int in H. lia. Qed.

Ltac step_incr n :=
  match goal with
  | |- ∃ q, (incr_if ?c ?k ?a ≫= _) = _ ∧ _ =>
      let s := fresh "s" in
      let E := fresh "E" in
      let H := fresh "H" in
      destruct (incr_if_small c n k a) as (s & E & H);
      [ assumption || (simpl; lia) | lia
      | rewrite E, bind_Ok; simpl Z.add in H ]
  end.

(** The four flag terms of [quality_score] add up to an integer. *)
Lemma flags_bounds (b1 b2 b3 b4 : bool) :
  0 ≤ 0 + (if b1 then 3 else 0) + (if b2 then 3 else 0)
        + (if b3 then 2 else 0) + (if b4 then 2 else 0) ≤ 10.
Proof. destruct b1, b2, b3, b4; lia. Qed.

(** [quality_score] up to the duration: with a count that is falsy or a
    number, the first five terms give a small score. *)
Lemma quality_score_prefix r :
  falsy_or_number (get r "witness_count") = true →
  ∃ s, small 13 s ∧
    quality_score r =
      (c ← present_and_gt r "duration_seconds" 60;
       score ← incr_if c 1 s;
       score ← incr_if (shape_is_specific r) 1 score;
       Ok score).
Proof.
  intros Hw. unfold quality_score.
  rewrite !incr_if_int, !bind_Ok. rewrite !incr_if_int, !bind_Ok.
  rewrite !incr_if_int, !bind_Ok. rewrite !incr_if_int, !bind_Ok.
  pose proof (flags_bounds (truthy (get r "physiological_effects"))
                (truthy (get r "em_interference"))
                (truthy (get r "earthquake_nearby"))
                (truthy (get r "geomagnetic_storm"))) as Hz.
  set (z := 0 + _ + _ + _ + _) in *.
  rewrite (present_and_gt_typed r "witness_count"), bind_Ok by done.
  assert (∃ s', (if exceeds (get r "witness_count") 1
                 then w ← as_number (get r "witness_count");
                      num_add (PInt z) (py_min (PInt 3) w)
                 else Ok (PInt z)) = Ok s' ∧ small 13 s') as (s' & -> & H').
  { destruct (exceeds _ 1) eqn:Ex.
    - destruct (exceeds_number _ _ Ex) as (w & -> & Hgt). rewrite bind_Ok.
      apply (int_add_small 10 3); [done | | lia].
      apply py_min_small; [lia|]. by apply (num_gt_nonneg_num w 1).
    - exists (PInt z). split; [done|]. simpl. lia. }
  rewrite bind_Ok. eauto.
Qed.

Lemma quality_score_returns r :
  falsy_or_number (get r "witness_count") = true →
  falsy_or_number (get r "duration_seconds") = true →
  ∃ q, quality_score r = Ok q ∧ small 15 q.
Proof.
  intros Hw Hd. destruct (quality_score_prefix r Hw) as (s & Hs & ->).
  rewrite (present_and_gt_typed r "duration_seconds"), bind_Ok by done.
  step_incr 13. step_incr 14. eauto.
Qed.

Lemma quality_score_untyped r :
  falsy_or_number (get r "witness_count") = false →
  quality_score r = Raise TypeError.
Proof.
  intros H. unfold quality_score.
  rewrite !incr_if_int, !bind_Ok. rewrite !incr_if_int, !bind_Ok.
  rewrite !incr_if_int, !bind_Ok. rewrite !incr_if_int, !bind_Ok.
  by rewrite (present_and_gt_untyped r "witness_count").
Qed.

(** A quality score that was returned is not [NaN], and the count and the
    duration of its record were falsy or numbers. *)
Lemma quality_score_Ok r k :
  quality_score r = Ok k →
  falsy_or_number (get r "witness_count") = true ∧
  falsy_or_number (get r "duration_seconds") = true ∧
  small 15 k.
Proof.
  intros Hk.
  destruct (falsy_or_number (get r "witness_count")) eqn:Hw;
    [| by rewrite quality_score_untyped in Hk].
  destruct (falsy_or_number (get r "duration_seconds")) eqn:Hd.
  - destruct (quality_score_returns r Hw Hd) as (q & Hq & Hs).
    rewrite Hk in Hq. injection Hq as <-. done.
  - destruct (quality_score_prefix r Hw) as (s & _ & E). rewrite E in Hk.
    by rewrite (present_and_gt_untyped r "duration_seconds") in Hk.
Qed.

Lemma py_min_returns_small k n a : 0 ≤ k → small n a → small k (py_min (PInt k) a).
Proof.
  intros Hk Ha. apply py_min_small; [done|]. by eapply small_nonneg.
Qed.

(** [w - 1] for a count [w] above 1 is not negative. *)
Lemma sub_one_returns w :
  num_gt w (PInt 1) = true →
  ∃ d, num_sub w (PInt 1) = Ok d ∧ nonneg_num d.
Proof.
  intros Hgt. destruct w as [x|f]; cbn [num_sub].
  - eexists; split; [done|]. simpl. rewrite num_gt_int in Hgt. lia.
  - destruct (float_of_Z_small_finite 1) as (one & Hone & _); [lia|].
    rewrite Hone, bind_Ok. eexists; split; [done|]. simpl.
    by apply sub_one_nonneg.
Qed.

Lemma calc_triage_score_returns r :
  falsy_or_number (get r "witness_count") = true →
  falsy_or_number (get r "duration_seconds") = true →
  ∃ t, calc_triage_score r = Ok t ∧ small 10 t ∧ num_ge (PInt 10) t = true.
Proof.
  intros Hw Hd. unfold calc_triage_score.
  rewrite !incr_if_int, !bind_Ok.
  set (z := 0 + _).
  assert (0 ≤ z ≤ 3) as Hz by (unfold z; destruct (_ && _); lia).
  rewrite (present_and_gt_typed r "witness_count"), bind_Ok by done.
  assert (∃ s', (if exceeds (get r "witness_count") 1
                 then w ← as_number (get r "witness_count");
                      d ← num_sub w (PInt 1);
                      num_add (PInt z) (py_min (PInt 2) d)
                 else Ok (PInt z)) = Ok s' ∧ small 5 s') as (s' & -> & H').
  { destruct (exceeds _ 1) eqn:Ex.
    - destruct (exceeds_number _ _ Ex) as (w & -> & Hgt). rewrite bind_Ok.
      destruct (sub_one_returns w Hgt) as (d & -> & Hd0).
      rewrite bind_Ok.
      apply (int_add_small 3 2); [done | | lia].
      by apply py_min_small.
    - exists (PInt z). split; [done|]. simpl. lia. }
  rewrite bind_Ok.
  rewrite (present_and_gt_typed r "duration_seconds"), bind_Ok by done.
  step_incr 5. step_incr 6. step_incr 8. step_incr 9.
  eexists; split; [reflexivity|]. split.
  - by eapply py_min_returns_small.
  - apply py_min_le. by eapply small_ordered.
Qed.


Lemma calc_triage_score_untyped r :
  falsy_or_number (get r "witness_count") = false →
  calc_triage_score r = Raise TypeError.
Proof.
  intros H. unfold calc_triage_score.
  rewrite !incr_if_int, !bind_Ok.
  by rewrite (present_and_gt_untyped r "witness_count").
Qed.




Lemma calc_triage_score_after r :
  calc_triage_score r
  = triage_after
      (if truthy (get r "latitude") && truthy (get r "longitude")
       then PInt 3 else PInt 0) r.
Proof.
  unfold calc_triage_score, triage_after. rewrite incr_if_int, bind_Ok.
  by destruct (_ && _).
Qed.

(** C3 (as amended). When [latitude] and [longitude] are both truthy, that
    is present, not null and not zero, the triage score is what the other
    terms make of a score of 3, capped at 10; with a count that is an integer
    and a duration that is a number (where they are truthy) it is the minimum
    of 10 and 3 plus the sum of the other terms. *)
Theorem triage_counts_truthy_coordinates (r : record) :
  truthy (get r "latitude") = true →
  truthy (get r "longitude") = true →
  calc_triage_score r = triage_after (PInt 3) r ∧
  (falsy_or_integer (get r "witness_count") = true →
   falsy_or_number (get r "duration_seconds") = true →
   calc_triage_score r = Ok (PInt (Z.min 10 (3 + triage_other_terms r)))).
Proof.
  intros Hlat Hlon. split.
  - by rewrite calc_triage_score_after, Hlat, Hlon.
  - intros Hw Hd. rewrite calc_triage_score_int by done.
    unfold triage_rule. by rewrite Hlat, Hlon.
Qed.

Lemma triage_counts_truthy_coordinates_witness :
  truthy (get r_typical "latitude") = true ∧
  truthy (get r_typical "longitude") = true ∧
  falsy_or_integer (get r_typical "witness_count") = true ∧
  falsy_or_number (get r_typical "duration_seconds") = true ∧
  calc_triage_score r_typical = Ok (PInt 9).
Proof.
  split; [vm_refl|].
  split; [vm_refl|].
  split; [vm_refl|].
  split; [vm_refl|].
  rewrite (proj2 (triage_counts_truthy_coordinates r_typical eq_refl eq_refl));
    vm_refl.
Defined.

(** Without truthy coordinates the 3 is not added. *)
Lemma triage_without_coordinates (r : record) :
  truthy (get r "latitude") && truthy (get r "longitude") = false →
  calc_triage_score r = triage_after (PInt 0) r ∧
  (falsy_or_integer (get r "witness_count") = true →
   falsy_or_number (get r "duration_seconds") = true →
   calc_triage_score r = Ok (PInt (Z.min 10 (triage_other_terms r)))).
Proof.
  intros Hc. split.
  - by rewrite calc_triage_score_after, Hc.
  - intros Hw Hd. rewrite calc_triage_score_int by done.
    unfold triage_rule. by rewrite Hc.
Qed.

(** C3 fails as stated: a record on the equator has both coordinates, the
    latitude being 0.0, and its triage score is 1 (for the source), not 3
    plus 1. *)
Lemma triage_skips_zero_latitude :
  r_equator !! "latitude" = Some (VFloat 0) ∧
  r_equator !! "longitude" = Some (VFloat (-78.5)) ∧
  triage_other_terms r_equator = 1 ∧
  calc_triage_score r_equator = Ok (PInt 1) ∧
  calc_triage_score r_equator ≠ Ok (PInt (Z.min 10 (3 + triage_other_terms r_equator))).
Proof.
  split; [vm_refl|]. split; [vm_refl|]. split; [vm_refl|]. split; [vm_refl|].
  vm_compute. discriminate.
Qed.

(** ** The text sanitizer *)

Lemma has_nul_remove_nul s : has_nul (remove_nul s) = false.
Proof.
  induction s as [|c s IH]; simpl; [done|].
  destruct (is_nul c) eqn:E; simpl; [done|]. by rewrite E.
Qed.

Lemma has_nul_lstrip s : has_nul s = false → has_nul (lstrip s) = false.
Proof.
  induction s as [|c s IH]; simpl; [done|]. intros H.
  apply orb_false_elim in H as [Hc Hs].
  destruct (py_isspace c); simpl; [auto | by rewrite Hc, Hs].
Qed.

Lemma has_nul_rstrip s : has_nul s = false → has_nul (rstrip s) = false.
Proof.
  induction s as [|c s IH]; simpl; [done|]. intros H.
  apply orb_false_elim in H as [Hc Hs]. specialize (IH Hs).
  destruct (rstrip s) as [|c' t]; simpl in *.
  - destruct (py_isspace c); simpl; [done | by rewrite Hc].
  - by rewrite Hc, IH.
Qed.

Lemma has_nul_str_take n s : has_nul s = false → has_nul (str_take n s) = false.
Proof.
  revert s. induction n as [|n IH]; intros [|c s]; simpl; try done.
  intros H. apply orb_false_elim in H as [Hc Hs]. by rewrite Hc, IH.
Qed.

Lemma has_nul_slice_to k s : has_nul s = false → has_nul (slice_to k s) = false.
Proof. intros. unfold slice_to. destruct (0 <=? k); by apply has_nul_str_take. Qed.

Lemma length_str_take n s : String.length (str_take n s) = (n `min` String.length s)%nat.
Proof.
  revert s. induction n as [|n IH]; intros [|c s]; simpl; try done.
  by rewrite IH.
Qed.

Lemma str_take_all n s : (String.length s ≤ n)%nat → str_take n s = s.
Proof.
  revert s. induction n as [|n IH]; intros [|c s]; simpl; try done; try lia.
  intros H. f_equal. apply IH. lia.
Qed.

Lemma length_slice_to k s :
  0 ≤ k → String.length (slice_to k s) = (Z.to_nat k `min` String.length s)%nat.
Proof.
  intros Hk. unfold slice_to.
  destruct (Z.leb_spec 0 k); [apply length_str_take | lia].
Qed.

Lemma starts_with_space_lstrip s : starts_with_space (lstrip s) = false.
Proof.
  induction s as [|c s IH]; simpl; [done|].
  destruct (py_isspace c) eqn:E; simpl; [done | by rewrite E].
Qed.

Lemma starts_with_space_rstrip s :
  starts_with_space s = false → starts_with_space (rstrip s) = false.
Proof.
  destruct s as [|c s]; simpl; [done|]. intros H.
  destruct (rstrip s); simpl; [by rewrite H | done].
Qed.

Lemma starts_with_space_str_take n s :
  starts_with_space s = false → starts_with_space (str_take n s) = false.
Proof. destruct n, s; simpl; done. Qed.

Lemma ends_with_space_rstrip s : ends_with_space (rstrip s) = false.
Proof.
  induction s as [|c s IH]; simpl; [done|].
  destruct (rstrip s) as [|c' t] eqn:E.
  - destruct (py_isspace c) eqn:Ec; simpl; [done | by rewrite Ec].
  - exact IH.
Qed.

Lemma starts_with_space_strip s : starts_with_space (strip s) = false.
Proof. apply starts_with_space_rstrip, starts_with_space_lstrip. Qed.

(** C6 (as amended). [clean_text] is a total function to strings (nothing in
    it can raise).  For a falsy input the result is empty; otherwise it is the
    text of the input with the null bytes removed, then stripped of leading
    and trailing whitespace, then cut after [max_len] characters.  The result
    holds no null byte and does not start with whitespace; for a non-negative
    [max_len] it has at most [max_len] characters, exactly [max_len] when the
    stripped text has at least that many, and it is the whole stripped text,
    which does not end in whitespace either, when that fits. *)
Theorem clean_text_sanitizes (str_of : pyval → string) (text : pyval) (max_len : Z) :
  (truthy text = false → clean_text str_of text max_len = "") ∧
  (truthy text = true →
     clean_text str_of text max_len
     = slice_to max_len (strip (remove_nul (py_str str_of text)))) ∧
  has_nul (clean_text str_of text max_len) = false ∧
  starts_with_space (clean_text str_of text max_len) = false ∧
  (0 ≤ max_len →
     (String.length (clean_text str_of text max_len) ≤ Z.to_nat max_len)%nat) ∧
  (0 ≤ max_len → truthy text = true →
     (Z.to_nat max_len ≤ String.length (strip (remove_nul (py_str str_of text))))%nat →
     String.length (clean_text str_of text max_len) = Z.to_nat max_len) ∧
  (0 ≤ max_len → truthy text = true →
     (String.length (strip (remove_nul (py_str str_of text))) ≤ Z.to_nat max_len)%nat →
     clean_text str_of text max_len = strip (remove_nul (py_str str_of text))
     ∧ ends_with_space (clean_text str_of text max_len) = false).
Proof.
  unfold clean_text. destruct (truthy text) eqn:T; simpl.
  - repeat split; try done.
    + apply has_nul_slice_to, has_nul_rstrip, has_nul_lstrip, has_nul_remove_nul.
    + unfold slice_to. destruct (0 <=? max_len);
        apply starts_with_space_str_take, starts_with_space_strip.
    + intros H. rewrite length_slice_to by done. lia.
    + intros H _ Hlen. rewrite length_slice_to by done. lia.
    + unfold slice_to. destruct (Z.leb_spec 0 max_len); [| lia].
      by apply str_take_all.
    + unfold slice_to. destruct (Z.leb_spec 0 max_len); [| lia].
      rewrite str_take_all by done. apply ends_with_space_rstrip.
  - repeat split; try done. intros; simpl; lia.
Qed.

(** C6 fails as stated: a text of three characters with a null byte, cut at
    2, comes out with one character, not two; and a result that was cut may
    end in whitespace. *)
Lemma clean_text_not_exactly_max_len :
  has_nul text_nul_space_a = true ∧
  (2 < String.length text_nul_space_a)%nat ∧
  clean_text str_scalar (VStr text_nul_space_a) 2 = "a" ∧
  String.length (clean_text str_scalar (VStr text_nul_space_a) 2) ≠ 2%nat ∧
  clean_text str_scalar (VStr text_a_b_c) 2 = "a " ∧
  ends_with_space (clean_text str_scalar (VStr text_a_b_c) 2) = true.
Proof.
  split; [vm_refl|]. split; [vm_compute; lia|]. split; [vm_refl|].
  split; [vm_compute; lia|]. split; vm_refl.
Qed.

Lemma clean_text_sanitizes_witness :
  0 ≤ 3 ∧
  truthy (VStr text_padded) = true ∧
  (Z.to_nat 3 ≤ String.length (strip (remove_nul (py_str str_scalar (VStr text_padded)))))%nat ∧
  clean_text str_scalar (VStr text_padded) 3 = "abc" ∧
  String.length (clean_text str_scalar (VStr text_padded) 3) = Z.to_nat 3.
Proof.
  split; [lia|]. split; [vm_refl|]. split; [vm_compute; lia|]. split; [vm_refl|].
  apply (clean_text_sanitizes str_scalar (VStr text_padded) 3);
    [lia | vm_refl | vm_compute; lia].
Defined.

(** ** The title *)

Lemma clean_text_length str_of v k :
  0 ≤ k → (String.length (clean_text str_of v k) ≤ Z.to_nat k)%nat.
Proof.
  intros Hk. unfold clean_text. destruct (truthy v); simpl; [| lia].
  rewrite length_slice_to by done. lia.
Qed.

Lemma clean_text_get_or_empty str_of (r : record) k n :
  clean_text str_of (get_or r k (VStr "")) n = clean_text str_of (get r k) n.
Proof. unfold get_or, get. by destruct (r !! k). Qed.

Lemma clean_text_city str_of (r : record) :
  clean_text str_of (get_or r "city" (VStr "Unknown")) 50
  = match r !! "city" with
    | None => "Unknown"
    | Some v => clean_text str_of v 50
    end.
Proof. unfold get_or. by destruct (r !! "city"). Qed.

Lemma truthy_VStr s : truthy (VStr s) = negb (String.eqb s "").
Proof. reflexivity. Qed.

Lemma make_title_rule str_of (r : record) :
  falsy_or_text (get r "date_time") = true →
  make_title str_of r = Ok (title_rule str_of r).
Proof.
  intros Hd. unfold make_title, title_rule.
  rewrite !clean_text_get_or_empty, clean_text_city, truthy_VStr.
  assert ((if truthy (get r "date_time")
           then val_slice_to 10 (get_or r "date_time" (VStr ""))
           else Ok (VStr "Unknown"))
          = Ok (VStr match get r "date_time" with
                     | VStr (String c s) => str_take 10 (String c s)
                     | _ => "Unknown"
                     end)) as ->.
  { unfold get, get_or in *. unfold falsy_or_text in Hd.
    destruct (r !! "date_time") as [v|]; [| reflexivity].
    simpl in *. destruct (truthy v) eqn:T.
    - destruct v; try discriminate. destruct s; [discriminate | reflexivity].
    - destruct v; try reflexivity. by destruct s. }
  rewrite bind_Ok. cbn [py_str]. unfold slice_to. simpl (0 <=? 200).
  cbv iota. simpl Z.to_nat.
  by destruct (String.eqb _ "").
Qed.



(** ** The transformed record *)

Lemma transform_record_returns str_of (r : record) :
  falsy_or_number (get r "witness_count") = true →
  falsy_or_number (get r "duration_seconds") = true →
  none_or_number (get r "airport_nearby_km") = true →
  none_or_number (get r "military_base_nearby_km") = true →
  falsy_or_text (get r "date_time") = true →
  returns (transform_record str_of r).
Proof.
  intros Hw Hd Ha Hm Ht. unfold transform_record.
  destruct (calc_triage_score_returns r Hw Hd) as (t & -> & _). rewrite bind_Ok.
  rewrite (proj2 (calc_confound_score_cases_typed r Ha Hm)), bind_Ok.
  rewrite make_title_rule, bind_Ok by done.
  by eexists.
Qed.






(** ** Selection *)

Section Lists.
Context {A B : Type}.

Lemma filterM_Ok (p : A → result bool) (l l' : list A) :
  filterM p l = Ok l' →
  (length l' ≤ length l)%nat ∧ ∀ x, x ∈ l' → x ∈ l ∧ p x = Ok true.
Proof.
  revert l'. induction l as [|x l IH]; simpl; intros l' H.
  - injection H as <-. split; [done|]. intros x Hx. by apply elem_of_nil in Hx.
  - apply bind_Ok_inv in H as (b & Hb & H).
    apply bind_Ok_inv in H as (rest & Hrest & H). injection H as <-.
    destruct (IH _ Hrest) as [Hlen Hin]. destruct b; simpl.
    + split; [lia|]. intros y Hy. apply elem_of_cons in Hy as [-> | Hy].
      * split; [left | done].
      * destruct (Hin y Hy). split; [by right | done].
    + split; [lia|]. intros y Hy. destruct (Hin y Hy). split; [by right | done].
Qed.

Lemma filterM_returns (p : A → result bool) (l : list A) :
  Forall (λ x, returns (p x)) l → returns (filterM p l).
Proof.
  induction 1 as [|x l [b Hb] _ [rest IH]]; simpl; [by eexists|].
  rewrite Hb, IH. by eexists.
Qed.

Lemma mapM_Ok (f : A → result B) (l : list A) (k : list B) :
  mapM f l = Ok k → Forall2 (λ x y, f x = Ok y) l k.
Proof.
  revert k. induction l as [|x l IH]; simpl; intros k H.
  - injection H as <-. constructor.
  - apply bind_Ok_inv in H as (y & Hy & H).
    apply bind_Ok_inv in H as (k' & Hk' & H). injection H as <-.
    constructor; auto.
Qed.

Lemma mapM_returns (f : A → result B) (l : list A) :
  Forall (λ x, returns (f x)) l → returns (mapM f l).
Proof.
  induction 1 as [|x l [y Hy] _ [k IH]]; simpl; [by eexists|].
  rewrite Hy, IH. by eexists.
Qed.

Lemma insert_desc_perm (x : pynum * A) l : insert_desc x l ≡ₚ x :: l.
Proof.
  induction l as [|y l IH]; simpl; [done|].
  destruct (num_lt x.1 y.1); [| done].
  rewrite IH. apply Permutation_swap.
Qed.

Lemma sort_desc_perm (l : list (pynum * A)) : sort_desc l ≡ₚ l.
Proof.
  induction l as [|x l IH]; simpl; [done|].
  rewrite insert_desc_perm. by constructor.
Qed.

Lemma insert_desc_sorted (x : pynum * A) l :
  ordered x.1 → Forall (λ p, ordered p.1) l →
  StronglySorted key_not_lower l → StronglySorted key_not_lower (insert_desc x l).
Proof.
  intros Hx Hl Hs. induction Hs as [|y l Hs IH Hy]; simpl.
  - repeat constructor.
  - apply Forall_cons in Hl as [Hoy Hl].
    destruct (num_lt x.1 y.1) eqn:E.
    + constructor; [by apply IH|].
      rewrite insert_desc_perm. constructor; [| done].
      by apply num_lt_asym.
    + constructor; [by constructor|]. constructor; [done|].
      rewrite Forall_forall in Hy. rewrite Forall_forall in Hl.
      apply Forall_forall. intros q Hq.
      apply (num_not_lt_trans x.1 y.1 q.1); auto. by apply Hy.
Qed.

Lemma sort_desc_sorted (l : list (pynum * A)) :
  Forall (λ p, ordered p.1) l → StronglySorted key_not_lower (sort_desc l).
Proof.
  induction 1 as [|x l Hx Hl IH]; simpl; [constructor|].
  apply insert_desc_sorted; auto. by rewrite sort_desc_perm.
Qed.

Lemma StronglySorted_lookup (R : A → A → Prop) (l : list A) (i j : nat) a b :
  StronglySorted R l → (i < j)%nat →
  l !! i = Some a → l !! j = Some b → R a b.
Proof.
  intros Hs. revert i j. induction Hs as [|x l Hs IH Hx]; intros i j Hij Hi Hj.
  - by rewrite lookup_nil in Hi.
  - destruct j as [|j]; [lia|]. simpl in Hj. destruct i as [|i]; simpl in Hi.
    + injection Hi as <-. eapply Forall_lookup_1; eauto.
    + apply (IH i j); auto. lia.
Qed.

End Lists.

Lemma high_signal_of_inv (records hs : list record) :
  high_signal_of records = Ok hs →
  (length hs ≤ length records)%nat ∧
  ∀ r, r ∈ hs → r ∈ records ∧ is_tier1 r = true ∧ is_high_signal r = Ok true.
Proof.
  unfold high_signal_of. intros H.
  destruct (filterM_Ok _ _ _ H) as [Hlen Hin]. split.
  - etransitivity; [exact Hlen|]. apply List.filter_length_le.
  - intros r Hr. destruct (Hin r Hr) as [Hr' Hs].
    apply list_elem_of_In, filter_In in Hr' as [Hr' Ht].
    by rewrite <- list_elem_of_In in Hr'.
Qed.

(** What [select] returns: the first [n] of the high-signal records, sorted
    on the keys they carry. *)
Lemma select_inv (n : nat) (records sel : list record) :
  select n records = Ok sel →
  ∃ (hs : list record) (sorted : list (pynum * record)),
    high_signal_of records = Ok hs ∧
    sorted.*2 ≡ₚ hs ∧
    Forall (λ p, quality_score p.2 = Ok p.1) sorted ∧
    StronglySorted key_not_lower sorted ∧
    sel = take n sorted.*2.
Proof.
  unfold select, sort_by_quality. intros H.
  apply bind_Ok_inv in H as (hs & Hhs & H).
  apply bind_Ok_inv in H as (sorted & Hsorted & H). injection H as <-.
  apply bind_Ok_inv in Hsorted as (keys & Hkeys & Hsorted). injection Hsorted as <-.
  apply mapM_Ok in Hkeys.
  exists hs, (sort_desc (zip keys hs)).
  assert (length keys = length hs) as Hlen by (symmetry; eapply Forall2_length; eauto).
  assert (Forall (λ p : pynum * record, quality_score p.2 = Ok p.1) (zip keys hs))
    as Hzip.
  { clear Hlen Hhs. induction Hkeys; simpl; constructor; auto. }
  split; [done|]. split; [| split; [| split; [| done]]].
  - rewrite sort_desc_perm, snd_zip by lia. done.
  - by rewrite sort_desc_perm.
  - apply sort_desc_sorted. eapply Forall_impl; [exact Hzip|].
    intros p Hp. simpl in Hp.
    destruct (quality_score_Ok _ _ Hp) as (_ & _ & Hs).
    by eapply small_ordered.
Qed.

Lemma truthy_get_present (r : record) k : truthy (get r k) = true → is_Some (r !! k).
Proof. unfold get. destruct (r !! k); [eauto | discriminate]. Qed.

Lemma is_high_signal_returns (r : record) :
  falsy_or_number (get r "witness_count") = true → returns (is_high_signal r).
Proof.
  intros H. unfold is_high_signal.
  destruct (truthy _); [by eexists|]. destruct (truthy _); [by eexists|].
  destruct (truthy _); [by eexists|].
  rewrite present_and_gt_typed by done. by eexists.
Qed.

(** On records whose count and duration are falsy or numbers the selection
    returns. *)
Lemma select_returns (n : nat) (records : list record) :
  Forall (λ r, falsy_or_number (get r "witness_count") = true
               ∧ falsy_or_number (get r "duration_seconds") = true) records →
  returns (select n records).
Proof.
  intros Hty. unfold select.
  assert (returns (high_signal_of records)) as [hs Hhs].
  { apply filterM_returns. apply Forall_forall. intros r Hr.
    apply list_elem_of_In, filter_In in Hr as [Hr _].
    apply list_elem_of_In in Hr. rewrite Forall_forall in Hty.
    apply is_high_signal_returns, Hty, Hr. }
  rewrite Hhs, bind_Ok. unfold sort_by_quality.
  assert (returns (mapM quality_score hs)) as [keys ->].
  { apply mapM_returns. apply Forall_forall. intros r Hr.
    destruct (high_signal_of_inv _ _ Hhs) as [_ Hin].
    destruct (Hin r Hr) as (Hr' & _). rewrite Forall_forall in Hty.
    destruct (Hty r Hr') as [Hw Hd].
    destruct (quality_score_returns r Hw Hd) as (q & -> & _). by eexists. }
  by eexists.
Qed.

(** C7. Every selected record is one of the input records with truthy
    (hence present) [latitude], [longitude] and [local_sidereal_time]; the
    selection has at most [n] records, [n] being the configured maximum, and
    at most as many as the high-signal list, from which it is drawn. *)
Theorem selected_are_tier1_and_bounded (n : nat) (records sel : list record) :
  select n records = Ok sel →
  Forall (λ r, r ∈ records
               ∧ truthy (get r "latitude") = true
               ∧ truthy (get r "longitude") = true
               ∧ truthy (get r "local_sidereal_time") = true
               ∧ is_Some (r !! "latitude") ∧ is_Some (r !! "longitude")
               ∧ is_Some (r !! "local_sidereal_time")) sel ∧
  (length sel ≤ n)%nat ∧
  ∃ hs, high_signal_of records = Ok hs
        ∧ (length sel ≤ length hs)%nat
        ∧ ∀ r, r ∈ sel → r ∈ hs.
Proof.
  intros H. destruct (select_inv _ _ _ H) as (hs & sorted & Hhs & Hperm & _ & _ & ->).
  destruct (high_signal_of_inv _ _ Hhs) as [_ Hin].
  assert (∀ r, r ∈ take n sorted.*2 → r ∈ hs) as Hsub.
  { intros r Hr. apply subseteq_take in Hr. by rewrite <- Hperm. }
  split; [| split].
  - apply Forall_forall. intros r Hr.
    destruct (Hin r (Hsub r Hr)) as (Hr' & Ht & _).
    unfold is_tier1 in Ht. apply andb_prop in Ht as [Ht Hlst].
    apply andb_prop in Ht as [Hlat Hlon].
    auto 10 using truthy_get_present.
  - rewrite length_take. lia.
  - exists hs. split; [done|]. split; [| done].
    rewrite length_take, <- Hperm. lia.
Qed.

Lemma selected_are_tier1_and_bounded_witness :
  select 3 sample_records = Ok [r_em_crowd; r_em_only; r_em_only] ∧
  Forall (λ r, r ∈ sample_records
               ∧ truthy (get r "latitude") = true
               ∧ truthy (get r "longitude") = true
               ∧ truthy (get r "local_sidereal_time") = true
               ∧ is_Some (r !! "latitude") ∧ is_Some (r !! "longitude")
               ∧ is_Some (r !! "local_sidereal_time"))
         [r_em_crowd; r_em_only; r_em_only] ∧
  (length [r_em_crowd; r_em_only; r_em_only] ≤ 3)%nat ∧
  ∃ hs, high_signal_of sample_records = Ok hs
        ∧ (length [r_em_crowd; r_em_only; r_em_only] ≤ length hs)%nat
        ∧ ∀ r, r ∈ [r_em_crowd; r_em_only; r_em_only] → r ∈ hs.
Proof.
  split; [vm_refl|].
  apply (selected_are_tier1_and_bounded 3 sample_records). vm_refl.
Defined.

(** The selected records in order: an earlier one is not lower than a later
    one. *)
Lemma selected_keys_descend (n : nat) (records sel : list record) :
  select n records = Ok sel →
  ∀ i j a b, (i < j)%nat → sel !! i = Some a → sel !! j = Some b →
    ∃ qa qb, quality_score a = Ok qa ∧ quality_score b = Ok qb
             ∧ num_lt qa qb = false.
Proof.
  intros H i j a b Hij Ha Hb.
  destruct (select_inv _ _ _ H) as (hs & sorted & Hhs & Hperm & Hkeys & Hsorted & ->).
  rewrite <- fmap_take in Ha, Hb.
  apply list_lookup_fmap_Some in Ha as (pa & -> & Ha).
  apply list_lookup_fmap_Some in Hb as (pb & -> & Hb).
  apply lookup_take_Some in Ha as [Ha _]. apply lookup_take_Some in Hb as [Hb _].
  exists pa.1, pb.1. split; [| split].
  - by eapply Forall_lookup_1 in Hkeys.
  - by eapply Forall_lookup_1 in Hkeys.
  - exact (StronglySorted_lookup _ _ _ _ _ _ Hsorted Hij Ha Hb).
Qed.

(** C8. The selected records come in descending order of quality score: a
    record never follows one of strictly lower score (for integer scores, the
    later score is at most the earlier one), a record of score 6 precedes any
    record of score 2, and the transformed records keep the order of the
    selected ones. *)
Theorem selected_sorted_by_quality (n : nat) (records sel : list record) :
  select n records = Ok sel →
  (∀ i j a b, (i < j)%nat → sel !! i = Some a → sel !! j = Some b →
     ∃ qa qb, quality_score a = Ok qa ∧ quality_score b = Ok qb
              ∧ num_lt qa qb = false) ∧
  (∀ i j a b x y, (i < j)%nat → sel !! i = Some a → sel !! j = Some b →
     quality_score a = Ok (PInt x) → quality_score b = Ok (PInt y) → y ≤ x) ∧
  (∀ i j a b, sel !! i = Some a → sel !! j = Some b →
     quality_score a = Ok (PInt 6) → quality_score b = Ok (PInt 2) → (i < j)%nat) ∧
  (∀ str_of investigations,
     mapM (transform_record str_of) sel = Ok investigations →
     length investigations = length sel ∧
     ∀ i out, investigations !! i = Some out →
       ∃ a, sel !! i = Some a ∧ transform_record str_of a = Ok out).
Proof.
  intros H. pose proof (selected_keys_descend _ _ _ H) as Hdesc.
  assert (∀ i j a b x y, (i < j)%nat → sel !! i = Some a → sel !! j = Some b →
            quality_score a = Ok (PInt x) → quality_score b = Ok (PInt y) → y ≤ x)
    as Hint.
  { intros i j a b x y Hij Ha Hb Hqa Hqb.
    destruct (Hdesc i j a b Hij Ha Hb) as (qa & qb & Ea & Eb & Hlt).
    rewrite Hqa in Ea. rewrite Hqb in Eb. injection Ea as <-. injection Eb as <-.
    rewrite num_lt_int in Hlt. lia. }
  split; [exact Hdesc|]. split; [exact Hint|]. split.
  - intros i j a b Ha Hb Hqa Hqb.
    destruct (Nat.lt_trichotomy i j) as [Hlt | [-> | Hgt]]; [done | |].
    + rewrite Ha in Hb. injection Hb as ->. congruence.
    + pose proof (Hint j i b a 2 6 Hgt Hb Ha Hqb Hqa). lia.
  - intros str_of investigations Hm. apply mapM_Ok in Hm. split.
    + symmetry. by eapply Forall2_length.
    + intros i out Hi.
      destruct (Forall2_lookup_r _ _ _ _ _ Hm Hi) as (a & Ha & Hout). eauto.
Qed.

Lemma selected_sorted_by_quality_witness :
  select 5 sample_records
    = Ok [r_em_crowd; r_em_only; r_em_only; r_two_witnesses; r_two_witnesses] ∧
  quality_score r_em_crowd = Ok (PInt 6) ∧
  quality_score r_em_only = Ok (PInt 3) ∧
  quality_score r_two_witnesses = Ok (PInt 2) ∧
  (∀ i j a b,
     [r_em_crowd; r_em_only; r_em_only; r_two_witnesses; r_two_witnesses] !! i = Some a →
     [r_em_crowd; r_em_only; r_em_only; r_two_witnesses; r_two_witnesses] !! j = Some b →
     quality_score a = Ok (PInt 6) → quality_score b = Ok (PInt 2) → (i < j)%nat).
Proof.
  split; [vm_refl|]. split; [vm_refl|]. split; [vm_refl|]. split; [vm_refl|].
  apply (selected_sorted_by_quality 5 sample_records). vm_refl.
Defined.

(** A float count gives a float key; it is sorted among the integers. *)
Example select_with_float_key :
  quality_score r_float_pair = Ok (PFloat 2.5) ∧
  select 4 (r_two_witnesses :: r_float_pair :: sample_records)
    = Ok [r_em_crowd; r_em_only; r_em_only; r_float_pair].
Proof. split; vm_refl. Qed.

(** [main] selects at most [MAX_RECORDS] records, transforms them in order
    and hands them to the batch loop with [BATCH_SIZE]. *)
Lemma main_inv str_of sink (records : list record) (st : loop_state) :
  main str_of sink records = Ok st →
  ∃ sel investigations,
    select MAX_RECORDS records = Ok sel ∧
    (length sel ≤ 5000)%nat ∧
    mapM (transform_record str_of) sel = Ok investigations ∧
    st = import_batches sink BATCH_SIZE investigations ∧
    (0 < BATCH_SIZE)%nat.
Proof.
  unfold main. intros H.
  apply bind_Ok_inv in H as (sel & Hsel & H).
  apply bind_Ok_inv in H as (investigations & Hinv & H). injection H as <-.
  exists sel, investigations. split; [done|]. split; [| split; [done|]].
  - destruct (select_inv _ _ _ Hsel) as (hs & sorted & _ & _ & _ & _ & ->).
    rewrite length_take. unfold MAX_RECORDS. lia.
  - split; [done|]. unfold BATCH_SIZE. lia.
Qed.

(** ** The batch-insert loop *)

Section Loop.

Variable sink : list call → list record → bool.
Variable investigations : list record.
Variable batch_size : nat.

Let step := insert_batch sink investigations batch_size.
Let batch_at (i : nat) : list record := slice investigations i (i + batch_size).

Lemma step_tally st i : tally_ok sink st → tally_ok sink (step st i).
Proof.
  intros (Hf & Hi & Hlog). unfold step, insert_batch.
  destruct (sink (calls st) (slice investigations i (i + batch_size))) eqn:E;
    unfold tally_ok; simpl; (split; [| split]).
  - rewrite filter_app, sum_list_with_app, <- Hf.
    rewrite filter_cons_False, filter_nil by (unfold raised; simpl; congruence).
    simpl. lia.
  - rewrite filter_app, sum_list_with_app, <- Hi.
    rewrite filter_cons_True, filter_nil by done. simpl. lia.
  - intros k batch ok Hk. destruct (decide (k < length (calls st))%nat) as [Hlt|Hge].
    + rewrite lookup_app_l in Hk by done. rewrite take_app_le by lia. eauto.
    + rewrite lookup_app_r in Hk by lia.
      destruct (k - length (calls st))%nat as [|m] eqn:Em; simpl in Hk; [| done].
      injection Hk as <- <-.
      replace k with (length (calls st)) by lia. by rewrite take_app_length.
  - rewrite filter_app, sum_list_with_app, <- Hf.
    rewrite filter_cons_True, filter_nil by done. simpl. lia.
  - rewrite filter_app, sum_list_with_app, <- Hi.
    rewrite filter_cons_False, filter_nil by (unfold inserted; simpl; congruence).
    simpl. lia.
  - intros k batch ok Hk. destruct (decide (k < length (calls st))%nat) as [Hlt|Hge].
    + rewrite lookup_app_l in Hk by done. rewrite take_app_le by lia. eauto.
    + rewrite lookup_app_r in Hk by lia.
      destruct (k - length (calls st))%nat as [|m] eqn:Em; simpl in Hk; [| done].
      injection Hk as <- <-.
      replace k with (length (calls st)) by lia. by rewrite take_app_length.
Qed.

Lemma step_calls st i : (calls (step st i)).*1 = (calls st).*1 ++ [batch_at i].
Proof.
  unfold step, insert_batch, batch_at.
  destruct (sink _ _); simpl; by rewrite fmap_app.
Qed.

Lemma loop_tally idx st : tally_ok sink st → tally_ok sink (foldl step st idx).
Proof.
  revert st. induction idx as [|i idx IH]; simpl; intros st H; [done|].
  apply IH, step_tally, H.
Qed.

Lemma loop_calls idx st :
  (calls (foldl step st idx)).*1 = (calls st).*1 ++ (batch_at <$> idx).
Proof.
  revert st. induction idx as [|i idx IH]; simpl; intros st.
  - by rewrite app_nil_r.
  - rewrite IH, step_calls, <- app_assoc. done.
Qed.

(** The batches of [range(0, n, batch_size)] cover the list from [i] on. *)
Lemma batches_cover fuel i :
  (0 < batch_size)%nat → (length investigations - i ≤ fuel)%nat →
  concat (batch_at <$> range_from fuel i (length investigations) batch_size)
  = drop i investigations.
Proof.
  intros Hb. revert i. induction fuel as [|fuel IH]; intros i Hfuel; simpl.
  - rewrite drop_ge by lia. done.
  - destruct (Nat.ltb_spec i (length investigations)) as [Hlt|Hge]; simpl.
    + rewrite IH by lia. unfold batch_at, slice.
      replace (i + batch_size - i)%nat with batch_size by lia.
      rewrite <- (drop_drop investigations batch_size i).
      apply (take_drop batch_size (drop i investigations)).
    + rewrite drop_ge by lia. done.
Qed.

Lemma sum_lengths_concat (l : list call) :
  sum_list_with (λ c, length c.1) l = length (concat l.*1).
Proof.
  induction l as [|c l IH]; simpl; [done|]. rewrite length_app, IH. done.
Qed.

Lemma sum_lengths_split (l : list call) :
  (sum_list_with (λ c, length c.1) (filter inserted l)
   + sum_list_with (λ c, length c.1) (filter raised l)
   = sum_list_with (λ c, length c.1) l)%nat.
Proof.
  induction l as [|[b ok] l IH]; simpl; [done|].
  rewrite !filter_cons. unfold inserted at 1, raised at 1. simpl.
  destruct ok; repeat case_decide; try congruence; simpl; lia.
Qed.

End Loop.

(** C9. Whatever the sink does, the loop calls it once for each batch of
    [range(0, n, batch_size)], in order, and these batches are the list of
    investigations cut in pieces: a call that raises neither stops the loop
    nor is repeated.  The failure total is the sum of the sizes of the
    batches whose call raised, the import total the sum of the sizes of the
    others, and the two add up to the number of investigations. *)
Theorem failed_batch_counted_loop_continues
    (sink : list call → list record → bool)
    (batch_size : nat) (investigations : list record) :
  (0 < batch_size)%nat →
  (calls (import_batches sink batch_size investigations)).*1
    = (λ i, slice investigations i (i + batch_size))
        <$> py_range (length investigations) batch_size ∧
  concat (calls (import_batches sink batch_size investigations)).*1 = investigations ∧
  (∀ k batch ok,
     calls (import_batches sink batch_size investigations) !! k = Some (batch, ok) →
     ok = sink (take k (calls (import_batches sink batch_size investigations))) batch) ∧
  failed (import_batches sink batch_size investigations)
    = sum_list_with (λ c, length c.1)
        (filter raised (calls (import_batches sink batch_size investigations))) ∧
  imported (import_batches sink batch_size investigations)
    = sum_list_with (λ c, length c.1)
        (filter inserted (calls (import_batches sink batch_size investigations))) ∧
  (imported (import_batches sink batch_size investigations)
   + failed (import_batches sink batch_size investigations)
   = length investigations)%nat.
Proof.
  intros Hb. unfold import_batches.
  set (st0 := {| imported := 0; failed := 0; calls := [] |}).
  set (st := foldl _ st0 _).
  assert (tally_ok sink st0) as H0.
  { split; [done|]. split; [done|]. intros k batch ok Hk. destruct k; discriminate. }
  pose proof (loop_tally sink investigations batch_size
                (py_range (length investigations) batch_size) _ H0) as (Hf & Hi & Hlog).
  fold st in Hf, Hi, Hlog.
  pose proof (loop_calls sink investigations batch_size
                (py_range (length investigations) batch_size) st0) as Hc.
  fold st in Hc. simpl in Hc.
  assert (concat (calls st).*1 = investigations) as Hcover.
  { rewrite Hc. unfold py_range. rewrite batches_cover by (done || lia).
    by rewrite drop_0. }
  split; [exact Hc|]. split; [exact Hcover|]. split; [exact Hlog|].
  split; [exact Hf|]. split; [exact Hi|].
  rewrite Hf, Hi, sum_lengths_split, sum_lengths_concat, Hcover. done.
Qed.

Lemma failed_batch_counted_loop_continues_witness :
  (0 < 2)%nat ∧
  calls (import_batches sink_second_fails 2
           [r_em_crowd; r_em_only; r_em_only; r_two_witnesses; r_two_witnesses])
    = [([r_em_crowd; r_em_only], true); ([r_em_only; r_two_witnesses], false);
       ([r_two_witnesses], true)] ∧
  failed (import_batches sink_second_fails 2
            [r_em_crowd; r_em_only; r_em_only; r_two_witnesses; r_two_witnesses]) = 2%nat ∧
  imported (import_batches sink_second_fails 2
              [r_em_crowd; r_em_only; r_em_only; r_two_witnesses; r_two_witnesses]) = 3%nat ∧
  concat (calls (import_batches sink_second_fails 2
            [r_em_crowd; r_em_only; r_em_only; r_two_witnesses; r_two_witnesses])).*1
    = [r_em_crowd; r_em_only; r_em_only; r_two_witnesses; r_two_witnesses].
Proof.
  split; [lia|]. split; [vm_refl|]. split; [vm_refl|]. split; [vm_refl|].
  apply (failed_batch_counted_loop_continues sink_second_fails 2). lia.
Defined.

(** * Further properties *)

(** ** Texts: description and title *)

Lemma length_append s t :
  String.length (s +:+ t) = (String.length s + String.length t)%nat.
Proof. induction s as [|c s IH]; simpl; [done | by rewrite IH]. Qed.

Lemma has_nul_append s t : has_nul (s +:+ t) = has_nul s || has_nul t.
Proof.
  induction s as [|c s IH]; simpl; [done|]. by rewrite IH, orb_assoc.
Qed.

Lemma clean_text_no_nul str_of v k : has_nul (clean_text str_of v k) = false.
Proof.
  unfold clean_text. destruct (truthy v); simpl; [|done].
  apply has_nul_slice_to, has_nul_rstrip, has_nul_lstrip, has_nul_remove_nul.
Qed.

Lemma clean_text_no_leading_space str_of v k :
  starts_with_space (clean_text str_of v k) = false.
Proof.
  unfold clean_text, slice_to. destruct (truthy v); simpl; [|done].
  destruct (0 <=? k); apply starts_with_space_str_take, starts_with_space_strip.
Qed.

Lemma remove_nul_id s : has_nul s = false → remove_nul s = s.
Proof.
  induction s as [|c s IH]; simpl; [done|]. intros H.
  apply orb_false_elim in H as [-> Hs]. by rewrite IH.
Qed.

Lemma lstrip_id s : starts_with_space s = false → lstrip s = s.
Proof. destruct s as [|c s]; simpl; [done|]. by intros ->. Qed.

Lemma length_rstrip s : (String.length (rstrip s) ≤ String.length s)%nat.
Proof.
  induction s as [|c s IH]; simpl; [done|].
  destruct (rstrip s) as [|c' t]; simpl in *.
  - destruct (py_isspace c); simpl; lia.
  - lia.
Qed.

Lemma rstrip_id s : ends_with_space s = false → rstrip s = s.
Proof.
  induction s as [|c s IH]; simpl; [done|].
  destruct s as [|c' s]; [by intros -> |].
  intros H. rewrite (IH H). done.
Qed.

Lemma transform_record_Ok str_of (r out : record) :
  transform_record str_of r = Ok out →
  ∃ t c title,
    calc_triage_score r = Ok t ∧ calc_confound_score r = Ok c ∧
    make_title str_of r = Ok title ∧
    out !! "user_id" = Some (VStr SYSTEM_USER_ID) ∧
    out !! "investigation_type" = Some (VStr "ufo") ∧
    out !! "title" = Some (VStr title) ∧
    out !! "description" = Some (VStr (make_description str_of r)) ∧
    out !! "triage_score" = Some (val_of_num t) ∧
    out !! "triage_status" = Some (VStr (triage_status_of t c)).
Proof.
  unfold transform_record. intros H.
  apply bind_Ok_inv in H as (t & Ht & H).
  apply bind_Ok_inv in H as (c & Hc & H).
  apply bind_Ok_inv in H as (title & Htitle & H).
  injection H as <-.
  exists t, c, title.
  split; [done|]. split; [done|]. split; [done|].
  split; [reflexivity|]. split; [reflexivity|]. split; [reflexivity|].
  split; [reflexivity|]. split; reflexivity.
Qed.

(** X1. The description of a transformed record is never empty: it is the
    sanitized [description] field, of at most 500 characters, without a null
    byte or leading whitespace, or the text "UFO sighting report" when the
    field is absent, falsy or empty once sanitized (a text of null bytes and
    whitespace only, for one). *)
Theorem description_never_empty (str_of : pyval → string) (r : record) :
  make_description str_of r ≠ "" ∧
  (String.length (make_description str_of r) ≤ 500)%nat ∧
  has_nul (make_description str_of r) = false ∧
  starts_with_space (make_description str_of r) = false ∧
  make_description str_of r
    = (if String.eqb (clean_text str_of (get r "description") 500) ""
       then "UFO sighting report"
       else clean_text str_of (get r "description") 500) ∧
  (truthy (get r "description") = false →
     make_description str_of r = "UFO sighting report") ∧
  (∀ s, get r "description" = VStr s → strip (remove_nul s) = "" →
     make_description str_of r = "UFO sighting report") ∧
  (∀ out, transform_record str_of r = Ok out →
     out !! "description" = Some (VStr (make_description str_of r))).
Proof.
  assert (make_description str_of r
          = (if String.eqb (clean_text str_of (get r "description") 500) ""
             then "UFO sighting report"
             else clean_text str_of (get r "description") 500)) as E.
  { unfold make_description. rewrite clean_text_get_or_empty, truthy_VStr.
    by destruct (String.eqb _ ""). }
  split.
  { rewrite E. destruct (String.eqb_spec (clean_text str_of (get r "description") 500) "");
      [discriminate | done]. }
  split.
  { rewrite E. destruct (String.eqb _ ""); [simpl; lia|].
    pose proof (clean_text_length str_of (get r "description") 500). lia. }
  split.
  { rewrite E. destruct (String.eqb _ ""); [done | apply clean_text_no_nul]. }
  split.
  { rewrite E. destruct (String.eqb _ ""); [done | apply clean_text_no_leading_space]. }
  split; [exact E|].
  split.
  { intros Hf. rewrite E. unfold clean_text. by rewrite Hf. }
  split.
  { intros s Hs Hempty. rewrite E, Hs. unfold clean_text.
    destruct (truthy (VStr s)); simpl; [|done].
    rewrite Hempty. unfold slice_to. by simpl. }
  intros out H.
  by destruct (transform_record_Ok _ _ _ H) as (? & ? & ? & _ & _ & _ & _ & _ & _ & Hd & _).
Qed.

(** The title of a record whose [date_time] is a text or falsy, before and
    after the cut. *)
Lemma make_title_uncut str_of (r : record) :
  falsy_or_text (get r "date_time") = true →
  let title :=
    title_text (clean_text str_of (get r "shape") 20)
               (clean_text str_of (get_or r "city" (VStr "Unknown")) 50)
               (clean_text str_of (get r "state") 20)
               (date_text r) in
  make_title str_of r = Ok title ∧ (12 ≤ String.length title ≤ 112)%nat.
Proof.
  intros Hd title.
  assert (12 ≤ String.length title ≤ 112)%nat as Hlen.
  { unfold title, title_text. rewrite !length_append.
    pose proof (clean_text_length str_of (get r "shape") 20 ltac:(lia)).
    pose proof (clean_text_length str_of (get_or r "city" (VStr "Unknown")) 50 ltac:(lia)).
    pose proof (clean_text_length str_of (get r "state") 20 ltac:(lia)).
    assert (1 ≤ String.length (date_text r) ≤ 10)%nat.
    { unfold date_text. destruct (get r "date_time") as [| | | |s| |]; try (simpl; lia).
      destruct s as [|c s]; [simpl; lia|].
      rewrite length_str_take. cbn [String.length]. lia. }
    assert (String.length
              (if truthy (VStr (clean_text str_of (get r "shape") 20))
               then clean_text str_of (get r "shape") 20 +:+ " " else "") ≤ 21)%nat.
    { destruct (truthy _); [rewrite length_append|]; simpl; lia. }
    set (pre := if truthy _ then _ else _) in *.
    simpl String.length. lia. }
  split; [|done].
  rewrite make_title_rule by done. f_equal. unfold title_rule.
  rewrite <- clean_text_city.
  replace (if String.eqb (clean_text str_of (get r "shape") 20) "" then ""
           else clean_text str_of (get r "shape") 20 +:+ " ")
    with (if truthy (VStr (clean_text str_of (get r "shape") 20))
          then clean_text str_of (get r "shape") 20 +:+ " " else "")
    by (rewrite truthy_VStr; by destruct (String.eqb _ "")).
  apply str_take_all. fold (date_text r).
  change (String.length title ≤ 200)%nat. lia.
Qed.

(** X2. For a record whose [date_time] is a text or falsy, the title is the
    whole formatted text: it has between 12 and 112 characters, so the final
    cut at 200 characters never removes anything. *)
Theorem title_is_never_cut (str_of : pyval → string) (r : record) :
  falsy_or_text (get r "date_time") = true →
  make_title str_of r
    = Ok (title_text (clean_text str_of (get r "shape") 20)
                     (clean_text str_of (get_or r "city" (VStr "Unknown")) 50)
                     (clean_text str_of (get r "state") 20)
                     (date_text r)) ∧
  (∀ title, make_title str_of r = Ok title →
     (12 ≤ String.length title ≤ 112)%nat).
Proof.
  intros Hd. destruct (make_title_uncut str_of r Hd) as [E Hlen].
  split; [exact E|]. intros title Ht. rewrite E in Ht. by injection Ht as <-.
Qed.

Lemma title_is_never_cut_witness :
  falsy_or_text (get r_typical "date_time") = true ∧
  make_title str_scalar r_typical
    = Ok (title_text "disk" "Reno" "NV" "2020-05-01") ∧
  (∀ title, make_title str_scalar r_typical = Ok title →
     (12 ≤ String.length title ≤ 112)%nat).
Proof.
  split; [reflexivity|]. exact (title_is_never_cut str_scalar r_typical eq_refl).
Defined.

(** X3. The date is copied into the title as it is: for a [date_time] that
    is a text or falsy, the title contains a null byte exactly when the first
    ten characters of [date_time] do, although shape, city and state are
    sanitized; and it never starts with whitespace.  A timestamp that begins
    with a null byte gives a title with one. *)
Theorem title_keeps_nul_of_date :
  (∀ str_of (r : record) title,
     falsy_or_text (get r "date_time") = true →
     make_title str_of r = Ok title →
     has_nul title = has_nul (date_text r) ∧
     starts_with_space title = false) ∧
  (∃ title, make_title str_scalar r_nul_date = Ok title ∧ has_nul title = true).
Proof.
  split.
  - intros str_of r title Hd Ht.
    destruct (make_title_uncut str_of r Hd) as [E _]. rewrite E in Ht.
    injection Ht as <-. unfold title_text. split.
    + rewrite !has_nul_append, !clean_text_no_nul.
      assert (has_nul (if truthy (VStr (clean_text str_of (get r "shape") 20))
                       then clean_text str_of (get r "shape") 20 +:+ " " else "")
              = false) as ->.
      { destruct (truthy _); [|done].
        by rewrite has_nul_append, clean_text_no_nul. }
      simpl. by rewrite orb_false_r.
    + rewrite truthy_VStr.
      pose proof (clean_text_no_leading_space str_of (get r "shape") 20) as Hs.
      destruct (clean_text str_of (get r "shape") 20) as [|c s]; [done|].
      simpl in *. done.
  - eexists. split; [reflexivity|]. reflexivity.
Qed.

(** X4. Sanitizing a text that was already sanitized to the same length
    only removes the trailing whitespace the cut may have left: nothing else
    changes, and a text that was not cut is returned as it is. *)
Theorem clean_text_twice (str_of : pyval → string) (v : pyval) (max_len : Z) :
  0 ≤ max_len →
  clean_text str_of (VStr (clean_text str_of v max_len)) max_len
    = rstrip (clean_text str_of v max_len) ∧
  (truthy v = true →
   (String.length (strip (remove_nul (py_str str_of v))) ≤ Z.to_nat max_len)%nat →
   clean_text str_of (VStr (clean_text str_of v max_len)) max_len
     = clean_text str_of v max_len).
Proof.
  intros Hk.
  assert (clean_text str_of (VStr (clean_text str_of v max_len)) max_len
          = rstrip (clean_text str_of v max_len)) as E.
  { set (s := clean_text str_of v max_len).
    pose proof (clean_text_no_nul str_of v max_len) as Hn.
    pose proof (clean_text_no_leading_space str_of v max_len) as Hs.
    pose proof (clean_text_length str_of v max_len Hk) as Hl.
    fold s in Hn, Hs, Hl.
    unfold clean_text at 1. rewrite truthy_VStr.
    destruct (String.eqb_spec s "") as [-> | _]; [done|]. simpl negb. cbv iota.
    cbn [py_str]. unfold strip. rewrite (remove_nul_id _ Hn), (lstrip_id _ Hs).
    unfold slice_to. destruct (Z.leb_spec 0 max_len); [|lia].
    apply str_take_all. pose proof (length_rstrip s). lia. }
  split; [exact E|].
  intros Ht Hlen. rewrite E. apply rstrip_id.
  unfold clean_text. rewrite Ht. simpl negb. cbv iota.
  unfold slice_to. destruct (Z.leb_spec 0 max_len); [|lia].
  rewrite str_take_all by done. apply ends_with_space_rstrip.
Qed.

Lemma clean_text_twice_witness :
  0 ≤ 2 ∧
  clean_text str_scalar (VStr text_a_b_c) 2 = "a " ∧
  clean_text str_scalar (VStr (clean_text str_scalar (VStr text_a_b_c) 2)) 2 = "a" ∧
  clean_text str_scalar (VStr (clean_text str_scalar (VStr text_a_b_c) 2)) 2
    = rstrip (clean_text str_scalar (VStr text_a_b_c) 2).
Proof.
  split; [lia|]. split; [reflexivity|]. split; [reflexivity|].
  apply (clean_text_twice str_scalar (VStr text_a_b_c) 2). lia.
Defined.

(** ** The scorers: closed forms, bounds and errors *)

Lemma calc_triage_score_untyped_duration r :
  falsy_or_number (get r "witness_count") = true →
  falsy_or_number (get r "duration_seconds") = false →
  calc_triage_score r = Raise TypeError.
Proof.
  intros Hw Hd.
  destruct (falsy_or_number (get r "duration_seconds")) eqn:E; [done|].
  unfold calc_triage_score.
  rewrite !incr_if_int, !bind_Ok.
  set (z := 0 + _).
  assert (0 ≤ z ≤ 3) as Hz by (unfold z; destruct (_ && _); lia).
  rewrite (present_and_gt_typed r "witness_count"), bind_Ok by done.
  assert (∃ s', (if exceeds (get r "witness_count") 1
                 then w ← as_number (get r "witness_count");
                      d ← num_sub w (PInt 1);
                      num_add (PInt z) (py_min (PInt 2) d)
                 else Ok (PInt z)) = Ok s') as (s' & ->).
  { destruct (exceeds _ 1) eqn:Ex; [|by eexists].
    destruct (exceeds_number _ _ Ex) as (w & -> & Hgt). rewrite bind_Ok.
    destruct (sub_one_returns w Hgt) as (d & -> & Hd0).
    rewrite bind_Ok.
    destruct (int_add_small 3 2 z (py_min (PInt 2) d)) as (c & -> & _);
      [done | by apply py_min_small | lia |]. by eexists. }
  rewrite bind_Ok.
  by rewrite (present_and_gt_untyped r "duration_seconds").
Qed.

Lemma quality_score_untyped_duration r :
  falsy_or_number (get r "witness_count") = true →
  falsy_or_number (get r "duration_seconds") = false →
  quality_score r = Raise TypeError.
Proof.
  intros Hw Hd. destruct (quality_score_prefix r Hw) as (s & _ & ->).
  by rewrite (present_and_gt_untyped r "duration_seconds").
Qed.

(** What each scorer does, by the types of the fields it compares. *)
Lemma quality_score_cases r :
  if falsy_or_number (get r "witness_count")
     && falsy_or_number (get r "duration_seconds")
  then returns (quality_score r)
  else quality_score r = Raise TypeError.
Proof.
  destruct (falsy_or_number (get r "witness_count")) eqn:Hw; simpl.
  - destruct (falsy_or_number (get r "duration_seconds")) eqn:Hd.
    + destruct (quality_score_returns r Hw Hd) as (q & Hq & _). by exists q.
    + by apply quality_score_untyped_duration.
  - by apply quality_score_untyped.
Qed.

Lemma calc_triage_score_cases r :
  if falsy_or_number (get r "witness_count")
     && falsy_or_number (get r "duration_seconds")
  then returns (calc_triage_score r)
  else calc_triage_score r = Raise TypeError.
Proof.
  destruct (falsy_or_number (get r "witness_count")) eqn:Hw; simpl.
  - destruct (falsy_or_number (get r "duration_seconds")) eqn:Hd.
    + destruct (calc_triage_score_returns r Hw Hd) as (q & Hq & _). by exists q.
    + by apply calc_triage_score_untyped_duration.
  - by apply calc_triage_score_untyped.
Qed.

Lemma calc_triage_score_Ok r t :
  calc_triage_score r = Ok t →
  falsy_or_number (get r "witness_count") = true ∧
  falsy_or_number (get r "duration_seconds") = true.
Proof.
  intros H. pose proof (calc_triage_score_cases r) as C.
  destruct (falsy_or_number (get r "witness_count")),
           (falsy_or_number (get r "duration_seconds")); simpl in C;
    try done; by rewrite C in H.
Qed.

(** X5. On a record whose count is an integer (or falsy) and whose duration
    is a number (or falsy), the quality score is the sum of its seven terms,
    an integer between 0 and 15, and the triage score is the sum of its
    terms, which never exceeds 10: the final [min(10, score)] changes
    nothing. *)
Theorem integer_scores_are_bounded_sums (r : record) :
  falsy_or_integer (get r "witness_count") = true →
  falsy_or_number (get r "duration_seconds") = true →
  quality_score r = Ok (PInt (quality_rule r)) ∧
  0 ≤ quality_rule r ≤ 15 ∧
  calc_triage_score r
    = Ok (PInt ((if truthy (get r "latitude") && truthy (get r "longitude")
                 then 3 else 0) + triage_other_terms r)) ∧
  0 ≤ (if truthy (get r "latitude") && truthy (get r "longitude") then 3 else 0)
      + triage_other_terms r ≤ 10.
Proof.
  intros Hw Hd.
  pose proof (triage_other_terms_bounds r Hw) as Ho.
  split; [by apply quality_score_int|].
  split; [by apply quality_rule_bounds|].
  split.
  - rewrite calc_triage_score_int by done. unfold triage_rule.
    do 2 f_equal. destruct (_ && _); lia.
  - destruct (_ && _); lia.
Qed.

Lemma integer_scores_are_bounded_sums_witness :
  falsy_or_integer (get r_all_signals "witness_count") = true ∧
  falsy_or_number (get r_all_signals "duration_seconds") = true ∧
  quality_score r_all_signals = Ok (PInt 15) ∧
  calc_triage_score r_all_signals = Ok (PInt 10).
Proof.
  split; [reflexivity|]. split; [reflexivity|].
  destruct (integer_scores_are_bounded_sums r_all_signals eq_refl eq_refl)
    as (Hq & _ & Ht & _).
  split; [exact Hq | exact Ht].
Defined.

(** X6. Each scorer either returns or raises [TypeError], and which of the
    two is decided by the types alone: [quality_score] and
    [calc_triage_score] return exactly when [witness_count] and
    [duration_seconds] are each falsy or a number, [calc_confound_score]
    exactly when each distance is [None] (or absent) or a number. *)
Theorem scorers_raise_exactly_on_non_numbers (r : record) :
  (if falsy_or_number (get r "witness_count")
      && falsy_or_number (get r "duration_seconds")
   then returns (quality_score r) ∧ returns (calc_triage_score r)
   else quality_score r = Raise TypeError
        ∧ calc_triage_score r = Raise TypeError) ∧
  (if none_or_number (get r "airport_nearby_km")
      && none_or_number (get r "military_base_nearby_km")
   then returns (calc_confound_score r)
   else calc_confound_score r = Raise TypeError).
Proof.
  split.
  - pose proof (quality_score_cases r) as Q.
    pose proof (calc_triage_score_cases r) as T.
    by destruct (_ && _).
  - rewrite calc_confound_score_cases. unfold none_or_number. cbv zeta.
    destruct (is_none (get r "airport_nearby_km") || _); simpl; [|done].
    destruct (is_none (get r "military_base_nearby_km") || _); [|done].
    by eexists.
Qed.

Lemma lt_const_mono v n m : n ≤ m → lt_const v n = true → lt_const v m = true.
Proof.
  unfold lt_const. intros Hnm. destruct (as_number v) as [a|]; [|done].
  intros H. destruct (num_lt_ordered _ _ H) as ([x Hx] & _).
  rewrite (num_lt_place a (PInt n) x (Fin (n * 2 ^ 1074)) Hx eq_refl) in H.
  rewrite (num_lt_place a (PInt m) x (Fin (m * 2 ^ 1074)) Hx eq_refl).
  assert (n * 2 ^ 1074 ≤ m * 2 ^ 1074) by (apply Z.mul_le_mono_nonneg_r; lia).
  destruct x as [|x|]; simpl in *; try done.
  destruct (Z.compare_spec x (n * 2 ^ 1074)); try done.
  destruct (Z.compare_spec x (m * 2 ^ 1074)); try done; lia.
Qed.

Lemma confound_rule_bounds r :
  let a := get r "airport_nearby_km" in
  let m := get r "military_base_nearby_km" in
  0 ≤ confound_rule r ≤ 70 ∧
  confound_rule r
    = Z.max 0 (airport_term a + military_term m
               - (if truthy (get r "physiological_effects") then 20 else 0)
               - (if truthy (get r "em_interference") then 15 else 0)) ∧
  (is_none a = true → is_none m = true → confound_rule r = 0) ∧
  (truthy (get r "physiological_effects") = true →
   truthy (get r "em_interference") = true → confound_rule r ≤ 35) ∧
  (50 ≤ confound_rule r →
   lt_const a 30 = true ∧ lt_const m 50 = true ∧
   truthy (get r "physiological_effects")
   && truthy (get r "em_interference") = false).
Proof.
  intros a m. unfold confound_rule. fold a m.
  assert (0 ≤ airport_term a ≤ 40 ∧ (25 ≤ airport_term a → lt_const a 30 = true)
          ∧ (is_none a = true → airport_term a = 0)) as (Ha & Ha' & Ha0).
  { unfold airport_term. destruct (is_none a); [split; [lia|]; split; [lia|done]|].
    destruct (lt_const a 10) eqn:E10.
    { split; [lia|]. split; [|done]. intros _. by apply (lt_const_mono a 10 30). }
    destruct (lt_const a 30); [split; [lia|]; split; done|].
    destruct (lt_const a 50); (split; [lia|]; split; [lia|done]). }
  assert (0 ≤ military_term m ≤ 30 ∧ (15 ≤ military_term m → lt_const m 50 = true)
          ∧ (is_none m = true → military_term m = 0)) as (Hm & Hm' & Hm0).
  { unfold military_term. destruct (is_none m); [split; [lia|]; split; [lia|done]|].
    destruct (lt_const m 30) eqn:E30.
    { split; [lia|]. split; [|done]. intros _. by apply (lt_const_mono m 30 50). }
    destruct (lt_const m 50); (split; [lia|]; split; [lia|done]). }
  assert (airport_term a = 0 ∨ airport_term a = 10
          ∨ airport_term a = 25 ∨ airport_term a = 40) as Hav.
  { unfold airport_term.
    destruct (is_none a), (lt_const a 10), (lt_const a 30), (lt_const a 50); lia. }
  assert (military_term m = 0 ∨ military_term m = 15 ∨ military_term m = 30) as Hmv.
  { unfold military_term.
    destruct (is_none m), (lt_const m 30), (lt_const m 50); lia. }
  unfold clamp.
  destruct (truthy (get r "physiological_effects")),
           (truthy (get r "em_interference"));
    repeat match goal with
           | |- context [?x <? ?y] => destruct (Z.ltb_spec x y)
           end;
    (split; [lia|]); (split; [lia|]);
    (split; [intros Ea Em; specialize (Ha0 Ea); specialize (Hm0 Em); lia|]);
    (split; [intros ? ?; first [discriminate | lia]|]);
    intros H50; try lia;
    (split; [apply Ha'; lia|]); (split; [apply Hm'; lia | done]).
Qed.

(** X7. The confound score never exceeds 70 (40 for the airport plus 30 for
    the military base), so the ceiling of 100 is never reached: the score is
    the sum of the terms floored at 0.  It is 0 when neither distance is
    given, and at most 35 when both effect flags are set. *)
Theorem confound_score_at_most_70 (r : record) (c : Z) :
  calc_confound_score r = Ok c →
  0 ≤ c ≤ 70 ∧
  c = Z.max 0 (airport_term (get r "airport_nearby_km")
               + military_term (get r "military_base_nearby_km")
               - (if truthy (get r "physiological_effects") then 20 else 0)
               - (if truthy (get r "em_interference") then 15 else 0)) ∧
  (is_none (get r "airport_nearby_km") = true →
   is_none (get r "military_base_nearby_km") = true → c = 0) ∧
  (truthy (get r "physiological_effects") = true →
   truthy (get r "em_interference") = true → c ≤ 35).
Proof.
  intros H. rewrite calc_confound_score_cases in H. cbv zeta in H.
  destruct (_ || _); [|done]. destruct (_ || _); [|done].
  injection H as <-.
  destruct (confound_rule_bounds r) as (H1 & H2 & H3 & H4 & _). done.
Qed.

Lemma confound_score_at_most_70_witness :
  calc_confound_score r_near_bases = Ok 70 ∧
  calc_confound_score (rec_of []) = Ok 0 ∧
  0 ≤ 70 ≤ 70.
Proof.
  split; [reflexivity|]. split; [reflexivity|].
  exact (proj1 (confound_score_at_most_70 r_near_bases 70 eq_refl)).
Defined.

(** X8. A transformed record is 'pending' only if both distances are
    numbers, the airport closer than 30 km and the military base closer than
    50 km, the two effect flags are not both set and the triage score is
    below 4: a sighting without both distances is never 'pending'. *)
Theorem pending_needs_both_distances (str_of : pyval → string) (r out : record) :
  transform_record str_of r = Ok out →
  out !! "triage_status" = Some (VStr "pending") →
  lt_const (get r "airport_nearby_km") 30 = true ∧
  lt_const (get r "military_base_nearby_km") 50 = true ∧
  is_none (get r "airport_nearby_km") = false ∧
  is_none (get r "military_base_nearby_km") = false ∧
  truthy (get r "physiological_effects") && truthy (get r "em_interference") = false ∧
  ∃ t, calc_triage_score r = Ok t ∧ num_ge t (PInt 4) = false.
Proof.
  intros H Hs.
  destruct (transform_record_Ok _ _ _ H) as (t & c & title & Ht & Hc & _ & _ & _ & _ & _ & _ & Hst).
  rewrite Hst in Hs. injection Hs as Hs.
  apply (proj2 (proj2 (triage_status_cases t c))) in Hs as [_ Hs].
  assert (50 ≤ c) as H50 by lia.
  assert (num_ge t (PInt 4) = false) as Hge.
  { destruct (num_ge t (PInt 4)); [|done]. exfalso. apply Hs. by left. }
  rewrite calc_confound_score_cases in Hc. cbv zeta in Hc.
  destruct (_ || _); [|done]. destruct (_ || _); [|done].
  injection Hc as <-.
  destruct (confound_rule_bounds r) as (_ & _ & _ & _ & H5).
  destruct (H5 H50) as (Ha & Hm & Hf).
  split; [done|]. split; [done|].
  split; [by destruct (get r "airport_nearby_km")|].
  split; [by destruct (get r "military_base_nearby_km")|].
  split; [done|]. by exists t.
Qed.

Lemma pending_needs_both_distances_witness :
  ∃ out, transform_record str_scalar r_quake_near_bases = Ok out ∧
         out !! "triage_status" = Some (VStr "pending") ∧
         lt_const (get r_quake_near_bases "airport_nearby_km") 30 = true ∧
         lt_const (get r_quake_near_bases "military_base_nearby_km") 50 = true.
Proof.
  eexists. split; [reflexivity|]. split; [reflexivity|].
  destruct (pending_needs_both_distances str_scalar r_quake_near_bases _
              eq_refl eq_refl) as (Ha & Hm & _).
  split; [exact Ha | exact Hm].
Defined.

Lemma is_tier1_coordinates r :
  is_tier1 r = true →
  truthy (get r "latitude") && truthy (get r "longitude") = true.
Proof. unfold is_tier1. by intros [? _]%andb_true_iff. Qed.

Lemma exceeds_integer_term v n k :
  exceeds v n = true → falsy_or_integer v = true → 0 ≤ n → n < k →
  n < Z.min k (int_of v).
Proof.
  intros Hx Hv Hn Hk. destruct (exceeds_integer v n Hx Hv) as [_ H]. lia.
Qed.

(** X9. A sighting with coordinates and sidereal time (Tier 1) and an
    integer count is never 'pending' when it reports physiological effects,
    electromagnetic interference or more than one witness: its triage score
    is at least 4.  A Tier 1 sighting whose only signal is an earthquake can
    be 'pending'. *)
Theorem tier1_with_effects_is_not_pending :
  (∀ str_of (r out : record),
     is_tier1 r = true →
     falsy_or_integer (get r "witness_count") = true →
     truthy (get r "physiological_effects") = true
     ∨ truthy (get r "em_interference") = true
     ∨ exceeds (get r "witness_count") 1 = true →
     transform_record str_of r = Ok out →
     (∃ t, calc_triage_score r = Ok (PInt t) ∧ 4 ≤ t ≤ 10) ∧
     (out !! "triage_status" = Some (VStr "verified")
      ∨ out !! "triage_status" = Some (VStr "provisional"))) ∧
  (is_tier1 r_quake_near_bases = true ∧
   is_high_signal r_quake_near_bases = Ok true ∧
   ∃ out, transform_record str_scalar r_quake_near_bases = Ok out ∧
          out !! "triage_status" = Some (VStr "pending")).
Proof.
  split.
  - intros str_of r out Ht1 Hw Hsig H.
    destruct (transform_record_Ok _ _ _ H)
      as (t & c & title & Ht & Hc & _ & _ & _ & _ & _ & _ & Hst).
    destruct (calc_triage_score_Ok _ _ Ht) as [_ Hd].
    rewrite calc_triage_score_int in Ht by done. injection Ht as <-.
    pose proof (triage_rule_bounds r Hw) as Hb.
    assert (4 ≤ triage_rule r) as H4.
    { unfold triage_rule. rewrite (is_tier1_coordinates r Ht1).
      pose proof (triage_other_terms_bounds r Hw) as Ho.
      assert (1 ≤ triage_other_terms r); [|lia].
      unfold triage_other_terms.
      pose proof (witness_term_bounds (get r "witness_count") 1 2 Hw) as Hwt.
      assert (0 ≤ (if exceeds (get r "witness_count") 1
                   then Z.min 2 (int_of (get r "witness_count") - 1) else 0)) as H0.
      { destruct (exceeds _ 1) eqn:Ex; [|lia].
        destruct (exceeds_integer _ _ Ex Hw) as [_ Hi]. lia. }
      destruct Hsig as [Hp | [He | Hx]].
      + rewrite Hp, orb_true_r.
        destruct (exceeds _ 0), (truthy (get r "em_interference")),
                 (truthy (get r "source")); lia.
      + rewrite He.
        destruct (exceeds _ 0), (_ || _), (truthy (get r "source")); lia.
      + rewrite Hx in *. destruct (exceeds_integer _ _ Hx Hw) as [_ Hi].
        destruct (exceeds _ 0), (_ || _), (truthy (get r "em_interference")),
                 (truthy (get r "source")); lia. }
    split; [exists (triage_rule r); split; [|lia]; by apply calc_triage_score_int|].
    rewrite Hst.
    destruct (triage_status_cases (PInt (triage_rule r)) c) as (Hv & Hp & _).
    destruct (num_ge (PInt (triage_rule r)) (PInt 7) && (c <? 30)) eqn:E.
    + left. do 2 f_equal. apply Hv.
      apply andb_true_iff in E as [E1 E2]. split; [done | lia].
    + right. do 2 f_equal. apply Hp. split.
      * intros [E1 E2]. rewrite E1 in E. simpl in E. lia.
      * left. apply num_ge_int. lia.
  - split; [reflexivity|]. split; [reflexivity|].
    eexists. split; reflexivity.
Qed.

Lemma tier1_with_effects_is_not_pending_witness :
  is_tier1 r_typical = true ∧
  falsy_or_integer (get r_typical "witness_count") = true ∧
  truthy (get r_typical "physiological_effects") = true ∧
  transform_record str_scalar r_typical = Ok out_typical ∧
  (∃ t, calc_triage_score r_typical = Ok (PInt t) ∧ 4 ≤ t ≤ 10) ∧
  (out_typical !! "triage_status" = Some (VStr "verified")
   ∨ out_typical !! "triage_status" = Some (VStr "provisional")).
Proof.
  assert (transform_record str_scalar r_typical = Ok out_typical) as E by vm_refl.
  split; [reflexivity|]. split; [reflexivity|]. split; [reflexivity|].
  split; [exact E|].
  exact (proj1 tier1_with_effects_is_not_pending str_scalar r_typical out_typical
           eq_refl eq_refl (or_introl eq_refl) E).
Defined.

Lemma num_le_ordered a b :
  num_le a b = true → ordered a ∧ ordered b ∧ num_lt b a = false.
Proof.
  unfold num_le. intros H.
  destruct (num_compare a b) as [c|] eqn:E; [|done].
  destruct (compared_ordered _ _ _ E) as [[x Hx] [y Hy]].
  split; [by exists x|]. split; [by exists y|].
  rewrite (num_compare_place a b x y Hx Hy) in E. injection E as <-.
  rewrite (num_lt_place b a y x Hy Hx), ext_compare_antisym.
  by destruct (ext_compare x y).
Qed.

Lemma lt_const_antitone va vb x y n :
  as_number va = Ok x → as_number vb = Ok y → num_le x y = true →
  lt_const vb n = true → lt_const va n = true.
Proof.
  intros Hx Hy Hle. unfold lt_const. rewrite Hx, Hy. intros H.
  destruct (num_le_ordered _ _ Hle) as (Hox & Hoy & Hyx).
  destruct (num_lt x (PInt n)) eqn:E; [done|].
  pose proof (num_not_lt_trans y x (PInt n) Hoy Hox (ordered_int n) Hyx E).
  congruence.
Qed.

Lemma distance_terms_antitone va vb x y :
  as_number va = Ok x → as_number vb = Ok y → num_le x y = true →
  airport_term vb ≤ airport_term va ∧ military_term vb ≤ military_term va.
Proof.
  intros Hx Hy Hle.
  pose proof (lt_const_antitone va vb x y 10 Hx Hy Hle) as H10.
  pose proof (lt_const_antitone va vb x y 30 Hx Hy Hle) as H30.
  pose proof (lt_const_antitone va vb x y 50 Hx Hy Hle) as H50.
  assert (is_none va = false) as Na by by destruct va.
  assert (is_none vb = false) as Nb by by destruct vb.
  assert (lt_const va 10 = true → lt_const va 30 = true) as Ha1
    by (apply lt_const_mono; lia).
  assert (lt_const va 30 = true → lt_const va 50 = true) as Ha2
    by (apply lt_const_mono; lia).
  unfold airport_term, military_term. rewrite Na, Nb.
  destruct (lt_const vb 10), (lt_const vb 30), (lt_const vb 50);
    try rewrite (H10 eq_refl) in *; try rewrite (H30 eq_refl) in *;
    try rewrite (H50 eq_refl) in *;
    try rewrite (Ha1 eq_refl) in *; try rewrite (Ha2 eq_refl) in *;
    destruct (lt_const va 10), (lt_const va 30), (lt_const va 50);
    try (specialize (Ha1 eq_refl)); try (specialize (Ha2 eq_refl));
    try discriminate; lia.
Qed.

Lemma get_insert_ne (r : record) k k' v : k ≠ k' → get (<[k:=v]> r) k' = get r k'.
Proof. intros H. unfold get. by rewrite lookup_insert_ne. Qed.

Lemma get_insert (r : record) k v : get (<[k:=v]> r) k = v.
Proof. unfold get. by rewrite lookup_insert_eq. Qed.

(** X10. A shorter distance never lowers the confound score: if the airport
    distance of a record is replaced by a number that is not larger, or the
    military-base distance is, the score stays or goes up. *)
Theorem closer_is_never_less_confounded
    (r : record) (va vb : pyval) (x y : pynum) (c c' : Z) :
  as_number va = Ok x → as_number vb = Ok y → num_le x y = true →
  (calc_confound_score (<["airport_nearby_km" := va]> r) = Ok c →
   calc_confound_score (<["airport_nearby_km" := vb]> r) = Ok c' → c' ≤ c) ∧
  (calc_confound_score (<["military_base_nearby_km" := va]> r) = Ok c →
   calc_confound_score (<["military_base_nearby_km" := vb]> r) = Ok c' → c' ≤ c).
Proof.
  intros Hx Hy Hle.
  destruct (distance_terms_antitone va vb x y Hx Hy Hle) as [Ha Hm].
  split; intros H H'; rewrite calc_confound_score_cases in H, H'; cbv zeta in H, H';
    (destruct (_ || _); [|done]); (destruct (_ || _); [|done]);
    (destruct (_ || _); [|done]); (destruct (_ || _); [|done]);
    injection H as <-; injection H' as <-;
    unfold confound_rule, clamp;
    rewrite ?get_insert, ?get_insert_ne by done;
    repeat match goal with
           | |- context [?a <? ?b] => destruct (Z.ltb_spec a b)
           end; lia.
Qed.

Lemma closer_is_never_less_confounded_witness :
  as_number (VFloat 4.5) = Ok (PFloat 4.5) ∧
  as_number (VInt 12) = Ok (PInt 12) ∧
  num_le (PFloat 4.5) (PInt 12) = true ∧
  calc_confound_score (<["airport_nearby_km" := VFloat 4.5]> r_near_bases) = Ok 70 ∧
  calc_confound_score (<["airport_nearby_km" := VInt 12]> r_near_bases) = Ok 55 ∧
  55 ≤ 70.
Proof.
  split; [reflexivity|]. split; [reflexivity|]. split; [reflexivity|].
  split; [reflexivity|]. split; [reflexivity|].
  exact (proj1 (closer_is_never_less_confounded r_near_bases
                  (VFloat 4.5) (VInt 12) (PFloat 4.5) (PInt 12) 70 55
                  eq_refl eq_refl eq_refl) eq_refl eq_refl).
Defined.

(** ** The selection: signals, ranking and errors *)

Section Comprehensions.
Context {A B : Type}.

Lemma filterM_Ok_all (p : A → result bool) (l l' : list A) :
  filterM p l = Ok l' →
  ∀ x, x ∈ l → ∃ b, p x = Ok b ∧ (b = true → x ∈ l').
Proof.
  revert l'. induction l as [|y l IH]; intros l' H x Hx;
    [by apply elem_of_nil in Hx|].
  simpl in H. apply bind_Ok_inv in H as (b & Hb & H).
  apply bind_Ok_inv in H as (rest & Hrest & H). injection H as <-.
  apply elem_of_cons in Hx as [-> | Hx].
  - exists b. split; [done|]. intros ->. left.
  - destruct (IH _ Hrest x Hx) as (b' & Hb' & Hin).
    exists b'. split; [done|]. intros Hb''. destruct b; [right|]; auto.
Qed.

Lemma filterM_Raise (p : A → result bool) (l : list A) e :
  filterM p l = Raise e → ∃ x, x ∈ l ∧ p x = Raise e.
Proof.
  induction l as [|y l IH]; simpl; [done|].
  destruct (p y) as [b|e'] eqn:Hy.
  - rewrite bind_Ok. destruct (filterM p l) as [rest|e'] eqn:Hl.
    + by rewrite bind_Ok.
    + intros [= <-]. destruct (IH eq_refl) as (x & Hx & Hp).
      exists x. split; [by right | done].
  - intros [= <-]. exists y. split; [left | done].
Qed.

Lemma mapM_Raise (f : A → result B) (l : list A) e :
  mapM f l = Raise e → ∃ x, x ∈ l ∧ f x = Raise e.
Proof.
  induction l as [|y l IH]; simpl; [done|].
  destruct (f y) as [b|e'] eqn:Hy.
  - rewrite bind_Ok. destruct (mapM f l) as [rest|e'] eqn:Hl.
    + by rewrite bind_Ok.
    + intros [= <-]. destruct (IH eq_refl) as (x & Hx & Hp).
      exists x. split; [by right | done].
  - intros [= <-]. exists y. split; [left | done].
Qed.

(** A comprehension whose condition returns on every element is a plain
    filter. *)
Lemma filterM_filter (p : A → result bool) (q : A → bool) (l : list A) :
  (∀ x, x ∈ l → p x = Ok (q x)) → filterM p l = Ok (List.filter q l).
Proof.
  induction l as [|y l IH]; intros H; simpl; [done|].
  rewrite (H y) by left. rewrite bind_Ok, IH, bind_Ok; [done|].
  intros x Hx. apply H. by right.
Qed.

Lemma filter_length_cover (p1 p2 p3 p4 : A → bool) (l : list A) :
  Forall (λ x, p1 x || p2 x || p3 x || p4 x = true) l →
  (length l ≤ length (List.filter p1 l) + length (List.filter p2 l)
             + length (List.filter p3 l) + length (List.filter p4 l))%nat.
Proof.
  induction 1 as [|x l Hx _ IH]; simpl; [done|].
  destruct (p1 x), (p2 x), (p3 x), (p4 x); simpl in *; try discriminate; lia.
Qed.

End Comprehensions.

Lemma is_high_signal_typed (r : record) :
  falsy_or_number (get r "witness_count") = true →
  is_high_signal r = Ok (has_signal r).
Proof.
  intros H. unfold is_high_signal, has_signal.
  destruct (truthy _); [done|]. destruct (truthy _); [done|].
  destruct (truthy _); [done|]. simpl. by apply present_and_gt_typed.
Qed.

Lemma is_high_signal_Ok (r : record) (b : bool) :
  is_high_signal r = Ok b →
  b = has_signal r ∧ (b = false → falsy_or_number (get r "witness_count") = true).
Proof.
  unfold is_high_signal, has_signal.
  destruct (truthy _); [by intros [= <-]|]. destruct (truthy _); [by intros [= <-]|].
  destruct (truthy _); [by intros [= <-]|]. simpl.
  destruct (falsy_or_number (get r "witness_count")) eqn:E.
  - rewrite present_and_gt_typed by done. by intros [= <-].
  - by rewrite present_and_gt_untyped.
Qed.

Lemma is_high_signal_Raise (r : record) e :
  is_high_signal r = Raise e → e = TypeError.
Proof.
  unfold is_high_signal.
  destruct (truthy _); [done|]. destruct (truthy _); [done|].
  destruct (truthy _); [done|].
  destruct (falsy_or_number (get r "witness_count")) eqn:E.
  - by rewrite present_and_gt_typed.
  - rewrite present_and_gt_untyped by done. by intros [= <-].
Qed.

Lemma quality_score_Raise (r : record) e : quality_score r = Raise e → e = TypeError.
Proof.
  intros H. pose proof (quality_score_cases r) as C.
  destruct (_ && _).
  - destruct C as [q Hq]. by rewrite Hq in H.
  - rewrite C in H. by injection H as <-.
Qed.

(** The members of a selection. *)
Lemma select_members (n : nat) (records sel : list record) :
  select n records = Ok sel →
  ∀ r, r ∈ sel →
    r ∈ records ∧ is_tier1 r = true ∧ has_signal r = true ∧
    falsy_or_number (get r "witness_count") = true ∧
    falsy_or_number (get r "duration_seconds") = true.
Proof.
  intros H r Hr.
  destruct (select_inv _ _ _ H) as (hs & sorted & Hhs & Hperm & Hkeys & _ & ->).
  apply subseteq_take in Hr.
  assert (r ∈ hs) as Hin by by rewrite <- Hperm.
  destruct (high_signal_of_inv _ _ Hhs) as [_ Hall].
  destruct (Hall r Hin) as (Hrec & Ht & Hs).
  apply list_elem_of_fmap in Hr as (p & -> & Hp).
  rewrite Forall_forall in Hkeys. specialize (Hkeys p Hp). simpl in Hkeys.
  destruct (quality_score_Ok _ _ Hkeys) as (Hw & Hd & _).
  split; [done|]. split; [done|]. split; [|done].
  by destruct (is_high_signal_Ok _ _ Hs) as [<- _].
Qed.

Lemma has_signal_quality (r : record) :
  has_signal r = true →
  falsy_or_integer (get r "witness_count") = true →
  2 ≤ quality_rule r.
Proof.
  intros Hs Hw. unfold quality_rule.
  assert (0 ≤ (if exceeds (get r "witness_count") 1
               then Z.min 3 (int_of (get r "witness_count")) else 0)
          ∧ (exceeds (get r "witness_count") 1 = true →
             2 ≤ (if exceeds (get r "witness_count") 1
                  then Z.min 3 (int_of (get r "witness_count")) else 0)))
    as [H0 H2].
  { destruct (exceeds _ 1) eqn:Ex; [|split; [lia | done]].
    destruct (exceeds_integer _ _ Ex Hw) as [_ Hi]. split; [lia|]. intros _. lia. }
  unfold has_signal in Hs.
  destruct (truthy (get r "physiological_effects")),
           (truthy (get r "em_interference")),
           (truthy (get r "earthquake_nearby")),
           (truthy (get r "geomagnetic_storm")),
           (exceeds (get r "duration_seconds") 60),
           (shape_is_specific r); simpl in Hs;
    try specialize (H2 Hs); lia.
Qed.

(** X11. Every selected record carries a signal: a truthy
    [physiological_effects], [em_interference] or [earthquake_nearby], or a
    count above 1.  When its count is an integer its quality score is
    therefore between 2 and 15, and, having coordinates, its triage score is
    between 3 and 10. *)
Theorem selected_records_have_a_signal (n : nat) (records sel : list record) :
  select n records = Ok sel →
  Forall (λ r, has_signal r = true ∧
               (falsy_or_integer (get r "witness_count") = true →
                ∃ q t, quality_score r = Ok (PInt q) ∧ 2 ≤ q ≤ 15 ∧
                       calc_triage_score r = Ok (PInt t) ∧ 3 ≤ t ≤ 10)) sel.
Proof.
  intros H. apply Forall_forall. intros r Hr.
  destruct (select_members _ _ _ H r Hr) as (_ & Ht & Hs & _ & Hd).
  split; [done|]. intros Hw.
  exists (quality_rule r), (triage_rule r).
  split; [by apply quality_score_int|].
  split; [pose proof (quality_rule_bounds r Hw); pose proof (has_signal_quality r Hs Hw); lia|].
  split; [by apply calc_triage_score_int|].
  pose proof (triage_rule_bounds r Hw). split; [|lia].
  unfold triage_rule. rewrite (is_tier1_coordinates r Ht).
  pose proof (triage_other_terms_bounds r Hw). lia.
Qed.

Lemma selected_records_have_a_signal_witness :
  select 3 sample_records = Ok [r_em_crowd; r_em_only; r_em_only] ∧
  Forall (λ r, has_signal r = true ∧
               (falsy_or_integer (get r "witness_count") = true →
                ∃ q t, quality_score r = Ok (PInt q) ∧ 2 ≤ q ≤ 15 ∧
                       calc_triage_score r = Ok (PInt t) ∧ 3 ≤ t ≤ 10))
         [r_em_crowd; r_em_only; r_em_only].
Proof.
  assert (select 3 sample_records = Ok [r_em_crowd; r_em_only; r_em_only]) as E
    by vm_refl.
  split; [exact E|]. exact (selected_records_have_a_signal 3 sample_records _ E).
Defined.

(** X12. The selection keeps the best: the selected records together with
    the dropped ones are the high-signal records, [min(n, number of
    high-signal records)] are selected, nothing is dropped when there are at
    most [n] of them, and no dropped record has a higher quality score than a
    selected one. *)
Theorem selection_keeps_the_best (n : nat) (records sel : list record) :
  select n records = Ok sel →
  ∃ hs dropped,
    high_signal_of records = Ok hs ∧
    sel ++ dropped ≡ₚ hs ∧
    length sel = (n `min` length hs)%nat ∧
    ((length hs ≤ n)%nat → dropped = [] ∧ sel ≡ₚ hs) ∧
    (∀ a b, a ∈ sel → b ∈ dropped →
       ∃ qa qb, quality_score a = Ok qa ∧ quality_score b = Ok qb
                ∧ num_lt qa qb = false).
Proof.
  intros H.
  destruct (select_inv _ _ _ H) as (hs & sorted & Hhs & Hperm & Hkeys & Hsorted & ->).
  exists hs, (drop n sorted.*2).
  assert (length sorted.*2 = length hs) as Hlen by by rewrite Hperm.
  split; [done|]. split; [by rewrite take_drop|].
  split; [rewrite length_take; lia|].
  split.
  { intros Hn. rewrite drop_ge, take_ge by lia. done. }
  intros a b Ha Hb.
  apply elem_of_take in Ha as (i & Hi & Hin).
  apply list_elem_of_lookup in Hb as (j & Hj). rewrite lookup_drop in Hj.
  rewrite list_lookup_fmap in Hi, Hj.
  destruct (sorted !! i) as [[qa a']|] eqn:Ei; [|done].
  destruct (sorted !! (n + j)%nat) as [[qb b']|] eqn:Ej; [|done].
  simpl in Hi, Hj. injection Hi as ->. injection Hj as ->.
  exists qa, qb.
  rewrite Forall_forall in Hkeys.
  split; [apply (Hkeys (qa, a)); by eapply list_elem_of_lookup_2|].
  split; [apply (Hkeys (qb, b)); by eapply list_elem_of_lookup_2|].
  apply (StronglySorted_lookup key_not_lower sorted i (n + j) (qa, a) (qb, b));
    auto. lia.
Qed.

Lemma selection_keeps_the_best_witness :
  select 3 sample_records = Ok [r_em_crowd; r_em_only; r_em_only] ∧
  ∃ hs dropped,
    high_signal_of sample_records = Ok hs ∧
    [r_em_crowd; r_em_only; r_em_only] ++ dropped ≡ₚ hs ∧
    length [r_em_crowd; r_em_only; r_em_only] = (3 `min` length hs)%nat.
Proof.
  assert (select 3 sample_records = Ok [r_em_crowd; r_em_only; r_em_only]) as E
    by vm_refl.
  split; [exact E|].
  destruct (selection_keeps_the_best 3 sample_records _ E)
    as (hs & dropped & H1 & H2 & H3 & _).
  exists hs, dropped. split; [exact H1|]. split; [exact H2 | exact H3].
Defined.

(** The selection returns as soon as the Tier 1 records are well typed where
    it looks. *)
Lemma select_returns_tier1 (n : nat) (records : list record) :
  Forall (λ r, is_tier1 r = true →
               falsy_or_number (get r "witness_count") = true ∧
               (has_signal r = true →
                falsy_or_number (get r "duration_seconds") = true)) records →
  returns (select n records).
Proof.
  intros Hty. rewrite Forall_forall in Hty. unfold select.
  assert (returns (high_signal_of records)) as [hs Hhs].
  { apply filterM_returns. apply Forall_forall. intros r Hr.
    apply list_elem_of_In, filter_In in Hr as [Hr Ht].
    apply list_elem_of_In in Hr.
    apply is_high_signal_returns. by apply (Hty r Hr). }
  rewrite Hhs, bind_Ok. unfold sort_by_quality.
  assert (returns (mapM quality_score hs)) as [keys ->].
  { apply mapM_returns. apply Forall_forall. intros r Hr.
    destruct (high_signal_of_inv _ _ Hhs) as [_ Hin].
    destruct (Hin r Hr) as (Hr' & Ht & Hs).
    destruct (Hty r Hr' Ht) as [Hw Hd].
    destruct (is_high_signal_Ok _ _ Hs) as [Hsig _].
    destruct (quality_score_returns r Hw (Hd (eq_sym Hsig))) as (q & -> & _).
    by eexists. }
  by eexists.
Qed.

Lemma select_Raise (n : nat) (records : list record) e :
  select n records = Raise e → e = TypeError.
Proof.
  unfold select. destruct (high_signal_of records) as [hs|e'] eqn:Hhs.
  - rewrite bind_Ok. unfold sort_by_quality.
    destruct (mapM quality_score hs) as [keys|e'] eqn:Hk; [done|].
    intros [= <-]. apply mapM_Raise in Hk as (r & _ & Hr).
    by apply quality_score_Raise in Hr.
  - intros [= <-]. apply filterM_Raise in Hhs as (r & _ & Hr).
    by apply is_high_signal_Raise in Hr.
Qed.

(** X13. The selection returns exactly when every Tier 1 record has a count
    that is falsy or a number and, if it carries a signal, a duration that is
    falsy or a number; otherwise it raises [TypeError].  Records that are not
    Tier 1 are never looked at.  A Tier 1 record with a flag set and a text
    as count passes the high-signal filter, whose [or] stops at the flag, and
    makes the sort raise. *)
Theorem select_raises_exactly_on_non_numbers (n : nat) (records : list record) :
  (returns (select n records) ↔
   Forall (λ r, is_tier1 r = true →
                falsy_or_number (get r "witness_count") = true ∧
                (has_signal r = true →
                 falsy_or_number (get r "duration_seconds") = true)) records) ∧
  (∀ e, select n records = Raise e → e = TypeError) ∧
  (∀ r, is_tier1 r = false → select n (r :: records) = select n records) ∧
  is_high_signal r_flag_text_count = Ok true ∧
  select n [r_flag_text_count] = Raise TypeError ∧
  select n [r_text_count] = Ok [].
Proof.
  split; [split|].
  - intros [sel H]. apply Forall_forall. intros r Hr Ht.
    pose proof H as Hsel. unfold select in H.
    apply bind_Ok_inv in H as (hs & Hhs & H).
    apply bind_Ok_inv in H as (sorted & Hsorted & _).
    unfold sort_by_quality in Hsorted.
    apply bind_Ok_inv in Hsorted as (keys & Hkeys & _).
    apply mapM_Ok in Hkeys.
    assert (∀ x, x ∈ hs → falsy_or_number (get x "witness_count") = true
                          ∧ falsy_or_number (get x "duration_seconds") = true) as Hq.
    { intros x Hx. apply list_elem_of_lookup in Hx as (i & Hi).
      destruct (Forall2_lookup_l _ _ _ _ _ Hkeys Hi) as (k & _ & Hk).
      destruct (quality_score_Ok _ _ Hk) as (? & ? & _). done. }
    assert (r ∈ List.filter is_tier1 records) as Hr1.
    { apply list_elem_of_In, filter_In. split; [by apply list_elem_of_In | done]. }
    destruct (filterM_Ok_all _ _ _ Hhs r Hr1) as (b & Hb & Hin).
    destruct (is_high_signal_Ok _ _ Hb) as [Hsig Hfalse].
    destruct b.
    + destruct (Hq r (Hin eq_refl)) as [Hw Hd]. done.
    + split; [by apply Hfalse|]. intros Hs. congruence.
  - apply select_returns_tier1.
  - split; [apply select_Raise|].
    split; [intros r Hr; unfold select, high_signal_of; simpl; by rewrite Hr|].
    split; [reflexivity|]. split; [reflexivity|]. by destruct n.
Qed.

(** X14. The statistics printed at the end cannot raise once the selection
    has returned: the count compared there was already compared by the
    quality scorer.  No count exceeds the number of selected records, and
    the counts of the three flags and of the multi-witness sightings together
    cover the selection, since every selected record has one of these
    signals. *)
Theorem statistics_cover_the_selection (n : nat) (records sel : list record) :
  select n records = Ok sel →
  ∃ q, data_quality_stats sel = Ok q ∧
    with_witness_count q
      = length (List.filter (λ r, exceeds (get r "witness_count") 1) sel) ∧
    (with_physiological_effects q ≤ length sel)%nat ∧
    (with_em_interference q ≤ length sel)%nat ∧
    (with_earthquake_nearby q ≤ length sel)%nat ∧
    (with_witness_count q ≤ length sel)%nat ∧
    (with_geomagnetic_storm q ≤ length sel)%nat ∧
    (length sel ≤ with_physiological_effects q + with_em_interference q
                  + with_earthquake_nearby q + with_witness_count q)%nat.
Proof.
  intros H. unfold data_quality_stats.
  rewrite (filterM_filter _ (λ r, exceeds (get r "witness_count") 1)).
  2:{ intros r Hr. destruct (select_members _ _ _ H r Hr) as (_ & _ & _ & Hw & _).
      by apply present_and_gt_typed. }
  rewrite bind_Ok. eexists. split; [reflexivity|]. simpl. unfold count_truthy.
  split; [done|].
  do 5 (split; [apply List.filter_length_le|]).
  apply (filter_length_cover
           (λ r, truthy (get r "physiological_effects"))
           (λ r, truthy (get r "em_interference"))
           (λ r, truthy (get r "earthquake_nearby"))
           (λ r, exceeds (get r "witness_count") 1)).
  apply Forall_forall. intros r Hr.
  by destruct (select_members _ _ _ H r Hr) as (_ & _ & Hs & _).
Qed.

Lemma statistics_cover_the_selection_witness :
  select 5 sample_records
    = Ok [r_em_crowd; r_em_only; r_em_only; r_two_witnesses; r_two_witnesses] ∧
  data_quality_stats
    [r_em_crowd; r_em_only; r_em_only; r_two_witnesses; r_two_witnesses]
    = Ok {| with_physiological_effects := 0; with_em_interference := 3;
            with_earthquake_nearby := 0; with_witness_count := 3;
            with_geomagnetic_storm := 0 |} ∧
  ∃ q, data_quality_stats
         [r_em_crowd; r_em_only; r_em_only; r_two_witnesses; r_two_witnesses] = Ok q ∧
       (5 ≤ with_physiological_effects q + with_em_interference q
            + with_earthquake_nearby q + with_witness_count q)%nat.
Proof.
  assert (select 5 sample_records
          = Ok [r_em_crowd; r_em_only; r_em_only; r_two_witnesses; r_two_witnesses])
    as E by vm_refl.
  split; [exact E|]. split; [vm_refl|].
  destruct (statistics_cover_the_selection 5 sample_records _ E)
    as (q & Hq & _ & _ & _ & _ & _ & _ & Hcover).
  exists q. split; [exact Hq | exact Hcover].
Defined.

(** ** The batches *)

Lemma range_from_spec (fuel i n step : nat) :
  (0 < step)%nat → (n - i ≤ fuel)%nat →
  range_from fuel i n step
  = (λ k, (i + k * step)%nat) <$> seq 0 ((n - i + step - 1) / step).
Proof.
  intros Hs. revert i. induction fuel as [|fuel IH]; intros i Hfuel; simpl.
  - replace (n - i + step - 1)%nat with (step - 1)%nat by lia.
    rewrite Nat.div_small by lia. done.
  - destruct (Nat.ltb_spec i n) as [Hlt|Hge].
    + rewrite IH by lia.
      assert ((n - i + step - 1) / step
              = S ((n - (i + step) + step - 1) / step))%nat as ->.
      { destruct (decide (n - i ≤ step)%nat) as [Hle|Hgt].
        - replace (n - (i + step) + step - 1)%nat with (step - 1)%nat by lia.
          replace (n - i + step - 1)%nat with (n - i - 1 + 1 * step)%nat by lia.
          rewrite Nat.div_add by lia. rewrite !Nat.div_small by lia. done.
        - replace (n - i + step - 1)%nat
            with (n - (i + step) + step - 1 + 1 * step)%nat by lia.
          rewrite Nat.div_add by lia. lia. }
      simpl. f_equal; [lia|].
      rewrite <- fmap_S_seq, <- list_fmap_compose.
      apply list_fmap_ext. intros _ k _. simpl. lia.
    + replace (n - i + step - 1)%nat with (step - 1)%nat by lia.
      rewrite Nat.div_small by lia. done.
Qed.

Lemma py_range_spec (n step : nat) :
  (0 < step)%nat →
  py_range n step = (λ k, (k * step)%nat) <$> seq 0 (total_batches step n).
Proof.
  intros Hs. unfold py_range, total_batches.
  rewrite range_from_spec by lia. by rewrite Nat.sub_0_r.
Qed.

(** [total_batches] is the ceiling of [n / batch_size]: batch [k] exists
    exactly when it starts inside the list. *)
Lemma total_batches_spec (batch_size n k : nat) :
  (0 < batch_size)%nat →
  (k < total_batches batch_size n ↔ k * batch_size < n)%nat.
Proof.
  intros Hb. unfold total_batches. split.
  - intros Hk. destruct (decide (k * batch_size < n)%nat) as [|Hn]; [done|].
    exfalso. assert ((n + batch_size - 1) / batch_size < S k)%nat; [|lia].
    apply Nat.Div0.div_lt_upper_bound. lia.
  - intros Hk. apply (Nat.div_le_lower_bound _ _ (S k)); lia.
Qed.

Lemma total_batches_ceiling (batch_size n : nat) :
  (0 < batch_size)%nat →
  (n ≤ total_batches batch_size n * batch_size < n + batch_size)%nat.
Proof.
  intros Hb. split.
  - pose proof (total_batches_spec batch_size n (total_batches batch_size n) Hb).
    lia.
  - destruct (total_batches batch_size n) as [|k] eqn:E; [lia|].
    pose proof (proj1 (total_batches_spec batch_size n k Hb)). lia.
Qed.

(** The log of the loop: one call for each start of [range], with the slice
    that starts there; the counters agree with the log. *)
Lemma import_batches_log sink (batch_size : nat) (investigations : list record) :
  (0 < batch_size)%nat →
  let st := import_batches sink batch_size investigations in
  tally_ok sink st ∧
  (calls st).*1
    = (λ k, take batch_size (drop (k * batch_size) investigations))
        <$> seq 0 (total_batches batch_size (length investigations)) ∧
  concat (calls st).*1 = investigations ∧
  (imported st + failed st = length investigations)%nat.
Proof.
  intros Hb st. unfold import_batches in st.
  set (st0 := {| imported := 0; failed := 0; calls := [] |}) in st.
  assert (tally_ok sink st0) as H0.
  { split; [done|]. split; [done|]. intros k batch ok Hk. destruct k; discriminate. }
  pose proof (loop_tally sink investigations batch_size
                (py_range (length investigations) batch_size) _ H0) as Ht.
  fold st in Ht.
  pose proof (loop_calls sink investigations batch_size
                (py_range (length investigations) batch_size) st0) as Hc.
  fold st in Hc. simpl in Hc.
  assert (concat (calls st).*1 = investigations) as Hcover.
  { rewrite Hc. unfold py_range. rewrite batches_cover by (done || lia).
    by rewrite drop_0. }
  split; [exact Ht|]. split; [|split; [exact Hcover|]].
  - rewrite Hc, py_range_spec, <- list_fmap_compose by done.
    apply list_fmap_ext. intros _ k _. simpl. unfold slice.
    by replace (k * batch_size + batch_size - k * batch_size)%nat
      with batch_size by lia.
  - destruct Ht as (Hf & Hi & _).
    rewrite Hf, Hi, sum_lengths_split, sum_lengths_concat, Hcover. done.
Qed.

(** The size of batch [k]. *)
Lemma batch_length (batch_size k : nat) (investigations : list record) :
  (0 < batch_size)%nat →
  (k < total_batches batch_size (length investigations))%nat →
  let batch := take batch_size (drop (k * batch_size) investigations) in
  (1 ≤ length batch ≤ batch_size)%nat ∧
  ((S k < total_batches batch_size (length investigations))%nat →
   length batch = batch_size) ∧
  (S k = total_batches batch_size (length investigations) →
   length batch = (length investigations - k * batch_size)%nat).
Proof.
  intros Hb Hk batch. unfold batch. rewrite length_take, length_drop.
  apply total_batches_spec in Hk; [|done].
  split; [lia|]. split.
  - intros Hk'. apply total_batches_spec in Hk'; [|done]. lia.
  - intros Hk'.
    pose proof (proj2 (total_batches_spec batch_size (length investigations) (S k) Hb)).
    lia.
Qed.

Lemma calls_batch sink (batch_size : nat) (investigations : list record) k c :
  (0 < batch_size)%nat →
  calls (import_batches sink batch_size investigations) !! k = Some c →
  (k < total_batches batch_size (length investigations))%nat ∧
  c.1 = take batch_size (drop (k * batch_size) investigations).
Proof.
  intros Hb Hk.
  destruct (import_batches_log sink batch_size investigations Hb) as (_ & Hc & _).
  assert ((calls (import_batches sink batch_size investigations)).*1 !! k
          = Some c.1) as Hk1 by by rewrite list_lookup_fmap, Hk.
  rewrite Hc, list_lookup_fmap in Hk1.
  destruct (seq 0 _ !! k) as [k'|] eqn:Es; [|done].
  apply lookup_seq in Es as [-> Hlt]. simpl in Hk1. injection Hk1 as <-. done.
Qed.

Lemma calls_nonempty sink (batch_size : nat) (investigations : list record) :
  (0 < batch_size)%nat →
  Forall (λ c : call, (1 ≤ length c.1 ≤ batch_size)%nat)
         (calls (import_batches sink batch_size investigations)).
Proof.
  intros Hb. apply Forall_lookup. intros k c Hk.
  destruct (calls_batch _ _ _ _ _ Hb Hk) as [Hlt ->].
  by destruct (batch_length batch_size k investigations Hb Hlt) as [? _].
Qed.

(** X15. [n] investigations are sent in [ceil(n / batch_size)] calls, the
    number the loop prints as [total_batches]; call [k] (from 0) is labelled
    [batch_num = k + 1] and carries the records from position
    [k * batch_size] on: [batch_size] of them, except for the last call,
    which carries the rest.  No call is made with an empty batch. *)
Theorem batches_are_full_but_the_last
    (sink : list call → list record → bool)
    (batch_size : nat) (investigations : list record) :
  (0 < batch_size)%nat →
  let n := length investigations in
  let st := import_batches sink batch_size investigations in
  length (calls st) = total_batches batch_size n ∧
  (n ≤ total_batches batch_size n * batch_size < n + batch_size)%nat ∧
  (∀ k c, calls st !! k = Some c →
     py_range n batch_size !! k = Some (k * batch_size)%nat ∧
     batch_num batch_size (k * batch_size) = S k ∧
     c.1 = take batch_size (drop (k * batch_size) investigations) ∧
     (1 ≤ length c.1 ≤ batch_size)%nat ∧
     ((S k < total_batches batch_size n)%nat → length c.1 = batch_size) ∧
     (S k = total_batches batch_size n →
      length c.1 = (n - k * batch_size)%nat)).
Proof.
  intros Hb n st.
  destruct (import_batches_log sink batch_size investigations Hb) as (_ & Hc & _).
  fold st in Hc. split.
  { rewrite <- (length_fmap fst), Hc, length_fmap, length_seq. done. }
  split; [by apply total_batches_ceiling|].
  intros k c Hk. destruct (calls_batch _ _ _ _ _ Hb Hk) as [Hlt Hc1].
  split.
  { rewrite py_range_spec, list_lookup_fmap, lookup_seq_lt by done. done. }
  split.
  { unfold batch_num. rewrite Nat.div_mul by lia. lia. }
  split; [done|]. rewrite Hc1.
  exact (batch_length batch_size k investigations Hb Hlt).
Qed.

Lemma batches_are_full_but_the_last_witness :
  (0 < 2)%nat ∧
  total_batches 2 5 = 3%nat ∧
  (calls (import_batches sink_second_fails 2
            [r_em_crowd; r_em_only; r_em_only; r_two_witnesses; r_two_witnesses])).*1
    = [[r_em_crowd; r_em_only]; [r_em_only; r_two_witnesses]; [r_two_witnesses]] ∧
  length (calls (import_batches sink_second_fails 2
            [r_em_crowd; r_em_only; r_em_only; r_two_witnesses; r_two_witnesses]))
    = total_batches 2 5.
Proof.
  split; [lia|]. split; [reflexivity|]. split; [reflexivity|].
  apply (batches_are_full_but_the_last sink_second_fails 2
           [r_em_crowd; r_em_only; r_em_only; r_two_witnesses; r_two_witnesses]).
  lia.
Defined.

Lemma no_raised_iff (l : list call) :
  Forall (λ c : call, (1 ≤ length c.1)%nat) l →
  sum_list_with (λ c : call, length c.1) (filter raised l) = 0%nat
  ↔ Forall inserted l.
Proof.
  induction 1 as [|[b ok] l Hc _ IH]; [by split; [constructor|]|].
  rewrite filter_cons. unfold raised at 1. simpl in *. destruct ok.
  - rewrite decide_False by done. rewrite IH. split.
    + by constructor.
    + by inversion 1.
  - rewrite decide_True by done. simpl. split; [lia|].
    inversion 1 as [|? ? Hi]. discriminate Hi.
Qed.

Lemma all_raised_sum (l : list call) :
  Forall raised l →
  sum_list_with (λ c : call, length c.1) (filter inserted l) = 0%nat.
Proof.
  induction 1 as [|[b ok] l Hc _ IH]; [done|].
  unfold raised in Hc. simpl in Hc. subst ok.
  rewrite filter_cons_False by (unfold inserted; simpl; congruence). done.
Qed.

(** X16. The failure total is 0 exactly when no call raised, which is also
    exactly when every investigation is counted as imported.  With a sink
    that never raises all investigations are imported; with one that always
    raises all of them are counted as failed, each batch having been tried
    once. *)
Theorem all_imported_unless_a_call_raises
    (sink : list call → list record → bool)
    (batch_size : nat) (investigations : list record) :
  (0 < batch_size)%nat →
  let st := import_batches sink batch_size investigations in
  (failed st = 0%nat ↔ Forall inserted (calls st)) ∧
  (imported st = length investigations ↔ Forall inserted (calls st)) ∧
  ((∀ history batch, sink history batch = true) →
   imported st = length investigations ∧ failed st = 0%nat) ∧
  ((∀ history batch, sink history batch = false) →
   imported st = 0%nat ∧ failed st = length investigations
   ∧ length (calls st) = total_batches batch_size (length investigations)).
Proof.
  intros Hb st.
  destruct (import_batches_log sink batch_size investigations Hb)
    as ((Hf & Hi & Hlog) & Hc & _ & Hsum).
  fold st in Hf, Hi, Hlog, Hc, Hsum.
  pose proof (calls_nonempty sink batch_size investigations Hb) as Hne.
  fold st in Hne.
  assert (failed st = 0%nat ↔ Forall inserted (calls st)) as H0.
  { rewrite Hf. apply no_raised_iff.
    eapply Forall_impl; [exact Hne|]. simpl. intros; lia. }
  split; [exact H0|].
  split; [rewrite <- H0; lia|].
  split.
  - intros Hs. assert (failed st = 0%nat); [|lia].
    apply H0, Forall_lookup. intros k [b ok] Hk.
    unfold inserted. simpl. by rewrite (Hlog k b ok Hk).
  - intros Hs. assert (imported st = 0%nat) as Him.
    { rewrite Hi. apply all_raised_sum, Forall_lookup. intros k [b ok] Hk.
      unfold raised. simpl. by rewrite (Hlog k b ok Hk). }
    split; [done|]. split; [lia|].
    rewrite <- (length_fmap fst), Hc, length_fmap, length_seq. done.
Qed.

Lemma all_imported_unless_a_call_raises_witness :
  (0 < 2)%nat ∧
  failed (import_batches sink_second_fails 2
            [r_em_crowd; r_em_only; r_em_only; r_two_witnesses; r_two_witnesses])
    = 2%nat ∧
  ¬ Forall inserted
      (calls (import_batches sink_second_fails 2
                [r_em_crowd; r_em_only; r_em_only; r_two_witnesses; r_two_witnesses])).
Proof.
  split; [lia|]. split; [reflexivity|].
  intros H.
  apply (all_imported_unless_a_call_raises sink_second_fails 2
           [r_em_crowd; r_em_only; r_em_only; r_two_witnesses; r_two_witnesses])
    in H; [discriminate H | lia].
Defined.

(** ** The transformer and [main] as a whole *)

Lemma make_title_cases str_of (r : record) :
  if falsy_or_sliceable (get r "date_time")
  then returns (make_title str_of r)
  else make_title str_of r = Raise (slice_error (get r "date_time")).
Proof.
  unfold make_title, falsy_or_sliceable, get, get_or.
  destruct (r !! "date_time") as [v|]; simpl; [|by eexists].
  destruct (truthy v) eqn:T; simpl; [|by eexists].
  destruct v; simpl; try done; by eexists.
Qed.

Lemma transform_record_cases str_of (r : record) :
  if well_typed r
  then returns (transform_record str_of r)
  else transform_record str_of r = Raise (transform_error r).
Proof.
  unfold well_typed, transform_error, transform_record.
  pose proof (calc_triage_score_cases r) as T.
  destruct (falsy_or_number (get r "witness_count")
            && falsy_or_number (get r "duration_seconds"));
    cbn [andb]; [|by rewrite T].
  destruct T as [t ->]. rewrite bind_Ok.
  rewrite calc_confound_score_cases. cbv zeta. unfold none_or_number.
  destruct (is_none (get r "airport_nearby_km") || _); cbn [andb]; [|done].
  destruct (is_none (get r "military_base_nearby_km") || _); cbn [andb]; [|done].
  rewrite bind_Ok.
  pose proof (make_title_cases str_of r) as M.
  destruct (falsy_or_sliceable (get r "date_time")); [|by rewrite M].
  destruct M as [title ->]. rewrite bind_Ok. by eexists.
Qed.


Lemma mapM_Ok_length {A B} (f : A → result B) (l : list A) (k : list B) :
  mapM f l = Ok k → length k = length l.
Proof. intros H. symmetry. eapply Forall2_length, mapM_Ok, H. Qed.

(** X18. When [main] returns, the batches it sent are, in order, the
    transformed selection: every selected record was sent exactly once, so
    the import and the failure total add up to the number of selected
    records, at most 5000; at most 10 calls were made, each with between 1
    and 500 records. *)
Theorem main_sends_the_transformed_selection
    (str_of : pyval → string) (sink : list call → list record → bool)
    (records : list record) (st : loop_state) :
  main str_of sink records = Ok st →
  ∃ sel,
    select MAX_RECORDS records = Ok sel ∧
    mapM (transform_record str_of) sel = Ok (concat (calls st).*1) ∧
    (imported st + failed st = length sel)%nat ∧
    (length sel ≤ 5000)%nat ∧
    (length (calls st) ≤ 10)%nat ∧
    Forall (λ c : call, (1 ≤ length c.1 ≤ 500)%nat) (calls st).
Proof.
  intros H.
  destruct (main_inv _ _ _ _ H) as (sel & inv & Hsel & Hlen & Hinv & -> & Hb).
  destruct (import_batches_log sink BATCH_SIZE inv Hb) as (_ & Hc & Hcover & Hsum).
  pose proof (mapM_Ok_length _ _ _ Hinv) as Hl.
  exists sel. split; [done|]. split; [by rewrite Hcover|].
  split; [lia|]. split; [done|]. split.
  - rewrite <- (length_fmap fst), Hc, length_fmap, length_seq.
    unfold total_batches. change BATCH_SIZE with 500%nat.
    assert ((length inv + 500 - 1) / 500 < 11)%nat; [|lia].
    apply Nat.Div0.div_lt_upper_bound. lia.
  - apply (calls_nonempty sink BATCH_SIZE inv Hb).
Qed.

Lemma main_sends_the_transformed_selection_witness :
  main str_scalar sink_second_fails sample_records = Ok st_sample ∧
  imported st_sample = 5%nat ∧
  ∃ sel,
    select MAX_RECORDS sample_records = Ok sel ∧
    mapM (transform_record str_scalar) sel = Ok (concat (calls st_sample).*1) ∧
    (imported st_sample + failed st_sample = length sel)%nat.
Proof.
  assert (main str_scalar sink_second_fails sample_records = Ok st_sample) as E
    by vm_refl.
  split; [exact E|]. split; [vm_refl|].
  destruct (main_sends_the_transformed_selection _ _ _ _ E)
    as (sel & H1 & H2 & H3 & _).
  exists sel. split; [exact H1|]. split; [exact H2 | exact H3].
Defined.

(** X19. Given the records that were loaded, the rest of [main] (selection,
    transformation and batch loop) returns whenever every Tier 1 record is
    well typed.  Once the selection has returned, the count and the duration
    of the selected records need no further check: [main] then returns
    exactly when every selected record has distances that are [None] or
    numbers and a [date_time] that is falsy, a text or a list. *)
Theorem main_returns_on_well_typed_records
    (str_of : pyval → string) (sink : list call → list record → bool)
    (records : list record) :
  (Forall (λ r, is_tier1 r = true → well_typed r = true) records →
   returns (main str_of sink records)) ∧
  (∀ sel, select MAX_RECORDS records = Ok sel →
     (returns (main str_of sink records) ↔
      Forall (λ r, none_or_number (get r "airport_nearby_km") = true
                   ∧ none_or_number (get r "military_base_nearby_km") = true
                   ∧ falsy_or_sliceable (get r "date_time") = true) sel)).
Proof.
  assert (∀ sel, select MAX_RECORDS records = Ok sel →
     (returns (main str_of sink records) ↔
      Forall (λ r, none_or_number (get r "airport_nearby_km") = true
                   ∧ none_or_number (get r "military_base_nearby_km") = true
                   ∧ falsy_or_sliceable (get r "date_time") = true) sel)) as Hiff.
  { intros sel Hsel. unfold main. rewrite Hsel, bind_Ok. split.
    - intros [st H]. apply bind_Ok_inv in H as (inv & Hinv & _).
      apply mapM_Ok in Hinv. apply Forall_lookup. intros i r Hi.
      destruct (Forall2_lookup_l _ _ _ _ _ Hinv Hi) as (out & _ & Hout).
      pose proof (transform_record_cases str_of r) as C.
      unfold well_typed in C.
      destruct (none_or_number (get r "airport_nearby_km")),
               (none_or_number (get r "military_base_nearby_km")),
               (falsy_or_sliceable (get r "date_time"));
        rewrite ?andb_false_r in C; simpl in C; try done; by rewrite C in Hout.
    - intros Hall.
      assert (returns (mapM (transform_record str_of) sel)) as [inv ->].
      { apply mapM_returns, Forall_forall. intros r Hr.
        rewrite Forall_forall in Hall. destruct (Hall r Hr) as (Ha & Hm & Hd).
        destruct (select_members _ _ _ Hsel r Hr) as (_ & _ & _ & Hw & Hdur).
        pose proof (transform_record_cases str_of r) as C.
        unfold well_typed in C. by rewrite Hw, Hdur, Ha, Hm, Hd in C. }
      rewrite bind_Ok. by eexists. }
  split; [|exact Hiff].
  intros Hall. rewrite Forall_forall in Hall.
  destruct (select_returns_tier1 MAX_RECORDS records) as [sel Hsel].
  { apply Forall_forall. intros r Hr Ht. specialize (Hall r Hr Ht).
    unfold well_typed in Hall.
    apply andb_prop in Hall as [Hall _]. apply andb_prop in Hall as [Hall _].
    apply andb_prop in Hall as [Hall _]. apply andb_prop in Hall as [Hw Hd].
    done. }
  apply (Hiff sel Hsel). apply Forall_forall. intros r Hr.
  destruct (select_members _ _ _ Hsel r Hr) as (Hin & Ht & _).
  specialize (Hall r Hin Ht). unfold well_typed in Hall.
  apply andb_prop in Hall as [Hall Hdate]. apply andb_prop in Hall as [Hall Hm].
  apply andb_prop in Hall as [_ Ha]. done.
Qed.

Lemma main_returns_on_well_typed_records_witness :
  Forall (λ r, is_tier1 r = true → well_typed r = true) sample_records ∧
  returns (main str_scalar sink_second_fails sample_records) ∧
  main str_scalar sink_second_fails sample_records = Ok st_sample.
Proof.
  assert (Forall (λ r, is_tier1 r = true → well_typed r = true) sample_records)
    as H by (repeat constructor).
  split; [exact H|].
  split; [exact (proj1 (main_returns_on_well_typed_records
                          str_scalar sink_second_fails sample_records) H)|].
  vm_refl.
Defined.
